(** * telemetry_scrapper: the scrape / fetch / append pipeline

    A shallow embedding of the two programs of the repository,

      - [src/local-test-two-networks.js], the local two-network script
        (module [Local] below), and
      - the scheduled serverless handler with its retry wrapper
        (module [Serverless] below),

    over a small monad of completions (normal / abrupt), an explicit
    machine state and a trace of the calls made to the outside world
    (browser, telemetry page, chain client, HTTP API, spreadsheet service,
    console). *)

From Stdlib Require Import ZArith List String Ascii Bool Lia DecimalString.
From Stdlib Require DecimalPos.
Import ListNotations.
Open Scope string_scope.
Open Scope Z_scope.

Set Implicit Arguments.

(** ** JavaScript values that travel through the pipeline *)

(** The numbers the programs handle are the results of [parseInt]: an
    integer or NaN.  The integer is kept exact (JavaScript rounds beyond
    2^53, and prints beyond 10^21 in exponent form; node counts are far
    below). *)
Inductive JsNumber : Type :=
| Int (z : Z)
| NaN.

Inductive JsValue : Type :=
| JUndefined
| JNull
| JBool (b : bool)
| JNum (n : JsNumber)
| JBigInt (z : Z)
| JStr (s : string).

(** Thrown values: a TypeError raised by the language itself, or whatever an
    external call rejected with. *)
Inductive Err : Type :=
| TypeError (msg : string)
| Rejected (reason : string).

Module Js.

(** [x ? a : b] and [if (x)]: ToBoolean. *)
Definition truthy (v : JsValue) : bool :=
  match v with
  | JUndefined | JNull => false
  | JBool b => b
  | JNum (Int z) => negb (z =? 0)
  | JNum NaN => false
  | JBigInt z => negb (z =? 0)
  | JStr s => negb (String.eqb s EmptyString)
  end.

(** [v !== null]. *)
Definition strict_neq_null (v : JsValue) : bool :=
  match v with
  | JNull => false
  | _ => true
  end.

Definition decimal (z : Z) : string := NilZero.string_of_int (Z.to_int z).

(** The abstract operation ToString. *)
Definition ToString (v : JsValue) : string :=
  match v with
  | JUndefined => "undefined"
  | JNull => "null"
  | JBool true => "true"
  | JBool false => "false"
  | JNum (Int z) => decimal z
  | JNum NaN => "NaN"
  | JBigInt z => decimal z
  | JStr s => s
  end.

(** The method call [v.toString()]: a TypeError on undefined and null. *)
Definition toString (v : JsValue) : Err + string :=
  match v with
  | JUndefined => inl (TypeError "Cannot read properties of undefined (reading 'toString')")
  | JNull => inl (TypeError "Cannot read properties of null (reading 'toString')")
  | _ => inr (ToString v)
  end.

(** White space and line terminators, on the ASCII range. *)
Definition is_space (c : ascii) : bool :=
  let n := nat_of_ascii c in
  (Nat.eqb n 32 || (Nat.leb 9 n && Nat.leb n 13))%bool.

Fixpoint trimStart (s : string) : string :=
  match s with
  | EmptyString => EmptyString
  | String c s' => if is_space c then trimStart s' else s
  end.

Fixpoint rev_string (s acc : string) : string :=
  match s with
  | EmptyString => acc
  | String c s' => rev_string s' (String c acc)
  end.

Definition trimEnd (s : string) : string :=
  rev_string (trimStart (rev_string s EmptyString)) EmptyString.

(** [s.trim()]. *)
Definition trim (s : string) : string := trimEnd (trimStart s).

Definition digit_value (c : ascii) : option Z :=
  let n := Z.of_nat (nat_of_ascii c) in
  if ((48 <=? n) && (n <=? 57))%bool then Some (n - 48)
  else if ((97 <=? n) && (n <=? 122))%bool then Some (n - 87)
  else if ((65 <=? n) && (n <=? 90))%bool then Some (n - 55)
  else None.

(** The value of the longest prefix of [s] made of digits of [radix];
    [acc] is [None] as long as no digit was read. *)
Fixpoint digits_prefix (radix : Z) (s : string) (acc : option Z) : option Z :=
  match s with
  | EmptyString => acc
  | String c s' =>
      match digit_value c with
      | Some d =>
          if d <? radix
          then digits_prefix radix s'
                 (Some (match acc with Some a => a * radix + d | None => d end))
          else acc
      | None => acc
      end
  end.

Definition strip_sign (s : string) : Z * string :=
  match s with
  | String "-" s' => (-1, s')
  | String "+" s' => (1, s')
  | _ => (1, s)
  end.

Definition strip_radix (s : string) : Z * string :=
  match s with
  | String "0" (String "x" s') => (16, s')
  | String "0" (String "X" s') => (16, s')
  | _ => (10, s)
  end.

(** [parseInt(v)], no radix argument. *)
Definition parseInt (v : JsValue) : JsValue :=
  let (sign, s1) := strip_sign (trimStart (ToString v)) in
  let (radix, s2) := strip_radix s1 in
  match digits_prefix radix s2 None with
  | Some n => JNum (Int (sign * n))
  | None => JNum NaN
  end.

(** What crosses [page.evaluate]: the value the function returns in the
    page is handed to Node by value, in the JSON form of the protocol, where
    NaN has no form and arrives as null.  (The values that cross here are
    numbers, null, booleans and strings.) *)
Definition by_value (v : JsValue) : JsValue :=
  match v with
  | JNum NaN => JNull
  | _ => v
  end.

(** [key.replace(/\\n/g, '\n')]: every backslash followed by [n] becomes a
    line feed. *)
Fixpoint unescape_newlines (s : string) : string :=
  match s with
  | EmptyString => EmptyString
  | String c s' =>
      match s' with
      | String "n" s'' =>
          if Ascii.eqb c "\"
          then String (ascii_of_nat 10) (unescape_newlines s'')
          else String c (unescape_newlines s')
      | _ => String c (unescape_newlines s')
      end
  end.

End Js.

(** ** Handles and data exchanged with the outside world *)

Inductive Browser : Type := browser_handle (id : nat).
Inductive Page : Type := page_handle (id : nat).
Inductive Api : Type := api_handle (id : nat).
Inductive Auth : Type := auth_handle (id : nat).
Inductive Sheets : Type := sheets_handle (id : nat).

(** A DOM element, as far as the programs look at it. *)
Record Element : Type := mkElement {
  element_id : nat;
  textContent : string
}.

(** The rendered page at the moment a function is evaluated in it:
    [document.querySelector(selector)] and
    [document.evaluate(xpath, document, null, FIRST_ORDERED_NODE_TYPE, null)
    .singleNodeValue]. *)
Record Document : Type := mkDocument {
  querySelector : string -> option Element;
  singleNodeValue : string -> option Element
}.

(** One snapshot: the object the stats extraction returns. *)
Record Stats : Type := mkStats {
  nodeCount : JsValue;
  subspaceNodeCount : JsValue;
  spaceAcresNodeCount : JsValue;
  linuxNodeCount : JsValue;
  windowsNodeCount : JsValue;
  macosNodeCount : JsValue
}.

(** The snapshot as [await page.evaluate(...)] resolves to it in Node: the
    object built in the page, each field passed by value. *)
Definition returned_by_value (st : Stats) : Stats :=
  mkStats (Js.by_value (nodeCount st))
          (Js.by_value (subspaceNodeCount st))
          (Js.by_value (spaceAcresNodeCount st))
          (Js.by_value (linuxNodeCount st))
          (Js.by_value (windowsNodeCount st))
          (Js.by_value (macosNodeCount st)).

(** The argument of [sheets.spreadsheets.values.append]; [values] is
    [resource.values], a list of rows. *)
Record AppendRequest : Type := mkAppendRequest {
  spreadsheetId : option string;
  range : string;
  valueInputOption : string;
  values : list (list JsValue)
}.

Record LaunchOptions : Type := mkLaunchOptions {
  launch_args : list string;
  launch_defaultViewport : option (Z * Z);
  launch_executablePath : option string;
  launch_headless : JsValue
}.

(** The body of the HTTP answer of the metric API, once parsed. *)
Inductive ResponseData : Type :=
| DataNull
| DataText (s : string)
| DataObject (fields : list (string * JsValue)).

Record AxiosResponse : Type := mkAxiosResponse {
  data : ResponseData
}.

(** The request the scheduler sends, and the answer of the handler (the
    JSON body is kept as its two fields). *)
Record RequestBody : Type := mkRequestBody {
  next_run : JsValue
}.

Record Request : Type := mkRequest {
  body : option RequestBody
}.

Record Response : Type := mkResponse {
  response_message : string;
  response_nextRun : JsValue;
  response_status : Z;
  response_contentType : string
}.

(** ** Trace of calls

    One event per call that leaves the program.  [ConsoleLog] and
    [ConsoleError] keep the message (the first argument) and the error
    printed; [Launch] also records the handle the launch resolved to,
    [None] when it rejected. *)
Inductive Event : Type :=
| ConsoleLog (msg : string)
| ConsoleError (msg : string) (e : Err)
| NewJWT (email : option string) (key : string)
| GoogleSheets (a : Auth)
| ExecutablePath
| Launch (opts : LaunchOptions) (acquired : option Browser)
| NewPage (b : Browser)
| PageOn (p : Page) (event : string)
| Goto (p : Page) (url : string) (timeout : Z)
| WaitForSelector (p : Page) (selector : string) (timeout : Z)
| Screenshot (p : Page) (path : string)
| Evaluate (p : Page)
| Click (el : Element)
| SetTimeout (ms : Z)
| Activate (networkId : string)
| SpacePledged (api : Api)
| AxiosGet (url : string)
| SheetsAppend (sh : Sheets) (req : AppendRequest)
| BrowserClose (b : Browser).

(** ** The monad: state, completions and trace *)

Inductive Completion (A : Type) : Type :=
| Normal (a : A)
| Abrupt (e : Err).

Arguments Normal {A} a.
Arguments Abrupt {A} e.

Record Run (St A : Type) : Type := mkRun {
  outcome : Completion A;
  final : St;
  events : list Event
}.

Definition M (St A : Type) : Type := St -> Run St A.

Section Monad.

Variable St : Type.

Definition ret {A : Type} (a : A) : M St A :=
  fun s => mkRun (Normal a) s [].

Definition throw {A : Type} (e : Err) : M St A :=
  fun s => mkRun (Abrupt e) s [].

Definition bind {A B : Type} (m : M St A) (k : A -> M St B) : M St B :=
  fun s =>
    let r := m s in
    match outcome r with
    | Normal a =>
        let r' := k a (final r) in
        mkRun (outcome r') (final r') (events r ++ events r')
    | Abrupt e => mkRun (Abrupt e) (final r) (events r)
    end.

(** [try { m } catch (error) { h error }]. *)
Definition try_catch {A : Type} (m : M St A) (h : Err -> M St A) : M St A :=
  fun s =>
    let r := m s in
    match outcome r with
    | Normal a => r
    | Abrupt e =>
        let r' := h e (final r) in
        mkRun (outcome r') (final r') (events r ++ events r')
    end.

(** [try { m } finally { f }]: [f] always runs; when it completes abruptly
    its error replaces the completion of [m]. *)
Definition try_finally {A : Type} (m : M St A) (f : M St unit) : M St A :=
  fun s =>
    let r := m s in
    let r' := f (final r) in
    mkRun (match outcome r' with
           | Normal _ => outcome r
           | Abrupt e => Abrupt e
           end)
          (final r') (events r ++ events r').

(** [await Promise.all([a, b])].  Both tasks are started by the time the
    array exists, so [b] runs whatever [a] does; they work on disjoint
    pages or networks and are run here one after the other, [a] first.
    The result rejects when a task does, with the error of [a] when both
    do.  This fixes what JavaScript leaves to timing: the order of the
    calls of the two tasks on the trace, which rejection comes first, and
    that a task still running when the other rejects goes on while the
    caller already handles the rejection.  The values the two tasks
    resolve to, and what is done with them, do not depend on it. *)
Definition promise_all2 {A B : Type} (a : M St A) (b : M St B) : M St (A * B) :=
  fun s =>
    let ra := a s in
    let rb := b (final ra) in
    mkRun (match outcome ra, outcome rb with
           | Normal x, Normal y => Normal (x, y)
           | Abrupt e, _ => Abrupt e
           | Normal _, Abrupt e => Abrupt e
           end)
          (final rb) (events ra ++ events rb).

Definition emit (ev : Event) : M St unit :=
  fun s => mkRun (Normal tt) s [ev].

Definition console_log (msg : string) : M St unit := emit (ConsoleLog msg).

Definition console_error (msg : string) (e : Err) : M St unit :=
  emit (ConsoleError msg e).

Definition when (b : bool) (m : M St unit) : M St unit :=
  if b then m else ret tt.

End Monad.

Arguments ret {St A} a.
Arguments throw {St A} e.
Arguments emit {St} ev.
Arguments console_log {St} msg.
Arguments console_error {St} msg e.

Declare Scope monad_scope.
Delimit Scope monad_scope with monad.
Notation "x <- m ;; k" := (bind m (fun x => k))
  (at level 61, m at next level, right associativity) : monad_scope.
Notation "m ;; k" := (bind m (fun _ => k))
  (at level 61, right associativity) : monad_scope.
Open Scope monad_scope.

(** ** The retry wrapper (serverless variant, lines 6-21) *)

Definition MAX_RETRIES : nat := 3.

Section Retry.

Variables (St V : Type).

(** One turn of the loop of [runWithRetry]: [Some v] when the function
    returns [v], [None] when control falls out of the [catch] block and the
    loop goes on.  [i === retries - 1] is only reached with [i < retries],
    where the subtraction on [nat] is the one of the source. *)
Definition retry_turn (fn : M St V) (retries i : nat) : M St (option V) :=
  try_catch
    (v <- fn ;; ret (Some v))
    (fun error =>
       console_error ("Attempt " ++ Js.decimal (Z.of_nat (i + 1)) ++ " failed:") error ;;
       if Nat.eqb i (retries - 1) then throw error else ret None).

(** The [for] loop from index [i], with [todo = retries - i] turns left.
    Leaving the loop returns undefined, [None]. *)
Fixpoint retry_loop (fn : M St V) (retries i todo : nat) : M St (option V) :=
  match todo with
  | O => ret None
  | S todo' =>
      r <- retry_turn fn retries i ;;
      match r with
      | Some v => ret (Some v)
      | None => retry_loop fn retries (S i) todo'
      end
  end.

Definition runWithRetry (fn : M St V) (retries : nat) : M St (option V) :=
  retry_loop fn retries 0 retries.

End Retry.

(** ** The outside world

    Every call into a library or a service is a function of an abstract
    world [W]: it answers with a completion of the awaited promise and the
    world after the call.  Nothing is assumed about them. *)
Record Externals (W : Type) : Type := mkExternals {
  (* process.env[name] and new Date().toISOString() *)
  process_env : string -> W -> option string;
  date_toISOString : W -> string;
  (* googleapis *)
  google_auth_JWT : option string -> string -> W -> Completion Auth * W;
  google_sheets : Auth -> W -> Completion Sheets * W;
  sheets_append : Sheets -> AppendRequest -> W -> Completion unit * W;
  (* puppeteer and @sparticuz/chromium *)
  chromium_args : list string;
  chromium_defaultViewport : option (Z * Z);
  chromium_headless : JsValue;
  chromium_executablePath : W -> Completion string * W;
  puppeteer_launch : LaunchOptions -> W -> Completion Browser * W;
  browser_newPage : Browser -> W -> Completion Page * W;
  browser_close : Browser -> W -> Completion unit * W;
  page_goto : Page -> string -> Z -> W -> Completion unit * W;
  page_waitForSelector : Page -> string -> Z -> W -> Completion unit * W;
  page_screenshot : Page -> string -> W -> Completion unit * W;
  (* page.evaluate: entering the page gives the document, or rejects *)
  page_evaluate : Page -> W -> Completion Document * W;
  element_click : Element -> W -> Completion unit * W;
  (* the passing of [ms] milliseconds *)
  setTimeout_elapse : Z -> W -> W;
  (* @autonomys/auto-utils, @autonomys/auto-consensus, axios *)
  activate : string -> W -> Completion Api * W;
  spacePledged : Api -> W -> Completion JsValue * W;
  axios_get : string -> W -> Completion AxiosResponse * W
}.

(** The state of a run: the world, and the local variable [browser] that
    the [try] block assigns and the [finally] block reads. *)
Record Machine (W : Type) : Type := mkMachine {
  world : W;
  browser : option Browser
}.

Section Calls.

Context {W : Type} (ext : Externals W).

Local Abbreviation St := (Machine W).

(** A call into the outside world: one event, then the answer of the
    world. *)
Definition call {A : Type} (ev : Event) (op : W -> Completion A * W) : M St A :=
  fun s =>
    let (c, w') := op (world s) in
    mkRun c (mkMachine w' (browser s)) [ev].

Definition read {A : Type} (f : W -> A) : M St A :=
  fun s => mkRun (Normal (f (world s))) s [].

(** [let browser;] and [browser = b]. *)
Definition declare_browser : M St unit :=
  fun s => mkRun (Normal tt) (mkMachine (world s) None) [].

Definition assign_browser (b : Browser) : M St unit :=
  fun s => mkRun (Normal tt) (mkMachine (world s) (Some b)) [].

Definition read_browser : M St (option Browser) :=
  fun s => mkRun (Normal (browser s)) s [].

(** [await new Promise(resolve => setTimeout(resolve, ms))]. *)
Definition sleep (ms : Z) : M St unit :=
  fun s => mkRun (Normal tt) (mkMachine (setTimeout_elapse ext ms (world s)) (browser s))
                 [SetTimeout ms].

Definition launch (opts : LaunchOptions) : M St Browser :=
  fun s =>
    let (c, w') := puppeteer_launch ext opts (world s) in
    mkRun c (mkMachine w' (browser s))
          [Launch opts (match c with Normal b => Some b | Abrupt _ => None end)].

Definition newPage (b : Browser) : M St Page :=
  call (NewPage b) (browser_newPage ext b).

Definition close (b : Browser) : M St unit :=
  call (BrowserClose b) (browser_close ext b).

Definition goto (p : Page) (url : string) (timeout : Z) : M St unit :=
  call (Goto p url timeout) (page_goto ext p url timeout).

Definition waitForSelector (p : Page) (selector : string) (timeout : Z) : M St unit :=
  call (WaitForSelector p selector timeout) (page_waitForSelector ext p selector timeout).

Definition screenshot (p : Page) (path : string) : M St unit :=
  call (Screenshot p path) (page_screenshot ext p path).

Definition evaluate (p : Page) : M St Document :=
  call (Evaluate p) (page_evaluate ext p).

Definition click (el : Element) : M St unit :=
  call (Click el) (element_click ext el).

(** [page.on(event, listener)]: the listener only forwards the console of
    the page, which is not part of the trace. *)
Definition page_on (p : Page) (event : string) : M St unit :=
  emit (PageOn p event).

Definition newJWT (email : option string) (key : string) : M St Auth :=
  call (NewJWT email key) (google_auth_JWT ext email key).

Definition googleSheets (a : Auth) : M St Sheets :=
  call (GoogleSheets a) (google_sheets ext a).

Definition append (sh : Sheets) (req : AppendRequest) : M St unit :=
  call (SheetsAppend sh req) (sheets_append ext sh req).

(** [process.env.GOOGLE_CLOUD_PRIVATE_KEY.replace(/\\n/g, '\n')]: a
    TypeError when the variable is not set. *)
Definition private_key : M St string :=
  k <- read (process_env ext "GOOGLE_CLOUD_PRIVATE_KEY") ;;
  match k with
  | Some key => ret (Js.unescape_newlines key)
  | None => throw (TypeError "Cannot read properties of undefined (reading 'replace')")
  end.

(** The authentication prologue both programs share:
    [new google.auth.JWT({...})] and [google.sheets({ version: 'v4', auth })]. *)
Definition authenticate : M St Sheets :=
  email <- read (process_env ext "GOOGLE_CLOUD_CLIENT_EMAIL") ;;
  key <- private_key ;;
  auth <- newJWT email key ;;
  googleSheets auth.

(** [if (browser) { await browser.close(); }]. *)
Definition close_if_launched : M St unit :=
  b <- read_browser ;;
  match b with
  | Some b => close b
  | None => ret tt
  end.

End Calls.

(** The XPath expressions of the source hold double quotes. *)
Definition dq : string := String (ascii_of_nat 34) EmptyString.

Definition CLICK_XPATH : string :=
  "//*[@id=" ++ dq ++ "root" ++ dq ++ "]/div/div[2]/div[1]/div[6]/div[3]".

Definition XPATH_LINUX : string :=
  "//*[@id=" ++ dq ++ "root" ++ dq ++ "]/div/div[2]/div[2]/div/div/div[3]/table/tbody/tr[1]/td[2]".

Definition XPATH_WINDOWS : string :=
  "//*[@id=" ++ dq ++ "root" ++ dq ++ "]/div/div[2]/div[2]/div/div/div[3]/table/tbody/tr[2]/td[2]".

Definition XPATH_MACOS : string :=
  "//*[@id=" ++ dq ++ "root" ++ dq ++ "]/div/div[2]/div[2]/div/div/div[3]/table/tbody/tr[3]/td[2]".

Definition SELECTOR_MARKER : string := ".Chains-chain-selected".

Definition SELECTOR_NODE_COUNT : string :=
  ".Chains-chain-selected .Chains-node-count".

Definition SELECTOR_SUBSPACE : string :=
  "#root > div > div.Chain > div.Chain-content-container > div > div > div:nth-child(2) > table > tbody > tr:nth-child(1) > td.Stats-count".

Definition SELECTOR_SPACE_ACRES : string :=
  "#root > div > div.Chain > div.Chain-content-container > div > div > div:nth-child(2) > table > tbody > tr:nth-child(2) > td.Stats-count".

(** ** The local two-network script, [src/local-test-two-networks.js] *)

Module Local.

Section Program.

Context {W : Type} (ext : Externals W).

Local Abbreviation St := (Machine W).

(** [waitForElement(page, selector, timeout = 10000)], lines 9-17. *)
Definition waitForElement (page : Page) (selector : string) (timeout : Z) : M St bool :=
  try_catch
    (waitForSelector ext page selector timeout ;;
     ret true)
    (fun error =>
       console_log ("Timeout waiting for selector: " ++ selector) ;;
       ret false).

(** The function evaluated in the page by the click loop, lines 47-60. *)
Definition click_element (doc : Document) : M St bool :=
  match singleNodeValue doc CLICK_XPATH with
  | Some element => click ext element ;; ret true
  | None => ret false
  end.

(** [await page.evaluate(() => {...})], lines 47-60: the function runs in
    the page and its boolean comes back. *)
Definition click_evaluation (page : Page) : M St bool :=
  doc <- evaluate ext page ;;
  click_element doc.

(** One turn of the click loop, lines 46-66: [true] stands for
    [clickSuccess = true; break], [false] for falling out of the [catch].
    What the evaluation returned is not looked at, line 61. *)
Definition click_turn (page : Page) (networkName : string) (i : nat) : M St bool :=
  try_catch
    (_ <- click_evaluation page ;;
     ret true)
    (fun error =>
       console_log (networkName ++ ": Click attempt " ++ Js.decimal (Z.of_nat (i + 1)) ++ " failed") ;;
       sleep ext 2000 ;;
       ret false).

(** [for (let i = 0; i < 3; i++)] from index [i] with [todo = 3 - i] turns
    left; the result is the final value of [clickSuccess]. *)
Fixpoint click_loop (page : Page) (networkName : string) (i todo : nat) : M St bool :=
  match todo with
  | O => ret false
  | S todo' =>
      clicked <- click_turn page networkName i ;;
      if clicked then ret true else click_loop page networkName (S i) todo'
  end.

(** Lines 43-71: the click loop and the message when [clickSuccess] is
    still false after it. *)
Definition click_phase (page : Page) (networkName : string) : M St unit :=
  clickSuccess <- click_loop page networkName 0 3 ;;
  when (negb clickSuccess)
       (console_log (networkName ++ ": Failed to click the element after multiple attempts")).

(** The helpers of the stats extraction, lines 83-91. *)
Definition getTextBySelector (doc : Document) (selector : string) : JsValue :=
  match querySelector doc selector with
  | Some element => JStr (Js.trim (textContent element))
  | None => JNull
  end.

Definition getTextByXPath (doc : Document) (xpath : string) : JsValue :=
  match singleNodeValue doc xpath with
  | Some element => JStr (Js.trim (textContent element))
  | None => JNull
  end.

(** The function evaluated in the page to read the stats, lines 77-113
    ([logValue] prints on the console of the page and returns its value):
    what it computes in the page. *)
Definition extractStats (doc : Document) : Stats :=
  let nodeCount :=
    match querySelector doc SELECTOR_NODE_COUNT with
    | Some element => Js.parseInt (JStr (textContent element))
    | None => JNull
    end in
  let subspaceNodeCount := Js.parseInt (getTextBySelector doc SELECTOR_SUBSPACE) in
  let spaceAcresNodeCount := Js.parseInt (getTextBySelector doc SELECTOR_SPACE_ACRES) in
  let linuxNodeCount := Js.parseInt (getTextByXPath doc XPATH_LINUX) in
  let windowsNodeCount := Js.parseInt (getTextByXPath doc XPATH_WINDOWS) in
  let macosNodeCount := Js.parseInt (getTextByXPath doc XPATH_MACOS) in
  mkStats nodeCount subspaceNodeCount spaceAcresNodeCount
          linuxNodeCount windowsNodeCount macosNodeCount.

(** Lines 20-41 of [scrapePageData]: navigation, the wait for the marker,
    the first pause and the screenshot. *)
Definition load_page (page : Page) (url networkName : string) : M St unit :=
  console_log ("Navigating to " ++ networkName ++ " page: " ++ url) ;;
  goto ext page url 60000 ;;
  console_log (networkName ++ ": Initial page load complete") ;;
  chainSelectorPresent <- waitForElement page SELECTOR_MARKER 10000 ;;
  when (negb chainSelectorPresent)
       (console_log (networkName ++ ": Chain selector not found after waiting")) ;;
  sleep ext 10000 ;;
  console_log (networkName ++ ": Completed initial wait period") ;;
  screenshot ext page (networkName ++ "_debug.png").

(** Lines 73-116: the pause after the click and the stats extraction.  The
    snapshot is what [page.evaluate] resolves to: the object computed in
    the page, returned by value. *)
Definition read_stats (page : Page) (networkName : string) : M St Stats :=
  sleep ext 5000 ;;
  console_log (networkName ++ ": Proceeding to extract stats") ;;
  doc <- evaluate ext page ;;
  let stats := returned_by_value (extractStats doc) in
  console_log (networkName ++ " stats extracted:") ;;
  ret stats.

(** [scrapePageData(page, url, networkName)], lines 19-117. *)
Definition scrapePageData (page : Page) (url networkName : string) : M St Stats :=
  load_page page url networkName ;;
  click_phase page networkName ;;
  read_stats page networkName.

(** One branch of [getSpacePledgedData], lines 123-126 and 128-131. *)
Definition fetch_from (network networkId : string) : M St JsValue :=
  api <- call (Activate networkId) (activate ext networkId) ;;
  data <- call (SpacePledged api) (spacePledged ext api) ;;
  console_log (network ++ " space pledged data:") ;;
  ret data.

(** [getSpacePledgedData(network)], lines 119-137.  Falling off the end of
    the function returns undefined. *)
Definition getSpacePledgedData (network : string) : M St JsValue :=
  console_log ("Fetching space pledged data for " ++ network) ;;
  try_catch
    (if String.eqb network "chronos" then fetch_from network "chronos"
     else if String.eqb network "mainnet" then fetch_from network "mainnet"
     else ret JUndefined)
    (fun error =>
       console_error ("Error fetching space pledged data for " ++ network ++ ":") error ;;
       throw error).

(** The row of one network, lines 186-195 and 209-218; [.toString()] is
    called on the pledged space while the row is built. *)
Definition build_row (timestamp : string) (stats : Stats) (pledged : JsValue)
  : M St (list JsValue) :=
  match Js.toString pledged with
  | inr text =>
      ret [JStr timestamp; nodeCount stats; JStr text;
           subspaceNodeCount stats; spaceAcresNodeCount stats;
           linuxNodeCount stats; windowsNodeCount stats; macosNodeCount stats]
  | inl error => throw error
  end.

(** One of the two guarded appends, lines 180-201 and 203-224, which differ
    by the name of the network only (it is the range and the word in the
    messages). *)
Definition append_network (sheets : Sheets) (sheetId : option string)
    (network timestamp : string) (stats : Stats) (pledged : JsValue) : M St unit :=
  if Js.strict_neq_null (nodeCount stats) then
    row <- build_row timestamp stats pledged ;;
    append ext sheets (mkAppendRequest sheetId network "USER_ENTERED" [row]) ;;
    console_log (network ++ " data appended to Google Sheet")
  else
    console_log ("Skipping " ++ network ++ " data append due to null values").

Definition CHRONOS_URL : string :=
  "https://telemetry.subspace.network/#list/0x91912b429ce7bf2975440a0920b46a892fddeeaed6ccc11c93f2d57ad1bd69ab".

Definition MAINNET_URL : string :=
  "https://telemetry.subspace.network/#list/0x66455a580aabff303720aa83adbe6c44502922251c03ba73686d5245da9e21bd".

Definition LAUNCH_OPTIONS : LaunchOptions :=
  mkLaunchOptions ["--no-sandbox"; "--disable-setuid-sandbox"; "--dns-prefetch-disable"]
                  None None (JBool true).

(** Lines 142-165 of the [try] block of [runScript]: authentication, the
    launch and the two pages; then [rest], with the Sheets client, the id of
    the sheet and the pages. *)
Definition with_pages {A : Type}
    (rest : Sheets -> option string -> Page -> Page -> M St A) : M St A :=
  console_log "Function invoked locally at:" ;;
  sheets <- authenticate ext ;;
  sheetId <- read (process_env ext "GOOGLE_SHEET_ID") ;;
  b <- launch ext LAUNCH_OPTIONS ;;
  assign_browser b ;;
  pages <- promise_all2 (newPage ext b) (newPage ext b) ;;
  let (chronosPage, mainnetPage) := pages in
  page_on chronosPage "console" ;;
  page_on mainnetPage "console" ;;
  rest sheets sheetId chronosPage mainnetPage.

(** Lines 167-224: the two scrapes, the two metric fetches, the timestamp
    and the two guarded appends. *)
Definition collect_and_append (sheets : Sheets) (sheetId : option string)
    (chronosPage mainnetPage : Page) : M St unit :=
  stats <- promise_all2 (scrapePageData chronosPage CHRONOS_URL "Chronos")
                        (scrapePageData mainnetPage MAINNET_URL "mainnet") ;;
  let (chronosStats, mainnetStats) := stats in
  pledged <- promise_all2 (getSpacePledgedData "chronos")
                          (getSpacePledgedData "mainnet") ;;
  let (chronosSpacePledged, mainnetSpacePledged) := pledged in
  timestamp <- read (date_toISOString ext) ;;
  append_network sheets sheetId "Chronos" timestamp chronosStats chronosSpacePledged ;;
  append_network sheets sheetId "mainnet" timestamp mainnetStats mainnetSpacePledged.

(** The [try] block of [runScript], lines 142-224. *)
Definition runScript_try : M St unit :=
  with_pages collect_and_append.

(** What the [try] block has in hand when it starts to scrape. *)
Definition prepare : M St (Sheets * option string * (Page * Page)) :=
  with_pages (fun sheets sheetId chronosPage mainnetPage =>
                ret (sheets, sheetId, (chronosPage, mainnetPage))).

(** [runScript()], lines 139-233. *)
Definition runScript : M St unit :=
  declare_browser ;;
  try_finally
    (try_catch
       runScript_try
       (fun error => console_error "Error details:" error))
    (close_if_launched ext).

End Program.

End Local.

(** ** The scheduled serverless handler *)

Module Serverless.

Section Program.

Context {W : Type} (ext : Externals W).

Local Abbreviation St := (Machine W).

Definition TELEMETRY_URL : string :=
  "https://telemetry.subspace.network/#/0x0c121c75f4ef450f40619e1fca9d1e8e7fbabc42c895bc4790801e85d5a91c34".

Definition API_URL : string := "https://telemetry.subspace.network/api".

(** [const { next_run } = req.body], line 27: a TypeError when the request
    has no body. *)
Definition destructure_body (req : Request) : M St JsValue :=
  match body req with
  | Some b => ret (next_run b)
  | None => throw (TypeError "Cannot destructure property 'next_run' of 'req.body'")
  end.

(** Lines 54-62: navigation, logged and thrown again on failure. *)
Definition navigate (page : Page) : M St unit :=
  try_catch
    (goto ext page TELEMETRY_URL 60000)
    (fun error =>
       console_error "Navigation failed:" error ;;
       throw error).

(** The function evaluated in the page for the click, lines 68-82. *)
Definition click_element (doc : Document) : M St string :=
  match singleNodeValue doc CLICK_XPATH with
  | Some element => click ext element ;; ret "Element clicked"
  | None => ret "Element not found"
  end.

(** The helpers of the stats extraction, lines 90-100. *)
Definition getTextBySelector (doc : Document) (selector : string) : JsValue :=
  match querySelector doc selector with
  | Some element => JStr (Js.trim (textContent element))
  | None => JNull
  end.

Definition getTextByXPath (doc : Document) (xpath : string) : JsValue :=
  match singleNodeValue doc xpath with
  | Some element => JStr (Js.trim (textContent element))
  | None => JNull
  end.

(** [text ? parseInt(text) : null], lines 117-121. *)
Definition parse_or_null (text : JsValue) : JsValue :=
  if Js.truthy text then Js.parseInt text else JNull.

(** The function evaluated in the page to read the stats, lines 89-123:
    what it computes in the page. *)
Definition extractStats (doc : Document) : Stats :=
  let nodeCount :=
    match querySelector doc SELECTOR_NODE_COUNT with
    | Some element => Js.parseInt (JStr (textContent element))
    | None => JNull
    end in
  let subspaceNodeCount := getTextBySelector doc SELECTOR_SUBSPACE in
  let spaceAcresNodeCount := getTextBySelector doc SELECTOR_SPACE_ACRES in
  let linuxNodeCount := getTextByXPath doc XPATH_LINUX in
  let windowsNodeCount := getTextByXPath doc XPATH_WINDOWS in
  let macosNodeCount := getTextByXPath doc XPATH_MACOS in
  mkStats nodeCount
          (parse_or_null subspaceNodeCount)
          (parse_or_null spaceAcresNodeCount)
          (parse_or_null linuxNodeCount)
          (parse_or_null windowsNodeCount)
          (parse_or_null macosNodeCount).

Fixpoint property (name : string) (fields : list (string * JsValue)) : JsValue :=
  match fields with
  | [] => JUndefined
  | (k, v) :: rest => if String.eqb k name then v else property name rest
  end.

(** [apiResponse.data.spacePledged], line 129. *)
Definition read_spacePledged (apiResponse : AxiosResponse) : M St JsValue :=
  match data apiResponse with
  | DataNull => throw (TypeError "Cannot read properties of null (reading 'spacePledged')")
  | DataText _ => ret JUndefined
  | DataObject fields => ret (property "spacePledged" fields)
  end.

(** The row, lines 140-149. *)
Definition build_row (timestamp : string) (stats : Stats) (pledged : JsValue)
  : list JsValue :=
  [JStr timestamp; nodeCount stats; pledged;
   subspaceNodeCount stats; spaceAcresNodeCount stats;
   linuxNodeCount stats; windowsNodeCount stats; macosNodeCount stats].

(** Lines 53-125: navigation, the click and the stats extraction; as in
    the local script the snapshot comes back from the page by value. *)
Definition scrape (page : Page) : M St Stats :=
  console_log "Navigating to the telemetry page..." ;;
  navigate page ;;
  console_log "Page loaded. Waiting for 5 seconds..." ;;
  sleep ext 5000 ;;
  console_log "Clicking on the specified element..." ;;
  doc <- evaluate ext page ;;
  clickResult <- click_element doc ;;
  console_log "Click result:" ;;
  console_log "Waiting after click..." ;;
  sleep ext 2000 ;;
  console_log "Extracting stats..." ;;
  doc <- evaluate ext page ;;
  let stats := returned_by_value (extractStats doc) in
  console_log "Stats extracted:" ;;
  ret stats.

(** Lines 127-130: the request to the metric API. *)
Definition fetch_spacePledged : M St JsValue :=
  console_log "Making API request..." ;;
  apiResponse <- call (AxiosGet API_URL) (axios_get ext API_URL) ;;
  spacePledged <- read_spacePledged apiResponse ;;
  console_log "Space pledged:" ;;
  ret spacePledged.

(** Lines 132-152: the append, under no condition. *)
Definition append_row (sheets : Sheets) (sheetId : option string)
    (stats : Stats) (spacePledged : JsValue) : M St unit :=
  timestamp <- read (date_toISOString ext) ;;
  console_log "Appending to Google Sheet..." ;;
  append ext sheets
    (mkAppendRequest sheetId "Sheet1" "USER_ENTERED"
                     [build_row timestamp stats spacePledged]) ;;
  console_log "Append result:".

(** Lines 27-51 of the [try] block of the wrapped function: the request,
    authentication, the launch and the page; then [rest], with [next_run],
    the Sheets client, the id of the sheet and the page. *)
Definition with_page {A : Type} (req : Request)
    (rest : JsValue -> Sheets -> option string -> Page -> M St A) : M St A :=
  next_run <- destructure_body req ;;
  console_log "Function invoked. Next run scheduled for:" ;;
  console_log "Current time:" ;;
  console_log "Setting up Google authentication..." ;;
  sheets <- authenticate ext ;;
  sheetId <- read (process_env ext "GOOGLE_SHEET_ID") ;;
  console_log "Using Google Sheet ID:" ;;
  console_log "Launching browser..." ;;
  path <- call ExecutablePath (chromium_executablePath ext) ;;
  b <- launch ext (mkLaunchOptions (chromium_args ext) (chromium_defaultViewport ext)
                                   (Some path) (chromium_headless ext)) ;;
  assign_browser b ;;
  page <- newPage ext b ;;
  page_on page "console" ;;
  rest next_run sheets sheetId page.

(** Lines 53-158: the scrape, the metric, the append and the answer. *)
Definition scrape_and_append (next_run : JsValue) (sheets : Sheets)
    (sheetId : option string) (page : Page) : M St Response :=
  stats <- scrape page ;;
  spacePledged <- fetch_spacePledged ;;
  append_row sheets sheetId stats spacePledged ;;
  console_log "Function completed successfully" ;;
  ret (mkResponse "Data updated successfully" next_run 200 "application/json").

(** The [try] block of the wrapped function, lines 27-158. *)
Definition attempt_try (req : Request) : M St Response :=
  with_page req scrape_and_append.

(** What the [try] block has in hand when it starts to scrape. *)
Definition prepare (req : Request) : M St (JsValue * Sheets * option string * Page) :=
  with_page req (fun next_run sheets sheetId page =>
                   ret (next_run, sheets, sheetId, page)).

(** [if (browser) { console.log('Closing browser...'); await browser.close(); }]. *)
Definition close_if_launched : M St unit :=
  b <- read_browser ;;
  match b with
  | Some b => console_log "Closing browser..." ;; close ext b
  | None => ret tt
  end.

(** The function handed to [runWithRetry], lines 24-168. *)
Definition attempt (req : Request) : M St Response :=
  declare_browser ;;
  try_finally
    (try_catch
       (attempt_try req)
       (fun error =>
          console_error "Error details:" error ;;
          throw error))
    close_if_launched.

(** The exported handler, lines 23-169; the default of [retries] is
    [MAX_RETRIES]. *)
Definition handler (req : Request) : M St (option Response) :=
  runWithRetry (attempt req) MAX_RETRIES.

End Program.

End Serverless.

(** ** Observations on runs *)

(** The browsers a trace acquires ([puppeteer.launch] resolved) and the
    ones it releases ([browser.close()] called), in order. *)
Fixpoint acquired (t : list Event) : list Browser :=
  match t with
  | [] => []
  | Launch _ (Some b) :: t' => b :: acquired t'
  | _ :: t' => acquired t'
  end.

Fixpoint released (t : list Event) : list Browser :=
  match t with
  | [] => []
  | BrowserClose b :: t' => b :: released t'
  | _ :: t' => released t'
  end.

(** The requests a trace sends to [sheets.spreadsheets.values.append]. *)
Fixpoint appended (t : list Event) : list AppendRequest :=
  match t with
  | [] => []
  | SheetsAppend _ req :: t' => req :: appended t'
  | _ :: t' => appended t'
  end.

(** The page evaluations and the pauses of a trace. *)
Fixpoint evaluations (t : list Event) : nat :=
  match t with
  | [] => 0%nat
  | Evaluate _ :: t' => S (evaluations t')
  | _ :: t' => evaluations t'
  end.

Fixpoint pauses (t : list Event) : list Z :=
  match t with
  | [] => []
  | SetTimeout ms :: t' => ms :: pauses t'
  | _ :: t' => pauses t'
  end.

(** The node-count cell of an appended row is its second cell. *)
Definition nodeCount_cell (req : AppendRequest) : option JsValue :=
  match values req with
  | [row] => nth_error row 1
  | _ => None
  end.

Definition throws {St A : Type} (r : Run St A) : Prop :=
  exists e, outcome r = Abrupt e.

Section Calls_in_a_row.

Variables (St V : Type).

(** The run of call number [n] (from 0) of [fn] when it is called again and
    again from state [s]. *)
Fixpoint nth_call (fn : M St V) (n : nat) (s : St) : Run St V :=
  match n with
  | O => fn s
  | S n' => nth_call fn n' (final (fn s))
  end.

(** The first [k] calls of [fn] from [s] throw. *)
Definition fails_first (fn : M St V) (k : nat) (s : St) : Prop :=
  forall i, (i < k)%nat -> throws (nth_call fn i s).

(** [k] is the number of consecutive failures of [fn] from [s]: its first
    [k] calls throw and the next one returns. *)
Definition consecutive_failures (fn : M St V) (k : nat) (s : St) : Prop :=
  fails_first fn k s /\ exists v, outcome (nth_call fn k s) = Normal v.

(** [fn] with a counter of its calls next to the state. *)
Definition counting (fn : M St V) : M (St * nat) V :=
  fun sn =>
    let r := fn (fst sn) in
    mkRun (outcome r) (final r, S (snd sn)) (events r).

Definition calls {A : Type} (r : Run (St * nat) A) : nat := snd (final r).

End Calls_in_a_row.

(** ** Predicates on runs *)

(** Events other than a launch or a release of the browser, and events
    other than those and an append. *)
Definition quiet (ev : Event) : Prop :=
  match ev with
  | Launch _ _ | BrowserClose _ => False
  | _ => True
  end.

Definition harmless (ev : Event) : Prop :=
  match ev with
  | Launch _ _ | BrowserClose _ | SheetsAppend _ _ => False
  | _ => True
  end.

(** An append whose row has a node count other than null. *)
Definition guarded (ev : Event) : Prop :=
  match ev with
  | SheetsAppend _ req => exists v, nodeCount_cell req = Some v /\ v <> JNull
  | _ => True
  end.


Definition same_browser {W : Type} (s s' : Machine W) : Prop :=
  browser s' = browser s.

Definition any_state {W : Type} (s s' : Machine W) : Prop := True.

(** [m] moves the state along [R] and emits only events of [P], from every
    state and whatever its completion. *)
Definition obeys {St A : Type} (R : St -> St -> Prop) (P : Event -> Prop)
    (m : M St A) : Prop :=
  forall s, R s (final (m s)) /\ Forall P (events (m s)).

(** What a [try] block leaves to its [finally]: nothing released yet, and
    the variable [browser] holds the browser acquired, if any. *)
Definition scoped {W A : Type} (r : Run (Machine W) A) : Prop :=
  released (events r) = [] /\
  ((acquired (events r) = [] /\ browser (final r) = None) \/
   (exists b, acquired (events r) = [b] /\ browser (final r) = Some b)).

(** ** Scripted worlds

    Concrete outside worlds to run the programs on.  The world counts the
    requests the metric source has received and the evaluations made in
    the page; a scenario fixes the page, the metric and which calls
    reject. *)

Record Counters : Type := mkCounters {
  metric_requests : nat;
  page_evaluations : nat
}.

Record Scenario : Type := mkScenario {
  sc_document : Document;
  sc_marker_appears : bool;
  sc_evaluate_failures : nat;
  sc_close_rejects : bool;
  sc_metric : JsValue;
  sc_metric_failures : nat
}.

Definition answer {A : Type} (rejects : bool) (reason : string) (a : A) (w : Counters)
  : Completion A * Counters :=
  if rejects then (Abrupt (Rejected reason), w) else (Normal a, w).

(** The first [sc_metric_failures] requests to the metric source reject. *)
Definition metric_answer {A : Type} (sc : Scenario) (a : A) (w : Counters)
  : Completion A * Counters :=
  (if Nat.ltb (metric_requests w) (sc_metric_failures sc)
   then Abrupt (Rejected "metric source unavailable")
   else Normal a,
   mkCounters (S (metric_requests w)) (page_evaluations w)).

(** The first [sc_evaluate_failures] evaluations in the page reject. *)
Definition evaluate_answer (sc : Scenario) (w : Counters)
  : Completion Document * Counters :=
  (if Nat.ltb (page_evaluations w) (sc_evaluate_failures sc)
   then Abrupt (Rejected "Execution context was destroyed")
   else Normal (sc_document sc),
   mkCounters (metric_requests w) (S (page_evaluations w))).

Definition scripted (sc : Scenario) : Externals Counters :=
  {| process_env := fun name _ => Some ("value of " ++ name);
     date_toISOString := fun _ => "2024-05-01T12:00:00.000Z";
     google_auth_JWT := fun _ _ w => (Normal (auth_handle 0), w);
     google_sheets := fun _ w => (Normal (sheets_handle 0), w);
     sheets_append := fun _ _ w => (Normal tt, w);
     chromium_args := ["--headless"];
     chromium_defaultViewport := Some (1920, 1080);
     chromium_headless := JBool true;
     chromium_executablePath := fun w => (Normal "/tmp/chromium", w);
     puppeteer_launch := fun _ w => (Normal (browser_handle (metric_requests w)), w);
     browser_newPage := fun _ w => (Normal (page_handle 0), w);
     browser_close := fun _ => answer (sc_close_rejects sc) "Protocol error: Connection closed" tt;
     page_goto := fun _ _ _ w => (Normal tt, w);
     page_waitForSelector := fun _ _ _ => answer (negb (sc_marker_appears sc)) "TimeoutError" tt;
     page_screenshot := fun _ _ w => (Normal tt, w);
     page_evaluate := fun _ => evaluate_answer sc;
     element_click := fun _ w => (Normal tt, w);
     setTimeout_elapse := fun _ w => w;
     activate := fun _ w => (Normal (api_handle 0), w);
     spacePledged := fun _ => metric_answer sc (sc_metric sc);
     axios_get := fun _ =>
       metric_answer sc (mkAxiosResponse (DataObject [("spacePledged", sc_metric sc)])) |}.

(** A page where every element the programs look for is there. *)
Definition full_document : Document :=
  mkDocument
    (fun selector =>
       if String.eqb selector SELECTOR_NODE_COUNT then Some (mkElement 1 "1500")
       else if String.eqb selector SELECTOR_SUBSPACE then Some (mkElement 2 " 900 ")
       else if String.eqb selector SELECTOR_SPACE_ACRES then Some (mkElement 3 "600")
       else None)
    (fun xpath =>
       if String.eqb xpath CLICK_XPATH then Some (mkElement 4 "Stats")
       else if String.eqb xpath XPATH_LINUX then Some (mkElement 5 "1000")
       else if String.eqb xpath XPATH_WINDOWS then Some (mkElement 6 "400")
       else if String.eqb xpath XPATH_MACOS then Some (mkElement 7 "100")
       else None).

(** A page where none of them is. *)
Definition empty_document : Document :=
  mkDocument (fun _ => None) (fun _ => None).

Definition full_stats : Stats :=
  mkStats (JNum (Int 1500)) (JNum (Int 900)) (JNum (Int 600))
          (JNum (Int 1000)) (JNum (Int 400)) (JNum (Int 100)).

Definition sunny : Scenario :=
  mkScenario full_document true 0 false (JStr "12345") 0.

(** The metric source rejects its first two requests. *)
Definition metric_down_twice : Scenario :=
  mkScenario full_document true 0 false (JStr "12345") 2.

(** The marker is not there when the wait times out; the page is complete
    when the stats are read. *)
Definition marker_late : Scenario :=
  mkScenario full_document false 0 false (JStr "12345") 0.

(** The marker never shows up, with the node count it carries, next to
    tables that are there. *)
Definition tables_only_document : Document :=
  mkDocument
    (fun selector =>
       if String.eqb selector SELECTOR_SUBSPACE then Some (mkElement 2 " 900 ")
       else if String.eqb selector SELECTOR_SPACE_ACRES then Some (mkElement 3 "600")
       else None)
    (fun xpath =>
       if String.eqb xpath XPATH_LINUX then Some (mkElement 5 "1000")
       else if String.eqb xpath XPATH_WINDOWS then Some (mkElement 6 "400")
       else if String.eqb xpath XPATH_MACOS then Some (mkElement 7 "100")
       else None).

Definition marker_absent : Scenario :=
  mkScenario tables_only_document false 0 false (JStr "12345") 0.

(** Nothing the programs look for is on the page. *)
Definition blank_page : Scenario :=
  mkScenario empty_document false 0 false (JStr "12345") 0.

(** The evaluations in the page reject, the first hundred of them. *)
Definition page_gone : Scenario :=
  mkScenario full_document true 100 false (JStr "12345") 0.

(** The first three evaluations in the page reject, the next ones work. *)
Definition click_blocked : Scenario :=
  mkScenario full_document true 3 false (JStr "12345") 0.

(** [browser.close()] rejects. *)
Definition close_fails : Scenario :=
  mkScenario full_document true 0 true (JStr "12345") 0.



Definition start : Machine Counters := mkMachine (mkCounters 0 0) None.

(** An operation on a counter that throws at its first call and returns 7
    afterwards, and one that never throws. *)
Definition busy_once : M nat Z :=
  fun c =>
    if Nat.ltb c 1 then mkRun (Abrupt (Rejected "busy")) (S c) []
    else mkRun (Normal 7) (S c) [].

Definition never_busy : M unit Z := ret 7.

Definition scheduled : Request := mkRequest (Some (mkRequestBody (JStr "2024-05-01T13:00:00.000Z"))).

(** ** Further observations *)

(** Console output, as opposed to a call to a library or a service. *)
Definition is_console (ev : Event) : Prop :=
  match ev with
  | ConsoleLog _ | ConsoleError _ _ => True
  | _ => False
  end.

(** The ranges a trace appends to, in order. *)
Definition ranges (t : list Event) : list string := map range (appended t).

(** A backslash followed by [n] somewhere in the string: what
    [/\\n/g] matches. *)
Fixpoint has_escaped_newline (s : string) : bool :=
  match s with
  | EmptyString => false
  | String c s' =>
      match s' with
      | EmptyString => false
      | String d _ => (Ascii.eqb c "\" && Ascii.eqb d "n") || has_escaped_newline s'
      end
  end.

(** The scripted world [sunny] with the private key taken out of the
    environment, and with a metric API that answers with [answer]. *)
Definition no_private_key : Externals Counters :=
  let ext := scripted sunny in
  mkExternals
    (fun name w => if String.eqb name "GOOGLE_CLOUD_PRIVATE_KEY" then None
                   else process_env ext name w)
    (date_toISOString ext) (google_auth_JWT ext) (google_sheets ext) (sheets_append ext)
    (chromium_args ext) (chromium_defaultViewport ext) (chromium_headless ext)
    (chromium_executablePath ext) (puppeteer_launch ext) (browser_newPage ext)
    (browser_close ext) (page_goto ext) (page_waitForSelector ext) (page_screenshot ext)
    (page_evaluate ext) (element_click ext) (setTimeout_elapse ext) (activate ext)
    (spacePledged ext) (axios_get ext).

Definition metric_api_answers (answer : ResponseData) : Externals Counters :=
  let ext := scripted sunny in
  mkExternals
    (process_env ext)
    (date_toISOString ext) (google_auth_JWT ext) (google_sheets ext) (sheets_append ext)
    (chromium_args ext) (chromium_defaultViewport ext) (chromium_headless ext)
    (chromium_executablePath ext) (puppeteer_launch ext) (browser_newPage ext)
    (browser_close ext) (page_goto ext) (page_waitForSelector ext) (page_screenshot ext)
    (page_evaluate ext) (element_click ext) (setTimeout_elapse ext) (activate ext)
    (spacePledged ext) (fun _ w => (Normal (mkAxiosResponse answer), w)).

(** What [runWithRetry] and an operation that fails each time with the
    events [t] and the error [e] leave on the trace, from turn [i] and for
    [todo] turns. *)
Fixpoint failure_log (t : list Event) (e : Err) (i todo : nat) : list Event :=
  match todo with
  | O => []
  | S todo' =>
      (t ++ [ConsoleError ("Attempt " ++ Js.decimal (Z.of_nat (i + 1)) ++ " failed:") e])
      ++ failure_log t e (S i) todo'
  end.

(** Events other than an append. *)
Definition appendless (ev : Event) : Prop :=
  match ev with
  | SheetsAppend _ _ => False
  | _ => True
  end.

(** The ranges of the local script, each at most once and in the order of
    the script. *)
Definition in_network_order (l : list string) : Prop :=
  l = [] \/ l = ["Chronos"] \/ l = ["mainnet"] \/ l = ["Chronos"; "mainnet"].

(** No row, or one row to the range [r]. *)
Definition at_most_one_row_to (r : string) (l : list AppendRequest) : Prop :=
  l = [] \/ exists req, l = [req] /\ range req = r.

(** A string of white space only. *)
Fixpoint blank (s : string) : bool :=
  match s with
  | EmptyString => true
  | String c s' => Js.is_space c && blank s'
  end.

(** A string without white space. *)
Fixpoint solid (s : string) : bool :=
  match s with
  | EmptyString => true
  | String c s' => negb (Js.is_space c) && solid s'
  end.

(** An operation that completes normally from every state. *)
Definition never_throws {St A : Type} (m : M St A) : Prop :=
  forall s, exists a, outcome (m s) = Normal a.

(** * Properties *)

(** ** The JavaScript operations on sample values *)

Example parseInt_digits : Js.parseInt (JStr "  42 nodes") = JNum (Int 42).
Proof. reflexivity. Qed.

Example parseInt_null : Js.parseInt JNull = JNum NaN.
Proof. reflexivity. Qed.

Example parseInt_hex : Js.parseInt (JStr "-0x1f") = JNum (Int (-31)).
Proof. reflexivity. Qed.

Example trim_both : Js.trim "  1 234  " = "1 234".
Proof. reflexivity. Qed.

Example toString_bigint : Js.toString (JBigInt 12345) = inr "12345".
Proof. reflexivity. Qed.

(** ** Traces *)

Lemma acquired_app (t1 t2 : list Event) :
  acquired (t1 ++ t2) = (acquired t1 ++ acquired t2)%list.
Proof.
  induction t1 as [|ev t1 IH]; simpl; [reflexivity|].
  destruct ev; try exact IH.
  destruct acquired0; simpl; [f_equal|]; exact IH.
Qed.

Lemma released_app (t1 t2 : list Event) :
  released (t1 ++ t2) = (released t1 ++ released t2)%list.
Proof.
  induction t1 as [|ev t1 IH]; simpl; [reflexivity|].
  destruct ev; try exact IH. simpl. f_equal. exact IH.
Qed.

Lemma appended_app (t1 t2 : list Event) :
  appended (t1 ++ t2) = (appended t1 ++ appended t2)%list.
Proof.
  induction t1 as [|ev t1 IH]; simpl; [reflexivity|].
  destruct ev; try exact IH. simpl. f_equal. exact IH.
Qed.

Lemma evaluations_app (t1 t2 : list Event) :
  evaluations (t1 ++ t2) = (evaluations t1 + evaluations t2)%nat.
Proof.
  induction t1 as [|ev t1 IH]; simpl; [reflexivity|].
  destruct ev; try exact IH. simpl. f_equal. exact IH.
Qed.

Lemma pauses_app (t1 t2 : list Event) :
  pauses (t1 ++ t2) = (pauses t1 ++ pauses t2)%list.
Proof.
  induction t1 as [|ev t1 IH]; simpl; [reflexivity|].
  destruct ev; try exact IH. simpl. f_equal. exact IH.
Qed.

Lemma quiet_acquired (t : list Event) : Forall quiet t -> acquired t = [].
Proof.
  induction 1 as [|ev t Hev _ IH]; [reflexivity|].
  destruct ev; simpl in *; try exact IH. contradiction.
Qed.

Lemma quiet_released (t : list Event) : Forall quiet t -> released t = [].
Proof.
  induction 1 as [|ev t Hev _ IH]; [reflexivity|].
  destruct ev; simpl in *; try exact IH. contradiction.
Qed.

Lemma harmless_quiet (ev : Event) : harmless ev -> quiet ev.
Proof. destruct ev; simpl; auto. Qed.

Lemma harmless_guarded (ev : Event) : harmless ev -> guarded ev.
Proof. destruct ev; simpl; auto. contradiction. Qed.

(** ** Runs of sequences *)


Lemma bind_run_normal {St A B : Type} (m : M St A) (k : A -> M St B) (s : St) (a : A) :
  outcome (m s) = Normal a ->
  bind m k s
  = mkRun (outcome (k a (final (m s)))) (final (k a (final (m s))))
          (events (m s) ++ events (k a (final (m s)))).
Proof. intros H. unfold bind. rewrite H. reflexivity. Qed.

Lemma bind_run_abrupt {St A B : Type} (m : M St A) (k : A -> M St B) (s : St) (e : Err) :
  outcome (m s) = Abrupt e ->
  bind m k s = mkRun (Abrupt e) (final (m s)) (events (m s)).
Proof. intros H. unfold bind. rewrite H. reflexivity. Qed.

Lemma bind_emit_run {St B : Type} (ev : Event) (k : unit -> M St B) (s : St) :
  bind (emit ev) k s
  = mkRun (outcome (k tt s)) (final (k tt s)) (ev :: events (k tt s)).
Proof. reflexivity. Qed.




Lemma call_run {W A : Type} (ev : Event) (op : W -> Completion A * W) (s : Machine W) :
  call ev op s
  = mkRun (fst (op (world s))) (mkMachine (snd (op (world s))) (browser s)) [ev].
Proof. unfold call. destruct (op (world s)) as [c w']. reflexivity. Qed.



(** ** Moving along a relation and emitting within a class of events *)

Section Obeys.

Context {W : Type}.

Variable R : Machine W -> Machine W -> Prop.
Variable P : Event -> Prop.

Hypothesis R_refl : forall s, R s s.
Hypothesis R_trans : forall s1 s2 s3, R s1 s2 -> R s2 s3 -> R s1 s3.
Hypothesis R_world : forall s w, R s (mkMachine w (browser s)).

Lemma obeys_ret {A : Type} (a : A) : obeys R P (ret a).
Proof. intros s. simpl. split; [apply R_refl | constructor]. Qed.

Lemma obeys_throw {A : Type} (e : Err) : obeys R P (@throw _ A e).
Proof. intros s. simpl. split; [apply R_refl | constructor]. Qed.

Lemma obeys_emit (ev : Event) : P ev -> obeys R P (emit ev).
Proof. intros H s. simpl. split; [apply R_refl | repeat constructor; exact H]. Qed.

Lemma obeys_bind {A B : Type} (m : M (Machine W) A) (k : A -> M (Machine W) B) :
  obeys R P m -> (forall a, obeys R P (k a)) -> obeys R P (bind m k).
Proof.
  intros Hm Hk s. unfold bind. destruct (Hm s) as [HR HP].
  destruct (outcome (m s)) as [a|e]; simpl; [|split; assumption].
  destruct (Hk a (final (m s))) as [HR' HP'].
  split; [eapply R_trans; eassumption | apply Forall_app; split; assumption].
Qed.

Lemma obeys_try_catch {A : Type} (m : M (Machine W) A) (h : Err -> M (Machine W) A) :
  obeys R P m -> (forall e, obeys R P (h e)) -> obeys R P (try_catch m h).
Proof.
  intros Hm Hh s. unfold try_catch. destruct (Hm s) as [HR HP].
  destruct (outcome (m s)) as [a|e]; simpl; [split; assumption|].
  destruct (Hh e (final (m s))) as [HR' HP'].
  split; [eapply R_trans; eassumption | apply Forall_app; split; assumption].
Qed.

Lemma obeys_try_finally {A : Type} (m : M (Machine W) A) (f : M (Machine W) unit) :
  obeys R P m -> obeys R P f -> obeys R P (try_finally m f).
Proof.
  intros Hm Hf s. unfold try_finally. simpl.
  destruct (Hm s) as [HR HP]. destruct (Hf (final (m s))) as [HR' HP'].
  split; [eapply R_trans; eassumption | apply Forall_app; split; assumption].
Qed.

Lemma obeys_promise_all2 {A B : Type} (a : M (Machine W) A) (b : M (Machine W) B) :
  obeys R P a -> obeys R P b -> obeys R P (promise_all2 a b).
Proof.
  intros Ha Hb s. unfold promise_all2. simpl.
  destruct (Ha s) as [HR HP]. destruct (Hb (final (a s))) as [HR' HP'].
  split; [eapply R_trans; eassumption | apply Forall_app; split; assumption].
Qed.

Lemma obeys_when (c : bool) (m : M (Machine W) unit) :
  obeys R P m -> obeys R P (when c m).
Proof. intros H. destruct c; simpl; [exact H | apply obeys_ret]. Qed.

Lemma obeys_call {A : Type} (ev : Event) (op : W -> Completion A * W) :
  P ev -> obeys R P (call ev op).
Proof.
  intros H s. unfold call. destruct (op (world s)) as [c w']. simpl.
  split; [apply R_world | repeat constructor; exact H].
Qed.

Lemma obeys_read {A : Type} (f : W -> A) : obeys R P (read f).
Proof. intros s. simpl. split; [apply R_refl | constructor]. Qed.

Lemma obeys_read_browser : obeys R P read_browser.
Proof. intros s. simpl. split; [apply R_refl | constructor]. Qed.

Lemma obeys_sleep (ext : Externals W) (ms : Z) :
  P (SetTimeout ms) -> obeys R P (sleep ext ms).
Proof.
  intros H s. simpl. split; [apply R_world | repeat constructor; exact H].
Qed.

Lemma obeys_launch (ext : Externals W) (opts : LaunchOptions) :
  (forall r, P (Launch opts r)) -> obeys R P (launch ext opts).
Proof.
  intros H s. unfold launch. destruct (puppeteer_launch ext opts (world s)) as [c w'].
  simpl. split; [apply R_world | repeat constructor; apply H].
Qed.

End Obeys.

Lemma obeys_declare_browser {W : Type} (P : Event -> Prop) :
  obeys (@any_state W) P declare_browser.
Proof. intros s. simpl. split; [exact I | constructor]. Qed.

Lemma obeys_assign_browser {W : Type} (P : Event -> Prop) (b : Browser) :
  obeys (@any_state W) P (assign_browser b).
Proof. intros s. simpl. split; [exact I | constructor]. Qed.

(** One step of a structural proof of [obeys]: the rule of the head
    construct, the events of the leaves being left to [leaf]. *)
Ltac obeys_rule leaf :=
  lazymatch goal with
  | |- obeys _ _ (bind _ _) => apply obeys_bind; [| | intro]
  | |- obeys _ _ (try_catch _ _) => apply obeys_try_catch; [| | intro]
  | |- obeys _ _ (try_finally _ _) => apply obeys_try_finally
  | |- obeys _ _ (promise_all2 _ _) => apply obeys_promise_all2
  | |- obeys _ _ (when _ _) => apply obeys_when
  | |- obeys _ _ (ret _) => apply obeys_ret
  | |- obeys _ _ (throw _) => apply obeys_throw
  | |- obeys _ _ (console_log _) => apply obeys_emit; [| leaf]
  | |- obeys _ _ (console_error _ _) => apply obeys_emit; [| leaf]
  | |- obeys _ _ (emit _) => apply obeys_emit; [| leaf]
  | |- obeys _ _ (page_on _ _) => apply obeys_emit; [| leaf]
  | |- obeys _ _ (call _ _) => apply obeys_call; [| leaf]
  | |- obeys _ _ (read _) => apply obeys_read
  | |- obeys _ _ read_browser => apply obeys_read_browser
  | |- obeys _ _ (sleep _ _) => apply obeys_sleep; [| leaf]
  | |- obeys _ _ (launch _ _) => apply obeys_launch; [| leaf]
  | |- obeys _ _ declare_browser => apply obeys_declare_browser
  | |- obeys _ _ (assign_browser _) => apply obeys_assign_browser
  | |- obeys _ _ (match ?x with _ => _ end) => destruct x
  | |- obeys _ _ (if ?x then _ else _) => destruct x
  | |- obeys _ _ (let (_, _) := ?x in _) => destruct x
  end.

Ltac obeys_side :=
  solve [ unfold same_browser, any_state; intros; simpl in *;
          first [ exact I | congruence ] ].

Ltac leaf_trivial := solve [ intros; exact I ].

Ltac obeys_auto := repeat (obeys_rule leaf_trivial); try obeys_side.

Lemma obeys_weaken {St A : Type} (R R' : St -> St -> Prop) (P P' : Event -> Prop)
    (m : M St A) :
  (forall s s', R s s' -> R' s s') -> (forall ev, P ev -> P' ev) ->
  obeys R P m -> obeys R' P' m.
Proof.
  intros HR HP H s. destruct (H s) as [H1 H2]. split; [apply HR; exact H1|].
  eapply Forall_impl; [exact HP | exact H2].
Qed.

Lemma obeys_bind_ret {St A B : Type} (R : St -> St -> Prop) (P : Event -> Prop)
    (x : A) (k : A -> M St B) :
  obeys R P (k x) -> obeys R P (bind (ret x) k).
Proof. intros H s. unfold bind. simpl. exact (H s). Qed.

Lemma obeys_bind_throw {St A B : Type} (R : St -> St -> Prop) (P : Event -> Prop)
    (e : Err) (k : A -> M St B) :
  (forall s, R s s) -> obeys R P (bind (throw e) k).
Proof. intros HR s. unfold bind. simpl. split; [apply HR | constructor]. Qed.

(** A block that neither launches, closes nor appends and leaves the
    variable [browser] alone fits every use below. *)
Lemma harmless_to_quiet {W A : Type} (m : M (Machine W) A) :
  obeys same_browser harmless m -> obeys same_browser quiet m.
Proof. apply obeys_weaken; [auto | exact harmless_quiet]. Qed.

Lemma harmless_to_guarded {W A : Type} (m : M (Machine W) A) :
  obeys same_browser harmless m -> obeys any_state guarded m.
Proof. apply obeys_weaken; [intros; exact I | exact harmless_guarded]. Qed.


Lemma appendless_appended (t : list Event) : Forall appendless t -> appended t = [].
Proof.
  induction 1 as [|ev t Hev _ IH]; [reflexivity|].
  destruct ev; simpl in *; try exact IH. contradiction.
Qed.

Lemma harmless_to_appendless {W A : Type} (m : M (Machine W) A) :
  obeys same_browser harmless m -> obeys any_state appendless m.
Proof.
  apply obeys_weaken; [intros; exact I|].
  intros ev. destruct ev; simpl; auto.
Qed.

Lemma harmless_appended (t : list Event) : Forall harmless t -> appended t = [].
Proof.
  induction 1 as [|ev t Hev _ IH]; [reflexivity|].
  destruct ev; simpl in *; try exact IH. contradiction.
Qed.

(** ** The blocks of the two programs are harmless *)

Section Harmless_blocks.

Context {W : Type} (ext : Externals W).

Lemma authenticate_harmless : obeys same_browser harmless (authenticate ext).
Proof.
  unfold authenticate, private_key, newJWT, googleSheets. obeys_auto.
Qed.

Lemma local_click_loop_harmless (page : Page) (name : string) (todo i : nat) :
  obeys same_browser harmless (Local.click_loop ext page name i todo).
Proof.
  revert i. induction todo as [|todo IH]; intros i; simpl.
  - obeys_auto.
  - unfold Local.click_turn, Local.click_evaluation, Local.click_element, evaluate, click.
    repeat (first [ obeys_rule leaf_trivial | apply IH ]); obeys_side.
Qed.

Lemma local_scrapePageData_harmless (page : Page) (url name : string) :
  obeys same_browser harmless (Local.scrapePageData ext page url name).
Proof.
  unfold Local.scrapePageData, Local.load_page, Local.read_stats,
    Local.waitForElement, Local.click_phase, goto, waitForSelector, screenshot, evaluate.
  repeat (first [ obeys_rule leaf_trivial | apply local_click_loop_harmless ]);
    obeys_side.
Qed.

Lemma local_getSpacePledgedData_harmless (network : string) :
  obeys same_browser harmless (Local.getSpacePledgedData ext network).
Proof.
  unfold Local.getSpacePledgedData, Local.fetch_from. obeys_auto.
Qed.

Lemma serverless_scrape_harmless (page : Page) :
  obeys same_browser harmless (Serverless.scrape ext page).
Proof.
  unfold Serverless.scrape, Serverless.navigate, Serverless.click_element,
    goto, evaluate, click.
  obeys_auto.
Qed.

Lemma serverless_fetch_harmless :
  obeys same_browser harmless (Serverless.fetch_spacePledged ext).
Proof.
  unfold Serverless.fetch_spacePledged, Serverless.read_spacePledged. obeys_auto.
Qed.

(** The appends release and launch nothing. *)
Lemma local_append_network_quiet (sheets : Sheets) (sheetId : option string)
    (network timestamp : string) (stats : Stats) (pledged : JsValue) :
  obeys same_browser quiet
        (Local.append_network ext sheets sheetId network timestamp stats pledged).
Proof.
  unfold Local.append_network, Local.build_row, append. obeys_auto.
Qed.

Lemma serverless_append_row_quiet (sheets : Sheets) (sheetId : option string)
    (stats : Stats) (pledged : JsValue) :
  obeys same_browser quiet (Serverless.append_row ext sheets sheetId stats pledged).
Proof.
  unfold Serverless.append_row, append. obeys_auto.
Qed.

End Harmless_blocks.

(** ** The retry wrapper *)

Section Retry_facts.

Context {St V : Type}.

Variable fn : M St V.

Lemma retry_turn_returns (retries i : nat) (s : St) (v : V) :
  outcome (fn s) = Normal v ->
  outcome (retry_turn fn retries i s) = Normal (Some v) /\
  final (retry_turn fn retries i s) = final (fn s).
Proof.
  intros H. unfold retry_turn, try_catch, bind. rewrite H. simpl. auto.
Qed.

Lemma retry_turn_goes_on (retries i : nat) (s : St) (e : Err) :
  outcome (fn s) = Abrupt e -> i <> (retries - 1)%nat ->
  outcome (retry_turn fn retries i s) = Normal None /\
  final (retry_turn fn retries i s) = final (fn s).
Proof.
  intros H Hi. unfold retry_turn, try_catch, bind. rewrite H. simpl.
  apply Nat.eqb_neq in Hi. rewrite Hi. simpl. auto.
Qed.

Lemma retry_turn_rethrows (retries i : nat) (s : St) (e : Err) :
  outcome (fn s) = Abrupt e -> i = (retries - 1)%nat ->
  outcome (retry_turn fn retries i s) = Abrupt e /\
  final (retry_turn fn retries i s) = final (fn s).
Proof.
  intros H Hi. unfold retry_turn, try_catch, bind. rewrite H. simpl.
  apply Nat.eqb_eq in Hi. rewrite Hi. simpl. auto.
Qed.

Lemma fails_first_tail (k : nat) (s : St) :
  fails_first fn (S k) s -> fails_first fn k (final (fn s)).
Proof. intros H i Hi. apply (H (S i)). lia. Qed.

Lemma fails_first_le (k k' : nat) (s : St) :
  (k' <= k)%nat -> fails_first fn k s -> fails_first fn k' s.
Proof. intros Hle H i Hi. apply H. lia. Qed.

(** After [k] failures with turns to spare, the loop returns what call
    number [k] returns. *)
Lemma retry_loop_returns (retries k : nat) :
  forall (todo i : nat) (s : St) (v : V),
    (k < todo)%nat -> (i + todo = retries)%nat ->
    fails_first fn k s -> outcome (nth_call fn k s) = Normal v ->
    outcome (retry_loop fn retries i todo s) = Normal (Some v) /\
    final (retry_loop fn retries i todo s) = final (nth_call fn k s).
Proof.
  induction k as [|k IH]; intros todo i s v Hk Hi Hfail Hret;
    (destruct todo as [|todo]; [lia|]); simpl in *.
  - destruct (retry_turn_returns retries i s Hret) as [Ho Hf].
    unfold bind. rewrite Ho. simpl. rewrite Hf. auto.
  - destruct (Hfail 0%nat ltac:(lia)) as [e He]. simpl in He.
    destruct (@retry_turn_goes_on retries i s e He ltac:(lia)) as [Ho Hf].
    unfold bind. rewrite Ho. simpl. rewrite Hf.
    apply (IH todo (S i) (final (fn s)) v); try lia;
      [apply fails_first_tail; exact Hfail | exact Hret].
Qed.

(** When every turn left fails, the loop throws the error of the last
    call. *)
Lemma retry_loop_rethrows (retries : nat) :
  forall (todo i : nat) (s : St),
    (0 < todo)%nat -> (i + todo = retries)%nat ->
    fails_first fn todo s ->
    final (retry_loop fn retries i todo s) = final (nth_call fn (todo - 1) s) /\
    forall e, outcome (nth_call fn (todo - 1) s) = Abrupt e ->
              outcome (retry_loop fn retries i todo s) = Abrupt e.
Proof.
  induction todo as [|todo IH]; intros i s Hpos Hi Hfail; [lia|].
  destruct (Hfail 0%nat ltac:(lia)) as [e He]. simpl in He.
  destruct todo as [|todo].
  - simpl. destruct (@retry_turn_rethrows retries i s e He ltac:(lia)) as [Ho Hf].
    unfold bind. rewrite Ho. simpl. split; [exact Hf|].
    intros e' He'. congruence.
  - destruct (@retry_turn_goes_on retries i s e He ltac:(lia)) as [Ho Hf].
    specialize (IH (S i) (final (fn s)) ltac:(lia) ltac:(lia)
                   (fails_first_tail Hfail)).
    replace (S (S todo) - 1)%nat with (S todo) by lia.
    replace (S todo - 1)%nat with todo in IH by lia.
    change (retry_loop fn retries i (S (S todo)) s)
      with (bind (retry_turn fn retries i)
                 (fun r => match r with
                           | Some v => ret (Some v)
                           | None => retry_loop fn retries (S i) (S todo)
                           end) s).
    unfold bind at 1 2. rewrite Ho. simpl outcome. simpl final. rewrite Hf.
    exact IH.
Qed.

(** The counter of an instrumented operation after its calls. *)
Lemma nth_call_counting (n : nat) :
  forall (s : St) (c : nat),
    outcome (nth_call (counting fn) n (s, c)) = outcome (nth_call fn n s) /\
    final (nth_call (counting fn) n (s, c)) = (final (nth_call fn n s), (c + n + 1)%nat).
Proof.
  induction n as [|n IH]; intros s c; simpl.
  - split; [reflexivity | f_equal; lia].
  - destruct (IH (final (fn s)) (S c)) as [Ho Hf]. rewrite Ho, Hf.
    split; [reflexivity | f_equal; lia].
Qed.

Lemma fails_first_counting (k : nat) (s : St) (c : nat) :
  fails_first fn k s -> fails_first (counting fn) k (s, c).
Proof.
  intros H i Hi. destruct (H i Hi) as [e He]. exists e.
  rewrite (proj1 (nth_call_counting i s c)). exact He.
Qed.

End Retry_facts.

(** C2 (amended): when [fn] fails [k] times in a row and then returns,
    [runWithRetry] calls it exactly [min (k + 1) MAX_RETRIES] times; below
    the limit no failure propagates and the value of call number [k + 1] is
    returned; from [MAX_RETRIES] failures on, the error of the last call
    made, number [MAX_RETRIES], is thrown to the caller. *)
Theorem runWithRetry_calls {St V : Type} (fn : M St V) (k : nat) (s : St) :
  consecutive_failures fn k s ->
  let r := runWithRetry (counting fn) MAX_RETRIES (s, 0%nat) in
  calls r = Nat.min (k + 1) MAX_RETRIES /\
  (((k < MAX_RETRIES)%nat /\
    exists v, outcome (nth_call fn k s) = Normal v /\ outcome r = Normal (Some v)) \/
   ((MAX_RETRIES <= k)%nat /\
    exists e, outcome (nth_call fn (MAX_RETRIES - 1) s) = Abrupt e /\
              outcome r = Abrupt e)).
Proof.
  intros [Hfail [v Hv]] r. unfold calls. subst r. unfold runWithRetry.
  destruct (Nat.lt_ge_cases k MAX_RETRIES) as [Hlt | Hge].
  - destruct (nth_call_counting fn k s 0) as [Ho Hf].
    destruct (@retry_loop_returns _ _ (counting fn) MAX_RETRIES k MAX_RETRIES 0%nat
                (s, 0%nat) v Hlt eq_refl (fails_first_counting 0 Hfail))
      as [Hout Hfin]; [congruence|].
    rewrite Hfin, Hf. simpl. split; [unfold MAX_RETRIES in *; lia|].
    left. split; [exact Hlt|]. exists v. auto.
  - assert (Hthree : fails_first fn MAX_RETRIES s)
      by (eapply fails_first_le; eassumption).
    destruct (nth_call_counting fn (MAX_RETRIES - 1) s 0) as [Ho Hf].
    destruct (@retry_loop_rethrows _ _ (counting fn) MAX_RETRIES MAX_RETRIES 0%nat
                (s, 0%nat) ltac:(unfold MAX_RETRIES; lia) eq_refl
                (fails_first_counting 0 Hthree))
      as [Hfin Hout].
    rewrite Hfin, Hf. simpl. split; [unfold MAX_RETRIES in *; lia|].
    right. split; [exact Hge|].
    destruct (Hthree (MAX_RETRIES - 1)%nat ltac:(unfold MAX_RETRIES; lia)) as [e He].
    exists e. split; [exact He|]. apply Hout. congruence.
Qed.

(** The claim of the specification, [min k MAX_RETRIES] calls, fails for an
    operation that never fails: [k = 0], one call. *)
Lemma runWithRetry_calls_min_k_fails :
  consecutive_failures never_busy 0 tt /\
  calls (runWithRetry (counting never_busy) MAX_RETRIES (tt, 0%nat)) = 1%nat /\
  calls (runWithRetry (counting never_busy) MAX_RETRIES (tt, 0%nat))
    <> Nat.min 0 MAX_RETRIES.
Proof.
  split; [|split].
  - split; [intros i Hi; lia | exists 7; reflexivity].
  - reflexivity.
  - vm_compute. discriminate.
Qed.

Lemma busy_once_fails_once : consecutive_failures busy_once 1 0%nat.
Proof.
  split; [|exists 7; reflexivity].
  intros i Hi. assert (i = 0%nat) by lia. subst i.
  exists (Rejected "busy"). reflexivity.
Defined.

Lemma runWithRetry_calls_witness :
  consecutive_failures busy_once 1 0%nat /\
  calls (runWithRetry (counting busy_once) MAX_RETRIES (0%nat, 0%nat)) = 2%nat /\
  outcome (runWithRetry (counting busy_once) MAX_RETRIES (0%nat, 0%nat)) = Normal (Some 7).
Proof.
  split; [exact busy_once_fails_once|].
  split; [exact (proj1 (@runWithRetry_calls nat Z busy_once 1 0%nat busy_once_fails_once))|].
  reflexivity.
Defined.

(** When every one of the first [MAX_RETRIES] calls fails, whatever comes
    after, the wrapper makes [MAX_RETRIES] calls and throws the last error. *)
Lemma runWithRetry_exhausted {St V : Type} (fn : M St V) (s : St) :
  fails_first fn MAX_RETRIES s ->
  let r := runWithRetry (counting fn) MAX_RETRIES (s, 0%nat) in
  calls r = MAX_RETRIES /\
  exists e, outcome (nth_call fn (MAX_RETRIES - 1) s) = Abrupt e /\ outcome r = Abrupt e.
Proof.
  intros Hthree r. subst r. unfold runWithRetry, calls.
  destruct (nth_call_counting fn (MAX_RETRIES - 1) s 0) as [Ho Hf].
  destruct (@retry_loop_rethrows _ _ (counting fn) MAX_RETRIES MAX_RETRIES 0%nat
              (s, 0%nat) ltac:(unfold MAX_RETRIES; lia) eq_refl
              (fails_first_counting 0 Hthree))
    as [Hfin Hout].
  rewrite Hfin, Hf. simpl. split; [reflexivity|].
  destruct (Hthree (MAX_RETRIES - 1)%nat ltac:(unfold MAX_RETRIES; lia)) as [e He].
  exists e. split; [exact He|]. apply Hout. congruence.
Qed.

(** C6: when the wrapped unit of work of the serverless handler throws on
    attempts 1 and 2 and returns [v] on attempt 3, the handler returns [v]
    and no error reaches its caller. *)
Theorem handler_third_attempt {W : Type} (ext : Externals W) (req : Request)
    (s : Machine W) (v : Response) :
  throws (nth_call (Serverless.attempt ext req) 0 s) ->
  throws (nth_call (Serverless.attempt ext req) 1 s) ->
  outcome (nth_call (Serverless.attempt ext req) 2 s) = Normal v ->
  outcome (Serverless.handler ext req s) = Normal (Some v).
Proof.
  intros H1 H2 H3. unfold Serverless.handler, runWithRetry.
  apply (@retry_loop_returns _ _ (Serverless.attempt ext req) MAX_RETRIES 2
           MAX_RETRIES 0%nat s v); try (unfold MAX_RETRIES; lia); [|exact H3].
  intros i Hi. destruct i as [|[|i]]; [exact H1 | exact H2 | lia].
Qed.

Lemma handler_third_attempt_witness :
  throws (nth_call (Serverless.attempt (scripted metric_down_twice) scheduled) 0 start) /\
  throws (nth_call (Serverless.attempt (scripted metric_down_twice) scheduled) 1 start) /\
  outcome (Serverless.handler (scripted metric_down_twice) scheduled start)
  = Normal (Some (mkResponse "Data updated successfully"
                             (JStr "2024-05-01T13:00:00.000Z") 200 "application/json")).
Proof.
  assert (H1 : throws (nth_call (Serverless.attempt (scripted metric_down_twice) scheduled)
                                0 start))
    by (exists (Rejected "metric source unavailable"); vm_compute; reflexivity).
  assert (H2 : throws (nth_call (Serverless.attempt (scripted metric_down_twice) scheduled)
                                1 start))
    by (exists (Rejected "metric source unavailable"); vm_compute; reflexivity).
  split; [exact H1 | split; [exact H2 |]].
  apply (@handler_third_attempt Counters (scripted metric_down_twice) scheduled start _ H1 H2).
  vm_compute. reflexivity.
Defined.

(** ** The browser as a scoped resource *)

Section Scoped.

Context {W : Type} (ext : Externals W).

Lemma scoped_bind_quiet {A B : Type} (m : M (Machine W) A) (k : A -> M (Machine W) B)
    (s : Machine W) :
  obeys same_browser quiet m ->
  (forall a s', browser s' = None -> scoped (k a s')) ->
  browser s = None ->
  scoped (bind m k s).
Proof.
  intros Hm Hk Hs. destruct (Hm s) as [HR HP]. unfold same_browser in HR.
  unfold bind. destruct (outcome (m s)) as [a|e].
  - destruct (Hk a (final (m s)) ltac:(congruence)) as [Hrel Hacq].
    unfold scoped. simpl. rewrite released_app, acquired_app.
    rewrite (quiet_released HP), (quiet_acquired HP). simpl. auto.
  - unfold scoped. simpl. rewrite (quiet_released HP), (quiet_acquired HP).
    split; [reflexivity|]. left. split; [reflexivity | congruence].
Qed.

(** [browser = await puppeteer.launch(...)] followed by a block that
    leaves the variable alone. *)
Lemma scoped_launch {B : Type} (opts : LaunchOptions) (rest : Browser -> M (Machine W) B)
    (s : Machine W) :
  (forall b, obeys same_browser quiet (rest b)) ->
  browser s = None ->
  scoped (bind (launch ext opts) (fun b => bind (assign_browser b) (fun _ => rest b)) s).
Proof.
  intros Hrest Hs. unfold bind at 1. unfold launch.
  destruct (puppeteer_launch ext opts (world s)) as [[b|e] w']; simpl.
  - unfold bind. simpl.
    destruct (Hrest b (mkMachine w' (Some b))) as [HR HP].
    unfold same_browser in HR. simpl in HR.
    assert (Ht : released (events (rest b (mkMachine w' (Some b)))) = [] /\
                 acquired (events (rest b (mkMachine w' (Some b)))) = [])
      by (split; [apply quiet_released | apply quiet_acquired]; exact HP).
    destruct Ht as [Hrel Hacq].
    destruct (outcome (rest b (mkMachine w' (Some b)))); unfold scoped; simpl;
      rewrite Hrel, Hacq; (split; [reflexivity|]); right; exists b; auto.
  - unfold scoped. simpl. split; [reflexivity|]. left. auto.
Qed.

Lemma scoped_try_catch {A : Type} (m : M (Machine W) A) (h : Err -> M (Machine W) A)
    (s : Machine W) :
  scoped (m s) -> (forall e, obeys same_browser quiet (h e)) ->
  scoped (try_catch m h s).
Proof.
  intros Hm Hh. unfold try_catch. destruct (outcome (m s)) as [a|e]; [exact Hm|].
  destruct (Hh e (final (m s))) as [HR HP]. unfold same_browser in HR.
  destruct Hm as [Hrel Hacq]. unfold scoped. simpl.
  rewrite released_app, acquired_app, Hrel, HR.
  rewrite (quiet_released HP), (quiet_acquired HP), !app_nil_r.
  split; [reflexivity | exact Hacq].
Qed.

(** A [finally] block that closes the browser the variable holds makes
    releases and acquisitions match. *)
Lemma scoped_finally_balanced {A : Type} (m : M (Machine W) A) (f : M (Machine W) unit)
    (s : Machine W) :
  scoped (m s) ->
  (forall s', acquired (events (f s')) = [] /\
              released (events (f s')) = match browser s' with
                                         | Some b => [b]
                                         | None => []
                                         end) ->
  released (events (try_finally m f s)) = acquired (events (try_finally m f s)) /\
  (List.length (acquired (events (try_finally m f s))) <= 1)%nat.
Proof.
  intros [Hrel Hacq] Hf. unfold try_finally. simpl.
  destruct (Hf (final (m s))) as [Hfa Hfr].
  rewrite released_app, acquired_app, Hrel, Hfa, Hfr, app_nil_r. simpl.
  destruct Hacq as [[Ha Hb] | [b [Ha Hb]]]; rewrite Ha, Hb; simpl; auto.
Qed.

Lemma local_close_if_launched_events (s : Machine W) :
  acquired (events (close_if_launched ext s)) = [] /\
  released (events (close_if_launched ext s)) = match browser s with
                                                | Some b => [b]
                                                | None => []
                                                end.
Proof.
  unfold close_if_launched, bind, read_browser, close, call. simpl.
  destruct (browser s) as [b|]; simpl; [|auto].
  destruct (browser_close ext b (world s)) as [[u|e] w']; simpl; auto.
Qed.

Lemma serverless_close_if_launched_events (s : Machine W) :
  acquired (events (Serverless.close_if_launched ext s)) = [] /\
  released (events (Serverless.close_if_launched ext s)) = match browser s with
                                                           | Some b => [b]
                                                           | None => []
                                                           end.
Proof.
  unfold Serverless.close_if_launched, bind, read_browser, close, call. simpl.
  destruct (browser s) as [b|]; simpl; [|auto].
  destruct (browser_close ext b (world s)) as [[u|e] w']; simpl; auto.
Qed.

Lemma local_try_scoped (s : Machine W) :
  browser s = None -> scoped (Local.runScript_try ext s).
Proof.
  intros Hs.
  unfold Local.runScript_try, Local.with_pages, Local.collect_and_append.
  apply scoped_bind_quiet; [obeys_auto | | exact Hs]. intros _ s1 Hs1.
  apply scoped_bind_quiet;
    [apply harmless_to_quiet, authenticate_harmless | | exact Hs1].
  intros sheets s2 Hs2.
  apply scoped_bind_quiet; [obeys_auto | | exact Hs2]. intros sheetId s3 Hs3.
  apply scoped_launch; [|exact Hs3]. intros b.
  unfold newPage.
  repeat (first [ obeys_rule leaf_trivial
                | apply harmless_to_quiet, local_scrapePageData_harmless
                | apply harmless_to_quiet, local_getSpacePledgedData_harmless
                | apply local_append_network_quiet ]);
    obeys_side.
Qed.

Lemma serverless_try_scoped (req : Request) (s : Machine W) :
  browser s = None -> scoped (Serverless.attempt_try ext req s).
Proof.
  intros Hs.
  unfold Serverless.attempt_try, Serverless.with_page, Serverless.scrape_and_append,
    Serverless.destructure_body.
  apply scoped_bind_quiet; [obeys_auto | | exact Hs]. intros next_run s1 Hs1.
  do 3 (apply scoped_bind_quiet; [obeys_auto | | assumption]; intros _ ? ?).
  apply scoped_bind_quiet;
    [apply harmless_to_quiet, authenticate_harmless | | assumption].
  intros sheets ? ?.
  do 4 (apply scoped_bind_quiet; [obeys_auto | | assumption]; intros ? ? ?).
  apply scoped_launch; [|assumption]. intros b.
  unfold newPage.
  repeat (first [ obeys_rule leaf_trivial
                | apply harmless_to_quiet, serverless_scrape_harmless
                | apply harmless_to_quiet, serverless_fetch_harmless
                | apply serverless_append_row_quiet ]);
    obeys_side.
Qed.

End Scoped.

Lemma retry_turn_run_normal {St V : Type} (fn : M St V) (retries i : nat) (s : St) (v : V) :
  outcome (fn s) = Normal v ->
  retry_turn fn retries i s
  = mkRun (Normal (Some v)) (final (fn s)) (events (fn s) ++ []).
Proof.
  intros H. unfold retry_turn, try_catch, bind. rewrite H. reflexivity.
Qed.

Lemma retry_turn_run_abrupt {St V : Type} (fn : M St V) (retries i : nat) (s : St) (e : Err) :
  outcome (fn s) = Abrupt e ->
  retry_turn fn retries i s
  = mkRun (if Nat.eqb i (retries - 1) then Abrupt e else Normal None)
          (final (fn s))
          (events (fn s)
           ++ [ConsoleError ("Attempt " ++ Js.decimal (Z.of_nat (i + 1)) ++ " failed:") e]).
Proof.
  intros H. unfold retry_turn, try_catch, bind. rewrite H. simpl.
  destruct (Nat.eqb i (retries - 1)); reflexivity.
Qed.

Lemma retry_loop_balanced {St V : Type} (fn : M St V) (retries : nat) :
  (forall s, released (events (fn s)) = acquired (events (fn s))) ->
  forall (todo i : nat) (s : St),
    released (events (retry_loop fn retries i todo s))
    = acquired (events (retry_loop fn retries i todo s)).
Proof.
  intros Hfn. induction todo as [|todo IH]; intros i s; [reflexivity|].
  simpl. unfold bind. destruct (outcome (fn s)) as [v|e] eqn:E.
  - rewrite (retry_turn_run_normal fn retries i s E). simpl.
    rewrite !released_app, !acquired_app, Hfn. reflexivity.
  - rewrite (retry_turn_run_abrupt fn retries i s E).
    destruct (Nat.eqb i (retries - 1)); simpl.
    + rewrite !released_app, !acquired_app, Hfn. reflexivity.
    + rewrite !released_app, !acquired_app, Hfn, IH. reflexivity.
Qed.

Lemma events_declare_browser {W A : Type} (k : unit -> M (Machine W) A) (s : Machine W) :
  events (bind declare_browser k s) = events (k tt (mkMachine (world s) None)).
Proof.
  unfold bind. cbn [declare_browser outcome final events app].
  destruct (outcome (k tt (mkMachine (world s) None))); reflexivity.
Qed.

Lemma outcome_declare_browser {W A : Type} (k : unit -> M (Machine W) A) (s : Machine W) :
  outcome (bind declare_browser k s) = outcome (k tt (mkMachine (world s) None)).
Proof.
  unfold bind. cbn [declare_browser outcome final events app].
  destruct (outcome (k tt (mkMachine (world s) None))); reflexivity.
Qed.

(** C5: in the local script, in the unit of work of the serverless
    handler and over a whole invocation of the handler, the browsers
    released are exactly the browsers acquired, in the same order; a run of
    the script or of the unit of work acquires at most one.  So a browser
    that was launched is closed exactly once on every exit path, and
    nothing is closed when the launch failed or was never reached. *)
Theorem browser_released_exactly_once {W : Type} (ext : Externals W) (req : Request)
    (s : Machine W) :
  (released (events (Local.runScript ext s)) = acquired (events (Local.runScript ext s)) /\
   (List.length (acquired (events (Local.runScript ext s))) <= 1)%nat) /\
  (released (events (Serverless.attempt ext req s))
   = acquired (events (Serverless.attempt ext req s)) /\
   (List.length (acquired (events (Serverless.attempt ext req s))) <= 1)%nat) /\
  released (events (Serverless.handler ext req s))
  = acquired (events (Serverless.handler ext req s)).
Proof.
  assert (Hlocal : forall s0 : Machine W,
             released (events (Local.runScript ext s0))
             = acquired (events (Local.runScript ext s0)) /\
             (List.length (acquired (events (Local.runScript ext s0))) <= 1)%nat).
  { intros s0. unfold Local.runScript. rewrite events_declare_browser.
    apply scoped_finally_balanced.
    - apply scoped_try_catch; [apply local_try_scoped; reflexivity|].
      intros e. obeys_auto.
    - apply local_close_if_launched_events. }
  assert (Hattempt : forall s0 : Machine W,
             released (events (Serverless.attempt ext req s0))
             = acquired (events (Serverless.attempt ext req s0)) /\
             (List.length (acquired (events (Serverless.attempt ext req s0))) <= 1)%nat).
  { intros s0. unfold Serverless.attempt. rewrite events_declare_browser.
    apply scoped_finally_balanced.
    - apply scoped_try_catch; [apply serverless_try_scoped; reflexivity|].
      intros e. obeys_auto.
    - apply serverless_close_if_launched_events. }
  split; [apply Hlocal | split; [apply Hattempt|]].
  unfold Serverless.handler, runWithRetry. apply retry_loop_balanced.
  intros s0. apply Hattempt.
Qed.

(** ** The guarded append of the local script *)

Section Append.

Context {W : Type} (ext : Externals W).

Lemma strict_neq_null_true (v : JsValue) :
  Js.strict_neq_null v = true -> v <> JNull.
Proof. intros H E. subst v. discriminate. Qed.

Ltac leaf_guarded :=
  first [ leaf_trivial
        | solve [ simpl; eexists; split;
                  [ reflexivity | apply strict_neq_null_true; assumption ] ] ].

Lemma local_append_network_guarded (sheets : Sheets) (sheetId : option string)
    (network timestamp : string) (stats : Stats) (pledged : JsValue) :
  obeys any_state guarded
        (Local.append_network ext sheets sheetId network timestamp stats pledged).
Proof.
  unfold Local.append_network, Local.build_row, append.
  destruct (Js.strict_neq_null (nodeCount stats)) eqn:Hpresent;
    [destruct (Js.toString pledged) as [error|text];
     [apply obeys_bind_throw | apply obeys_bind_ret]|];
    repeat (obeys_rule leaf_guarded); obeys_side.
Qed.

Lemma local_runScript_guarded : obeys any_state guarded (Local.runScript ext).
Proof.
  unfold Local.runScript, Local.runScript_try, Local.with_pages,
    Local.collect_and_append, close_if_launched, newPage, close.
  repeat (first [ obeys_side
                | obeys_rule leaf_trivial
                | apply harmless_to_guarded, authenticate_harmless
                | apply harmless_to_guarded, local_scrapePageData_harmless
                | apply harmless_to_guarded, local_getSpacePledgedData_harmless
                | apply local_append_network_guarded ]).
Qed.








End Append.

(** C1 (amended): in the local two-network script, the append of a network
    is skipped whenever the node count of its snapshot is null, whatever
    the other fields and the pledged space are: the block only prints its
    message.  The block appends at most one row, and only when the node
    count is not null; and in every run of the script every row appended
    carries a node count other than null. *)
Theorem local_append_only_with_nodeCount {W : Type} (ext : Externals W)
    (sheets : Sheets) (sheetId : option string) (network timestamp : string)
    (stats : Stats) (pledged a b c d e : JsValue) (s : Machine W) :
  Local.append_network ext sheets sheetId network timestamp
                       (mkStats JNull a b c d e) pledged s
  = mkRun (Normal tt) s
          [ConsoleLog ("Skipping " ++ network ++ " data append due to null values")] /\
  (appended (events (Local.append_network ext sheets sheetId network timestamp
                                          stats pledged s)) = [] \/
   (nodeCount stats <> JNull /\
    exists row,
      appended (events (Local.append_network ext sheets sheetId network timestamp
                                             stats pledged s))
      = [mkAppendRequest sheetId network "USER_ENTERED" [row]] /\
      nth_error row 1 = Some (nodeCount stats))) /\
  Forall guarded (events (Local.runScript ext s)).
Proof.
  split; [reflexivity | split].
  - unfold Local.append_network.
    destruct (Js.strict_neq_null (nodeCount stats)) eqn:Hpresent; [|left; reflexivity].
    unfold Local.build_row. destruct (Js.toString pledged) as [error|text];
      [left; reflexivity|].
    right. split; [apply strict_neq_null_true; exact Hpresent|].
    eexists. unfold bind, append, call. simpl.
    destruct (sheets_append ext sheets _ (world s)) as [[u|error] w']; simpl;
      split; reflexivity.
  - apply local_runScript_guarded.
Qed.

(** The serverless handler has no such guard: on a page where nothing is
    found its snapshot has a null node count, and the row is appended. *)
Lemma serverless_appends_null_nodeCount :
  nodeCount (Serverless.extractStats empty_document) = JNull /\
  outcome (Serverless.handler (scripted blank_page) scheduled start)
  = Normal (Some (mkResponse "Data updated successfully"
                             (JStr "2024-05-01T13:00:00.000Z") 200 "application/json")) /\
  appended (events (Serverless.handler (scripted blank_page) scheduled start))
  = [mkAppendRequest (Some "value of GOOGLE_SHEET_ID") "Sheet1" "USER_ENTERED"
       [[JStr "2024-05-01T12:00:00.000Z"; JNull; JStr "12345";
         JNull; JNull; JNull; JNull; JNull]]].
Proof. repeat split; vm_compute; reflexivity. Qed.

(** ** The row of a run *)

Section Rows_of_a_run.

Context {W : Type} (ext : Externals W).














End Rows_of_a_run.



(** C7: for the networks chronos and mainnet, the completion of
    [getSpacePledgedData] is the completion of the query: when connecting
    ([activate]) or the query itself ([spacePledged]) throws, that error is
    thrown on to the caller, and otherwise the value fetched is returned. *)
Theorem getSpacePledgedData_propagates {W : Type} (ext : Externals W)
    (network : string) (s : Machine W) :
  network = "chronos" \/ network = "mainnet" ->
  outcome (Local.getSpacePledgedData ext network s)
  = match activate ext network (world s) with
    | (Normal api, w1) => fst (spacePledged ext api w1)
    | (Abrupt e, _) => Abrupt e
    end.
Proof.
  intros [H | H]; subst network;
    unfold Local.getSpacePledgedData, Local.fetch_from, bind, try_catch, call; simpl;
    match goal with
    | |- context [activate ext ?n (world s)] =>
        destruct (activate ext n (world s)) as [[api|e] w1]; simpl; [|reflexivity]
    end;
    destruct (spacePledged ext api w1) as [[v|e] w2]; reflexivity.
Qed.

Lemma getSpacePledgedData_propagates_witness :
  outcome (Local.getSpacePledgedData (scripted metric_down_twice) "chronos" start)
  = Abrupt (Rejected "metric source unavailable") /\
  outcome (Local.getSpacePledgedData (scripted sunny) "mainnet" start)
  = Normal (JStr "12345").
Proof.
  split.
  - rewrite (@getSpacePledgedData_propagates Counters (scripted metric_down_twice)
               "chronos" start (or_introl eq_refl)).
    reflexivity.
  - rewrite (@getSpacePledgedData_propagates Counters (scripted sunny)
               "mainnet" start (or_intror eq_refl)).
    reflexivity.
Defined.

(** C9: for a network other than chronos and mainnet,
    [getSpacePledgedData] returns undefined; it throws nothing, leaves the
    world as it is and makes no call but the one message it prints. *)
Theorem getSpacePledgedData_other_network {W : Type} (ext : Externals W)
    (network : string) (s : Machine W) :
  network <> "chronos" -> network <> "mainnet" ->
  Local.getSpacePledgedData ext network s
  = mkRun (Normal JUndefined) s
          [ConsoleLog ("Fetching space pledged data for " ++ network)].
Proof.
  intros H1 H2. apply String.eqb_neq in H1, H2.
  unfold Local.getSpacePledgedData, bind, try_catch. simpl.
  rewrite H1, H2. reflexivity.
Qed.

Lemma getSpacePledgedData_other_network_witness :
  Local.getSpacePledgedData (scripted sunny) "devnet" start
  = mkRun (Normal JUndefined) start
          [ConsoleLog "Fetching space pledged data for devnet"].
Proof.
  apply (@getSpacePledgedData_other_network Counters (scripted sunny) "devnet" start);
    discriminate.
Defined.

(** ** What reaches the caller of [runScript] *)

(** In a world where [browser.close()] rejects, the rejection leaves the
    [finally] block and [runScript] throws it to its caller. *)
Lemma runScript_throws_when_close_rejects :
  outcome (Local.runScript (scripted close_fails) start)
  = Abrupt (Rejected "Protocol error: Connection closed").
Proof. vm_compute. reflexivity. Qed.

(** C10 (amended): in the local script the [try] block runs once, and an
    error it throws (authentication, launch, navigation, metric fetch,
    append) is caught at the top level, printed after "Error details:" and
    swallowed: the [try]/[catch] statement always completes normally.
    Nothing is tried again.  The completion of [runScript] is then the one
    of the [finally] block: normal when no browser was launched, and the
    completion of [browser.close()] otherwise, whose rejection is the only
    error that can reach the caller. *)
Theorem runScript_swallows_try_errors {W : Type} (ext : Externals W) (s : Machine W) :
  let s0 := mkMachine (world s) None in
  let caught := try_catch (Local.runScript_try ext)
                          (fun error => console_error "Error details:" error) s0 in
  outcome caught = Normal tt /\
  events caught
  = (events (Local.runScript_try ext s0)
     ++ match outcome (Local.runScript_try ext s0) with
        | Normal _ => []
        | Abrupt e => [ConsoleError "Error details:" e]
        end)%list /\
  events (Local.runScript ext s)
  = (events caught ++ events (close_if_launched ext (final caught)))%list /\
  outcome (Local.runScript ext s)
  = match browser (final caught) with
    | None => Normal tt
    | Some b => fst (browser_close ext b (world (final caught)))
    end.
Proof.
  intros s0 caught.
  assert (Hcaught : outcome caught = Normal tt).
  { subst caught. unfold try_catch.
    destruct (outcome (Local.runScript_try ext s0)) as [[]|e] eqn:E;
      [exact E | reflexivity]. }
  split; [exact Hcaught | split; [|split]].
  - subst caught. unfold try_catch.
    destruct (outcome (Local.runScript_try ext s0)) as [u|e]; simpl;
      [rewrite app_nil_r|]; reflexivity.
  - unfold Local.runScript. rewrite events_declare_browser. reflexivity.
  - unfold Local.runScript. rewrite outcome_declare_browser.
    unfold try_finally. fold s0. fold caught. simpl. rewrite Hcaught.
    unfold close_if_launched, bind, read_browser, close, call. simpl.
    destruct (browser (final caught)) as [b|]; simpl; [|reflexivity].
    destruct (browser_close ext b (world (final caught))) as [[[]|e] w']; reflexivity.
Qed.

(** ** The click *)

Section Click.

Context {W : Type} (ext : Externals W).

(** A turn of the click loop of the local script evaluates once in the
    page, never throws, and pauses 2000 ms exactly when it gives way to
    the next turn. *)
Lemma local_click_turn_shape (page : Page) (name : string) (i : nat) (s : Machine W) :
  exists clicked,
    outcome (Local.click_turn ext page name i s) = Normal clicked /\
    evaluations (events (Local.click_turn ext page name i s)) = 1%nat /\
    pauses (events (Local.click_turn ext page name i s))
    = if clicked then [] else [2000].
Proof.
  unfold Local.click_turn, Local.click_evaluation, try_catch, bind, evaluate, call.
  simpl.
  destruct (page_evaluate ext page (world s)) as [[doc|e] w1]; simpl.
  - unfold Local.click_element.
    destruct (singleNodeValue doc CLICK_XPATH) as [el|]; simpl.
    + unfold bind, click, call. simpl.
      destruct (element_click ext el w1) as [[[]|e] w2]; simpl.
      * exists true. auto.
      * exists false. auto.
    + exists true. auto.
  - exists false. auto.
Qed.

Lemma repeat_pause (n : nat) :
  (1 <= n)%nat -> 2000 :: repeat 2000 (n - 1) = repeat 2000 n.
Proof. intros H. destruct n as [|n]; [lia|]. simpl. rewrite Nat.sub_0_r. reflexivity. Qed.

Lemma local_click_loop_shape (page : Page) (name : string) (todo : nat) :
  forall (i : nat) (s : Machine W),
  exists clickSuccess,
    outcome (Local.click_loop ext page name i todo s) = Normal clickSuccess /\
    if clickSuccess
    then (1 <= evaluations (events (Local.click_loop ext page name i todo s)) <= todo)%nat /\
         pauses (events (Local.click_loop ext page name i todo s))
         = repeat 2000 (evaluations (events (Local.click_loop ext page name i todo s)) - 1)
    else evaluations (events (Local.click_loop ext page name i todo s)) = todo /\
         pauses (events (Local.click_loop ext page name i todo s)) = repeat 2000 todo.
Proof.
  induction todo as [|todo IH]; intros i s.
  - exists false. simpl. auto.
  - destruct (local_click_turn_shape page name i s) as [clicked [Ho [He Hp]]].
    simpl. unfold bind. rewrite Ho. destruct clicked.
    + exists true. simpl. rewrite app_nil_r, He, Hp. simpl.
      repeat split; lia.
    + destruct (IH (S i) (final (Local.click_turn ext page name i s)))
        as [b [Ho' Hrest]].
      exists b. simpl. rewrite Ho'. split; [reflexivity|].
      rewrite evaluations_app, pauses_app, He, Hp. simpl.
      destruct b.
      * destruct Hrest as [Hn Hpause]. rewrite Hpause, Nat.sub_0_r.
        split; [lia | apply repeat_pause; lia].
      * destruct Hrest as [Hn Hpause]. rewrite Hn, Hpause. auto.
Qed.

End Click.

(** In the serverless handler the click is evaluated once per attempt: in
    a world where the evaluations in the page reject, the attempt makes one
    evaluation and throws, without the pause that follows the click and
    without reading the stats; the handler ends up throwing the error to
    its caller, nothing appended. *)
Lemma serverless_click_failure_is_fatal :
  evaluations (events (Serverless.attempt (scripted page_gone) scheduled start)) = 1%nat /\
  pauses (events (Serverless.attempt (scripted page_gone) scheduled start)) = [5000] /\
  outcome (Serverless.attempt (scripted page_gone) scheduled start)
  = Abrupt (Rejected "Execution context was destroyed") /\
  outcome (Serverless.handler (scripted page_gone) scheduled start)
  = Abrupt (Rejected "Execution context was destroyed") /\
  appended (events (Serverless.handler (scripted page_gone) scheduled start)) = [].
Proof. repeat split; vm_compute; reflexivity. Qed.

Lemma bind_outcome_normal {St A B : Type} (m : M St A) (k : A -> M St B) (s : St) (a : A) :
  outcome (m s) = Normal a ->
  outcome (bind m k s) = outcome (k a (final (m s))).
Proof. intros H. unfold bind. rewrite H. reflexivity. Qed.

Lemma bind_events_normal {St A B : Type} (m : M St A) (k : A -> M St B) (s : St) (a : A) :
  outcome (m s) = Normal a ->
  events (bind m k s) = (events (m s) ++ events (k a (final (m s))))%list.
Proof. intros H. unfold bind. rewrite H. reflexivity. Qed.

Section Click_turns.

Context {W : Type} (ext : Externals W).

Variables (page : Page) (name : string).

(** A turn whose evaluation threw: the message, the pause, and [false]. *)
Lemma local_click_turn_threw (i : nat) (s : Machine W) (e : Err) :
  outcome (Local.click_evaluation ext page s) = Abrupt e ->
  Local.click_turn ext page name i s
  = mkRun (Normal false)
          (mkMachine (setTimeout_elapse ext 2000
                        (world (final (Local.click_evaluation ext page s))))
                     (browser (final (Local.click_evaluation ext page s))))
          (events (Local.click_evaluation ext page s)
           ++ [ConsoleLog (name ++ ": Click attempt " ++ Js.decimal (Z.of_nat (i + 1))
                                ++ " failed");
               SetTimeout 2000]).
Proof.
  intros H. unfold Local.click_turn, try_catch.
  rewrite (bind_run_abrupt (Local.click_evaluation ext page) (fun _ => ret true) s H).
  cbn [outcome final events]. reflexivity.
Qed.

(** A turn whose evaluation returned. *)
Lemma local_click_turn_returned (i : nat) (s : Machine W) (b : bool) :
  outcome (Local.click_evaluation ext page s) = Normal b ->
  Local.click_turn ext page name i s
  = mkRun (Normal true) (final (Local.click_evaluation ext page s))
          (events (Local.click_evaluation ext page s)).
Proof.
  intros H. unfold Local.click_turn, try_catch.
  rewrite (bind_run_normal (Local.click_evaluation ext page) (fun _ => ret true) s H).
  cbn [outcome final events ret]. rewrite app_nil_r. reflexivity.
Qed.

Lemma local_click_phase_run (s : Machine W) :
  outcome (Local.click_phase ext page name s) = Normal tt /\
  final (Local.click_phase ext page name s)
  = final (Local.click_loop ext page name 0 3 s) /\
  events (Local.click_phase ext page name s)
  = (events (Local.click_loop ext page name 0 3 s)
     ++ match outcome (Local.click_loop ext page name 0 3 s) with
        | Normal false =>
            [ConsoleLog (name ++ ": Failed to click the element after multiple attempts")]
        | _ => []
        end)%list.
Proof.
  destruct (local_click_loop_shape ext page name 3 0 s) as [b [Ho _]].
  unfold Local.click_phase. rewrite (bind_run_normal _ _ _ Ho), Ho.
  destruct b; cbn [negb when outcome final events ret console_log emit];
    repeat split; reflexivity.
Qed.

Lemma local_click_turn_failed (i : nat) (s : Machine W) :
  throws (Local.click_evaluation ext page s) ->
  outcome (Local.click_turn ext page name i s) = Normal false /\
  events (Local.click_turn ext page name i s)
  = (events (Local.click_evaluation ext page s)
     ++ [ConsoleLog (name ++ ": Click attempt " ++ Js.decimal (Z.of_nat (i + 1))
                          ++ " failed");
         SetTimeout 2000])%list.
Proof.
  intros [e He]. rewrite (local_click_turn_threw i s He). split; reflexivity.
Qed.

Lemma local_click_loop_next (i todo : nat) (s : Machine W) :
  throws (Local.click_evaluation ext page s) ->
  Local.click_loop ext page name i (S todo) s
  = mkRun (outcome (Local.click_loop ext page name (S i) todo
                      (final (Local.click_turn ext page name i s))))
          (final (Local.click_loop ext page name (S i) todo
                    (final (Local.click_turn ext page name i s))))
          (events (Local.click_turn ext page name i s)
           ++ events (Local.click_loop ext page name (S i) todo
                        (final (Local.click_turn ext page name i s)))).
Proof.
  intros Hs. destruct (local_click_turn_failed i s Hs) as [Ho _].
  cbn [Local.click_loop].
  exact (bind_run_normal (Local.click_turn ext page name i) _ s Ho).
Qed.

Lemma local_click_loop_clicked (i todo : nat) (s : Machine W) (b : bool) :
  outcome (Local.click_evaluation ext page s) = Normal b ->
  Local.click_loop ext page name i (S todo) s
  = mkRun (Normal true) (final (Local.click_evaluation ext page s))
          (events (Local.click_evaluation ext page s)).
Proof.
  intros He. cbn [Local.click_loop].
  pose proof (local_click_turn_returned i s He) as Hturn.
  assert (Ho : outcome (Local.click_turn ext page name i s) = Normal true)
    by (rewrite Hturn; reflexivity).
  rewrite (bind_run_normal (Local.click_turn ext page name i) _ s Ho), Hturn.
  cbn [outcome final events ret]. rewrite app_nil_r. reflexivity.
Qed.

Lemma local_click_phase_three_failures (s : Machine W) :
  throws (Local.click_evaluation ext page s) ->
  throws (Local.click_evaluation ext page (final (Local.click_turn ext page name 0 s))) ->
  throws (Local.click_evaluation ext page
            (final (Local.click_turn ext page name 1
                      (final (Local.click_turn ext page name 0 s))))) ->
  events (Local.click_phase ext page name s)
  = (events (Local.click_turn ext page name 0 s)
     ++ events (Local.click_turn ext page name 1
                  (final (Local.click_turn ext page name 0 s)))
     ++ events (Local.click_turn ext page name 2
                  (final (Local.click_turn ext page name 1
                            (final (Local.click_turn ext page name 0 s)))))
     ++ [ConsoleLog (name ++ ": Failed to click the element after multiple attempts")])%list.
Proof.
  intros H0 H1 H2.
  destruct (local_click_phase_run s) as [_ [_ Hev]].
  rewrite Hev, (local_click_loop_next 0 2 s H0). cbn [outcome final events].
  rewrite (local_click_loop_next 1 1 _ H1). cbn [outcome final events].
  rewrite (local_click_loop_next 2 0 _ H2). cbn [outcome final events Local.click_loop ret].
  rewrite app_nil_r, <- !app_assoc. reflexivity.
Qed.

Lemma local_scrape_after_click (url : string) (s : Machine W) :
  outcome (Local.load_page ext page url name s) = Normal tt ->
  outcome (Local.scrapePageData ext page url name s)
  = outcome (Local.read_stats ext page name
               (final (Local.click_phase ext page name
                         (final (Local.load_page ext page url name s))))) /\
  events (Local.scrapePageData ext page url name s)
  = (events (Local.load_page ext page url name s)
     ++ events (Local.click_phase ext page name
                  (final (Local.load_page ext page url name s)))
     ++ events (Local.read_stats ext page name
                  (final (Local.click_phase ext page name
                            (final (Local.load_page ext page url name s))))))%list.
Proof.
  intros Hload.
  pose proof (proj1 (local_click_phase_run (final (Local.load_page ext page url name s))))
    as Hclick.
  unfold Local.scrapePageData. split.
  - rewrite (bind_outcome_normal (Local.load_page ext page url name) _ s Hload).
    exact (bind_outcome_normal (Local.click_phase ext page name) _ _ Hclick).
  - rewrite (bind_events_normal (Local.load_page ext page url name) _ s Hload).
    f_equal.
    exact (bind_events_normal (Local.click_phase ext page name) _ _ Hclick).
Qed.

End Click_turns.

(** In the serverless handler the click is evaluated once, outside any
    [try] of its own: a rejection ends the scrape there. *)
Lemma serverless_scrape_click_rejected {W : Type} (ext : Externals W) (page : Page)
    (s : Machine W) (e : Err) :
  fst (page_goto ext page Serverless.TELEMETRY_URL 60000 (world s)) = Normal tt ->
  fst (page_evaluate ext page
         (setTimeout_elapse ext 5000
            (snd (page_goto ext page Serverless.TELEMETRY_URL 60000 (world s)))))
  = Abrupt e ->
  outcome (Serverless.scrape ext page s) = Abrupt e /\
  events (Serverless.scrape ext page s)
  = [ConsoleLog "Navigating to the telemetry page...";
     Goto page Serverless.TELEMETRY_URL 60000;
     ConsoleLog "Page loaded. Waiting for 5 seconds...";
     SetTimeout 5000;
     ConsoleLog "Clicking on the specified element...";
     Evaluate page].
Proof.
  intros Hgoto Hclick.
  assert (Hnav : Serverless.navigate ext page s
                 = mkRun (Normal tt)
                         (mkMachine (snd (page_goto ext page Serverless.TELEMETRY_URL 60000
                                            (world s)))
                                    (browser s))
                         [Goto page Serverless.TELEMETRY_URL 60000]).
  { unfold Serverless.navigate, try_catch, goto. rewrite call_run, Hgoto. reflexivity. }
  assert (Hn : outcome (Serverless.navigate ext page s) = Normal tt)
    by (rewrite Hnav; reflexivity).
  unfold Serverless.scrape, console_log, evaluate.
  rewrite bind_emit_run.
  rewrite (bind_run_normal (Serverless.navigate ext page) _ s Hn), Hnav.
  cbn [outcome final events].
  rewrite bind_emit_run.
  match goal with
  | |- context [bind (sleep ext 5000) ?k ?s0] =>
      rewrite (bind_run_normal (sleep ext 5000) k s0 (a := tt) eq_refl)
  end.
  cbn [sleep outcome final events world browser].
  rewrite bind_emit_run.
  match goal with
  | |- context [bind (call ?ev ?op) ?k ?s0] =>
      assert (He : outcome (call ev op s0) = Abrupt e)
        by (rewrite call_run; exact Hclick);
      rewrite (bind_run_abrupt (call ev op) k s0 He), call_run
  end.
  cbn [outcome final events app]. split; reflexivity.
Qed.

(** C8 (amended): in the local script the click is evaluated in the page
    at least once and at most 3 times in a scrape that gets to it.  A turn
    whose evaluation threw prints its message, pauses 2000 ms and gives
    way to the next turn; a turn whose evaluation clicked the element ends
    the loop.  When the three evaluations threw, the failure is printed and
    nothing is thrown: the click phase always completes normally, and the
    scrape goes on with the stats extraction, whose completion is the one
    of the scrape.  In the serverless handler the click is evaluated once,
    and a rejection there ends the scrape of the attempt. *)
Theorem local_click_phase_retries {W : Type} (ext : Externals W) (page : Page)
    (url name : string) (i todo : nat) (s : Machine W) (e : Err) :
  let evaluation := Local.click_evaluation ext page in
  let turn := Local.click_turn ext page name in
  let failed := fun (i : nat) =>
    ConsoleLog (name ++ ": Click attempt " ++ Js.decimal (Z.of_nat (i + 1)) ++ " failed") in
  (* a turn whose evaluation threw *)
  (throws (evaluation s) ->
   outcome (turn i s) = Normal false /\
   events (turn i s) = (events (evaluation s) ++ [failed i; SetTimeout 2000])%list /\
   let next := Local.click_loop ext page name (S i) todo (final (turn i s)) in
   Local.click_loop ext page name i (S todo) s
   = mkRun (outcome next) (final next) (events (turn i s) ++ events next)) /\
  (* a turn whose evaluation clicked the element *)
  (outcome (evaluation s) = Normal true ->
   Local.click_loop ext page name i (S todo) s
   = mkRun (Normal true) (final (evaluation s)) (events (evaluation s))) /\
  (* the three evaluations threw *)
  (let s1 := final (turn 0%nat s) in
   let s2 := final (turn 1%nat s1) in
   throws (evaluation s) -> throws (evaluation s1) -> throws (evaluation s2) ->
   events (Local.click_phase ext page name s)
   = (events (evaluation s) ++ [failed 0%nat; SetTimeout 2000]
      ++ events (evaluation s1) ++ [failed 1%nat; SetTimeout 2000]
      ++ events (evaluation s2) ++ [failed 2%nat; SetTimeout 2000]
      ++ [ConsoleLog (name ++ ": Failed to click the element after multiple attempts")])%list) /\
  (* the click phase *)
  (outcome (Local.click_phase ext page name s) = Normal tt /\
   (1 <= evaluations (events (Local.click_phase ext page name s)) <= 3)%nat) /\
  (* the scrape *)
  (outcome (Local.load_page ext page url name s) = Normal tt ->
   let s1 := final (Local.load_page ext page url name s) in
   let s2 := final (Local.click_phase ext page name s1) in
   outcome (Local.scrapePageData ext page url name s)
   = outcome (Local.read_stats ext page name s2) /\
   events (Local.scrapePageData ext page url name s)
   = (events (Local.load_page ext page url name s)
      ++ events (Local.click_phase ext page name s1)
      ++ events (Local.read_stats ext page name s2))%list) /\
  (* the serverless handler *)
  (fst (page_goto ext page Serverless.TELEMETRY_URL 60000 (world s)) = Normal tt ->
   fst (page_evaluate ext page
          (setTimeout_elapse ext 5000
             (snd (page_goto ext page Serverless.TELEMETRY_URL 60000 (world s)))))
   = Abrupt e ->
   outcome (Serverless.scrape ext page s) = Abrupt e /\
   events (Serverless.scrape ext page s)
   = [ConsoleLog "Navigating to the telemetry page...";
      Goto page Serverless.TELEMETRY_URL 60000;
      ConsoleLog "Page loaded. Waiting for 5 seconds...";
      SetTimeout 5000;
      ConsoleLog "Clicking on the specified element...";
      Evaluate page]).
Proof.
  intros evaluation turn failed. subst evaluation turn failed. cbv beta.
  split; [|split; [|split; [|split; [|split]]]];
    [| | | | | exact (@serverless_scrape_click_rejected W ext page s e)].
  - intros Hs. destruct (local_click_turn_failed ext page name i s Hs) as [Ho Hev].
    split; [exact Ho | split; [exact Hev|]].
    exact (local_click_loop_next ext page name i todo s Hs).
  - exact (@local_click_loop_clicked W ext page name i todo s true).
  - intros s1 s2 H0 H1 H2. subst s1 s2.
    rewrite (local_click_phase_three_failures ext page name s H0 H1 H2).
    rewrite (proj2 (local_click_turn_failed ext page name 0 s H0)),
      (proj2 (local_click_turn_failed ext page name 1 _ H1)),
      (proj2 (local_click_turn_failed ext page name 2 _ H2)).
    rewrite <- !app_assoc. reflexivity.
  - destruct (local_click_phase_run ext page name s) as [Ho [_ Hev]].
    split; [exact Ho|]. rewrite Hev, evaluations_app.
    destruct (local_click_loop_shape ext page name 3 0 s) as [b [Hb Hshape]].
    rewrite Hb. destruct b; cbn [evaluations]; [destruct Hshape as [Hn _]
                                               | destruct Hshape as [Hn _]]; lia.
  - intros Hload s1 s2. subst s1 s2.
    exact (local_scrape_after_click ext page name url s Hload).
Qed.

(** Three evaluations that throw, then one that clicks; and a page that is
    gone under the serverless handler. *)
Lemma local_click_phase_retries_witness :
  events (Local.click_phase (scripted click_blocked) (page_handle 0) "Chronos" start)
  = [Evaluate (page_handle 0); ConsoleLog "Chronos: Click attempt 1 failed"; SetTimeout 2000;
     Evaluate (page_handle 0); ConsoleLog "Chronos: Click attempt 2 failed"; SetTimeout 2000;
     Evaluate (page_handle 0); ConsoleLog "Chronos: Click attempt 3 failed"; SetTimeout 2000;
     ConsoleLog "Chronos: Failed to click the element after multiple attempts"] /\
  Local.click_loop (scripted click_blocked) (page_handle 0) "Chronos" 0 3
                   (mkMachine (mkCounters 0 3) None)
  = mkRun (Normal true) (mkMachine (mkCounters 0 4) None)
          [Evaluate (page_handle 0); Click (mkElement 4 "Stats")] /\
  outcome (Local.scrapePageData (scripted click_blocked) (page_handle 0)
                                Local.CHRONOS_URL "Chronos" start)
  = Normal full_stats /\
  outcome (Serverless.scrape (scripted page_gone) (page_handle 0) start)
  = Abrupt (Rejected "Execution context was destroyed").
Proof.
  destruct (@local_click_phase_retries Counters (scripted click_blocked) (page_handle 0)
              Local.CHRONOS_URL "Chronos" 0 2 start (Rejected "unused"))
    as [_ [_ [Hthree [_ [Hscrape _]]]]].
  destruct (@local_click_phase_retries Counters (scripted click_blocked) (page_handle 0)
              Local.CHRONOS_URL "Chronos" 0 2 (mkMachine (mkCounters 0 3) None)
              (Rejected "unused"))
    as [_ [Hclicked _]].
  destruct (@local_click_phase_retries Counters (scripted page_gone) (page_handle 0)
              Local.CHRONOS_URL "Chronos" 0 2 start
              (Rejected "Execution context was destroyed"))
    as [_ [_ [_ [_ [_ Hserverless]]]]].
  split; [|split; [|split]].
  - etransitivity;
      [ apply Hthree; eexists; vm_compute; reflexivity | vm_compute; reflexivity ].
  - etransitivity; [ apply Hclicked; vm_compute; reflexivity | vm_compute; reflexivity ].
  - etransitivity;
      [ apply Hscrape; vm_compute; reflexivity | vm_compute; reflexivity ].
  - apply Hserverless; vm_compute; reflexivity.
Defined.

(** ** The marker and the missing fields *)

Lemma bind_normal_inv {St A B : Type} (m : M St A) (k : A -> M St B) (s : St) (v : B) :
  outcome (bind m k s) = Normal v ->
  exists a, outcome (m s) = Normal a /\ outcome (k a (final (m s))) = Normal v.
Proof.
  unfold bind. destruct (outcome (m s)) as [a|e]; simpl; intros H;
    [exists a; auto | discriminate].
Qed.

Section Snapshots.

Context {W : Type} (ext : Externals W).

(** The stats extraction of the local script completes as the evaluation
    in the page does, and returns by value what was read there. *)
Lemma local_read_stats_outcome (page : Page) (name : string) (s : Machine W) :
  outcome (Local.read_stats ext page name s)
  = match fst (page_evaluate ext page (setTimeout_elapse ext 5000 (world s))) with
    | Normal d => Normal (returned_by_value (Local.extractStats d))
    | Abrupt e => Abrupt e
    end.
Proof.
  unfold Local.read_stats, bind, sleep, console_log, emit, evaluate, call.
  cbn [outcome final events world].
  destruct (page_evaluate ext page (setTimeout_elapse ext 5000 (world s)))
    as [[d|e] w']; reflexivity.
Qed.

Lemma local_scrape_reads_the_page (page : Page) (url name : string) (s : Machine W)
    (stats : Stats) :
  outcome (Local.scrapePageData ext page url name s) = Normal stats ->
  exists d,
    fst (page_evaluate ext page
           (setTimeout_elapse ext 5000
              (world (final (Local.click_phase ext page name
                               (final (Local.load_page ext page url name s)))))))
    = Normal d /\
    stats = returned_by_value (Local.extractStats d).
Proof.
  unfold Local.scrapePageData. intros H.
  apply bind_normal_inv in H. destruct H as [u [_ H]].
  apply bind_normal_inv in H. destruct H as [u' [_ H]].
  rewrite local_read_stats_outcome in H.
  destruct (fst (page_evaluate ext page _)) as [d|e]; [|discriminate H].
  exists d. split; [reflexivity | congruence].
Qed.

Lemma serverless_scrape_reads_the_page (page : Page) (s : Machine W) (stats : Stats) :
  outcome (Serverless.scrape ext page s) = Normal stats ->
  exists d w, fst (page_evaluate ext page w) = Normal d /\
              stats = returned_by_value (Serverless.extractStats d).
Proof.
  unfold Serverless.scrape. intros H.
  do 11 (apply bind_normal_inv in H; destruct H as [? [_ H]]).
  apply bind_normal_inv in H. destruct H as [doc [Hdoc H]].
  simpl in H. injection H as Hstats. exists doc.
  unfold evaluate, call in Hdoc.
  match type of Hdoc with
  | context [page_evaluate ext page ?w] =>
      exists w; destruct (page_evaluate ext page w) as [c w']
  end.
  simpl in *. auto.
Qed.

(** The first part of the local scrape when navigation works and the wait
    for the marker times out. *)
Lemma local_load_page_marker_timeout (page : Page) (url name : string) (s : Machine W)
    (e : Err) :
  fst (page_goto ext page url 60000 (world s)) = Normal tt ->
  fst (page_waitForSelector ext page SELECTOR_MARKER 10000
         (snd (page_goto ext page url 60000 (world s)))) = Abrupt e ->
  outcome (Local.load_page ext page url name s)
  = fst (page_screenshot ext page (name ++ "_debug.png")
           (setTimeout_elapse ext 10000
              (snd (page_waitForSelector ext page SELECTOR_MARKER 10000
                      (snd (page_goto ext page url 60000 (world s))))))) /\
  events (Local.load_page ext page url name s)
  = [ConsoleLog ("Navigating to " ++ name ++ " page: " ++ url);
     Goto page url 60000;
     ConsoleLog (name ++ ": Initial page load complete");
     WaitForSelector page SELECTOR_MARKER 10000;
     ConsoleLog ("Timeout waiting for selector: " ++ SELECTOR_MARKER);
     ConsoleLog (name ++ ": Chain selector not found after waiting");
     SetTimeout 10000;
     ConsoleLog (name ++ ": Completed initial wait period");
     Screenshot page (name ++ "_debug.png")].
Proof.
  intros Hgoto Hwait.
  assert (Hwaited :
            Local.waitForElement ext page SELECTOR_MARKER 10000
              (mkMachine (snd (page_goto ext page url 60000 (world s))) (browser s))
            = mkRun (Normal false)
                    (mkMachine (snd (page_waitForSelector ext page SELECTOR_MARKER 10000
                                       (snd (page_goto ext page url 60000 (world s)))))
                               (browser s))
                    [WaitForSelector page SELECTOR_MARKER 10000;
                     ConsoleLog ("Timeout waiting for selector: " ++ SELECTOR_MARKER)]).
  { assert (Hw : outcome (call (WaitForSelector page SELECTOR_MARKER 10000)
                            (page_waitForSelector ext page SELECTOR_MARKER 10000)
                            (mkMachine (snd (page_goto ext page url 60000 (world s)))
                                       (browser s)))
                  = Abrupt e)
      by (rewrite call_run; exact Hwait).
    unfold Local.waitForElement, try_catch, waitForSelector.
    rewrite (bind_run_abrupt (call _ _) (fun _ => ret true) _ Hw).
    cbn [outcome final events]. rewrite call_run. reflexivity. }
  assert (Hg : outcome (call (Goto page url 60000) (page_goto ext page url 60000) s)
               = Normal tt)
    by (rewrite call_run; exact Hgoto).
  unfold Local.load_page, console_log, goto, screenshot.
  rewrite bind_emit_run.
  rewrite (bind_run_normal (call _ _) _ s Hg).
  rewrite call_run. cbn [outcome final events].
  rewrite bind_emit_run.
  assert (Hf : outcome (Local.waitForElement ext page SELECTOR_MARKER 10000
                          (mkMachine (snd (page_goto ext page url 60000 (world s)))
                                     (browser s)))
               = Normal false)
    by (rewrite Hwaited; reflexivity).
  rewrite (bind_run_normal (Local.waitForElement ext page SELECTOR_MARKER 10000) _ _ Hf).
  rewrite Hwaited. cbn [outcome final events negb when].
  rewrite !bind_emit_run.
  match goal with
  | |- context [bind (sleep ext 10000) ?k ?s0] =>
      rewrite (bind_run_normal (sleep ext 10000) k s0 (a := tt) eq_refl)
  end.
  cbn [sleep outcome final events world browser].
  rewrite bind_emit_run, call_run. cbn [outcome final events app].
  split; reflexivity.
Qed.

End Snapshots.
(** The marker does not appear within the wait, so that the wait rejects,
    and yet the snapshot the local scraper returns has fields that are not
    null: all six when the marker comes late, five when it never comes. *)
Lemma marker_timeout_snapshot_not_null :
  fst (page_waitForSelector (scripted marker_late) (page_handle 0) SELECTOR_MARKER
                            10000 (world start))
  = Abrupt (Rejected "TimeoutError") /\
  outcome (Local.scrapePageData (scripted marker_late) (page_handle 0)
                                Local.CHRONOS_URL "Chronos" start)
  = Normal (mkStats (JNum (Int 1500)) (JNum (Int 900)) (JNum (Int 600))
                    (JNum (Int 1000)) (JNum (Int 400)) (JNum (Int 100))) /\
  fst (page_waitForSelector (scripted marker_absent) (page_handle 0) SELECTOR_MARKER
                            10000 (world start))
  = Abrupt (Rejected "TimeoutError") /\
  querySelector tables_only_document SELECTOR_MARKER = None /\
  outcome (Local.scrapePageData (scripted marker_absent) (page_handle 0)
                                Local.CHRONOS_URL "Chronos" start)
  = Normal (mkStats JNull (JNum (Int 900)) (JNum (Int 600))
                    (JNum (Int 1000)) (JNum (Int 400)) (JNum (Int 100))).
Proof. repeat split; vm_compute; reflexivity. Qed.

Ltac missing_field :=
  let H := fresh "H" in
  intros H;
  unfold returned_by_value, Local.extractStats, Serverless.extractStats,
         Local.getTextBySelector, Local.getTextByXPath,
         Serverless.getTextBySelector, Serverless.getTextByXPath,
         Serverless.parse_or_null;
  cbn [nodeCount subspaceNodeCount spaceAcresNodeCount
       linuxNodeCount windowsNodeCount macosNodeCount];
  rewrite H; split; reflexivity.

(** C3 (amended): when the marker does not appear within the wait timeout
    the local scraper does not throw on that account: the wait returns
    false, the messages are printed, and the scrape goes on with the pause
    and the screenshot.  The snapshot a scraper returns is the one read
    from the page when the stats are extracted, passed back by value, so
    that its fields need not be null after such a timeout.  In that
    snapshot, in both programs, each of the six fields whose selector or
    XPath lookup fails is null. *)
Theorem marker_timeout_and_missing_fields {W : Type} (ext : Externals W) (page : Page)
    (url name : string) (s : Machine W) (doc : Document) (e : Err) :
  (* the wait *)
  outcome (Local.waitForElement ext page SELECTOR_MARKER 10000 s)
  = Normal (match fst (page_waitForSelector ext page SELECTOR_MARKER 10000 (world s)) with
            | Normal _ => true
            | Abrupt _ => false
            end) /\
  (* the scrape after a wait that timed out *)
  (let w1 := snd (page_goto ext page url 60000 (world s)) in
   let w2 := snd (page_waitForSelector ext page SELECTOR_MARKER 10000 w1) in
   fst (page_goto ext page url 60000 (world s)) = Normal tt ->
   fst (page_waitForSelector ext page SELECTOR_MARKER 10000 w1) = Abrupt e ->
   outcome (Local.load_page ext page url name s)
   = fst (page_screenshot ext page (name ++ "_debug.png") (setTimeout_elapse ext 10000 w2)) /\
   events (Local.load_page ext page url name s)
   = [ConsoleLog ("Navigating to " ++ name ++ " page: " ++ url);
      Goto page url 60000;
      ConsoleLog (name ++ ": Initial page load complete");
      WaitForSelector page SELECTOR_MARKER 10000;
      ConsoleLog ("Timeout waiting for selector: " ++ SELECTOR_MARKER);
      ConsoleLog (name ++ ": Chain selector not found after waiting");
      SetTimeout 10000;
      ConsoleLog (name ++ ": Completed initial wait period");
      Screenshot page (name ++ "_debug.png")]) /\
  (* the snapshot returned *)
  (forall stats,
     outcome (Local.scrapePageData ext page url name s) = Normal stats ->
     exists d,
       fst (page_evaluate ext page
              (setTimeout_elapse ext 5000
                 (world (final (Local.click_phase ext page name
                                  (final (Local.load_page ext page url name s)))))))
       = Normal d /\
       stats = returned_by_value (Local.extractStats d)) /\
  (forall stats,
     outcome (Serverless.scrape ext page s) = Normal stats ->
     exists d w, fst (page_evaluate ext page w) = Normal d /\
                 stats = returned_by_value (Serverless.extractStats d)) /\
  (* the fields whose lookup fails *)
  (querySelector doc SELECTOR_NODE_COUNT = None ->
   nodeCount (returned_by_value (Local.extractStats doc)) = JNull /\
   nodeCount (returned_by_value (Serverless.extractStats doc)) = JNull) /\
  (querySelector doc SELECTOR_SUBSPACE = None ->
   subspaceNodeCount (returned_by_value (Local.extractStats doc)) = JNull /\
   subspaceNodeCount (returned_by_value (Serverless.extractStats doc)) = JNull) /\
  (querySelector doc SELECTOR_SPACE_ACRES = None ->
   spaceAcresNodeCount (returned_by_value (Local.extractStats doc)) = JNull /\
   spaceAcresNodeCount (returned_by_value (Serverless.extractStats doc)) = JNull) /\
  (singleNodeValue doc XPATH_LINUX = None ->
   linuxNodeCount (returned_by_value (Local.extractStats doc)) = JNull /\
   linuxNodeCount (returned_by_value (Serverless.extractStats doc)) = JNull) /\
  (singleNodeValue doc XPATH_WINDOWS = None ->
   windowsNodeCount (returned_by_value (Local.extractStats doc)) = JNull /\
   windowsNodeCount (returned_by_value (Serverless.extractStats doc)) = JNull) /\
  (singleNodeValue doc XPATH_MACOS = None ->
   macosNodeCount (returned_by_value (Local.extractStats doc)) = JNull /\
   macosNodeCount (returned_by_value (Serverless.extractStats doc)) = JNull).
Proof.
  split; [|split; [|split; [|split]]].
  - unfold Local.waitForElement, try_catch, bind, waitForSelector, call. simpl.
    destruct (page_waitForSelector ext page SELECTOR_MARKER 10000 (world s))
      as [[u|e'] w']; reflexivity.
  - intros w1 w2. subst w1 w2. apply local_load_page_marker_timeout.
  - intros stats. apply local_scrape_reads_the_page.
  - intros stats. apply serverless_scrape_reads_the_page.
  - repeat match goal with |- _ /\ _ => split end; missing_field.
Qed.

(** On a page where nothing is found, after a wait that timed out. *)
Lemma marker_timeout_and_missing_fields_witness :
  outcome (Local.waitForElement (scripted blank_page) (page_handle 0)
                                SELECTOR_MARKER 10000 start) = Normal false /\
  outcome (Local.load_page (scripted blank_page) (page_handle 0)
                           Local.CHRONOS_URL "Chronos" start) = Normal tt /\
  (exists d,
     fst (page_evaluate (scripted blank_page) (page_handle 0) (mkCounters 0 1))
     = Normal d /\
     mkStats JNull JNull JNull JNull JNull JNull
     = returned_by_value (Local.extractStats d)) /\
  returned_by_value (Local.extractStats empty_document)
  = mkStats JNull JNull JNull JNull JNull JNull /\
  returned_by_value (Serverless.extractStats empty_document)
  = mkStats JNull JNull JNull JNull JNull JNull.
Proof.
  destruct (@marker_timeout_and_missing_fields Counters (scripted blank_page)
              (page_handle 0) Local.CHRONOS_URL "Chronos" start empty_document
              (Rejected "TimeoutError"))
    as [Hwait [Hload [Hread [_ [H0 [H1 [H2 [H3 [H4 H5]]]]]]]]].
  split; [exact Hwait | split; [|split]].
  - exact (proj1 (Hload eq_refl eq_refl)).
  - apply Hread. vm_compute. reflexivity.
  - specialize (H0 eq_refl). specialize (H1 eq_refl). specialize (H2 eq_refl).
    specialize (H3 eq_refl). specialize (H4 eq_refl). specialize (H5 eq_refl).
    split.
    + destruct (returned_by_value (Local.extractStats empty_document));
        cbn [nodeCount subspaceNodeCount spaceAcresNodeCount
             linuxNodeCount windowsNodeCount macosNodeCount] in *.
      destruct H0, H1, H2, H3, H4, H5. congruence.
    + destruct (returned_by_value (Serverless.extractStats empty_document));
        cbn [nodeCount subspaceNodeCount spaceAcresNodeCount
             linuxNodeCount windowsNodeCount macosNodeCount] in *.
      destruct H0, H1, H2, H3, H4, H5. congruence.
Defined.

(** What the local extraction computes in the page for a field other than
    the node count whose element is missing is [parseInt(null)], and what
    comes back from the page is null. *)
Example local_missing_field_in_page :
  Local.extractStats empty_document
  = mkStats JNull (JNum NaN) (JNum NaN) (JNum NaN) (JNum NaN) (JNum NaN) /\
  outcome (Local.scrapePageData (scripted blank_page) (page_handle 0)
                                Local.CHRONOS_URL "Chronos" start)
  = Normal (mkStats JNull JNull JNull JNull JNull JNull).
Proof. split; vm_compute; reflexivity. Qed.

(** In the local script an evaluation that finds no element to click
    returns false without throwing: the loop stops at once, no message, no
    pause. *)
Example local_click_element_not_found :
  outcome (Local.click_loop (scripted blank_page) (page_handle 0) "Chronos" 0 3 start)
  = Normal true /\
  events (Local.click_phase (scripted blank_page) (page_handle 0) "Chronos" start)
  = [Evaluate (page_handle 0)].
Proof. split; vm_compute; reflexivity. Qed.

(** The click blocked three times does not stop the local scrape. *)
Example local_scrape_after_blocked_click :
  outcome (Local.scrapePageData (scripted click_blocked) (page_handle 0)
                                Local.CHRONOS_URL "Chronos" start)
  = Normal full_stats /\
  evaluations (events (Local.scrapePageData (scripted click_blocked) (page_handle 0)
                                            Local.CHRONOS_URL "Chronos" start)) = 4%nat /\
  pauses (events (Local.scrapePageData (scripted click_blocked) (page_handle 0)
                                       Local.CHRONOS_URL "Chronos" start))
  = [10000; 2000; 2000; 2000; 5000].
Proof. repeat split; vm_compute; reflexivity. Qed.

(** The rows of a run of the local script where everything works. *)
Example local_run_appends_two_rows :
  appended (events (Local.runScript (scripted sunny) start))
  = [mkAppendRequest (Some "value of GOOGLE_SHEET_ID") "Chronos" "USER_ENTERED"
       [[JStr "2024-05-01T12:00:00.000Z"; JNum (Int 1500); JStr "12345";
         JNum (Int 900); JNum (Int 600); JNum (Int 1000); JNum (Int 400);
         JNum (Int 100)]];
     mkAppendRequest (Some "value of GOOGLE_SHEET_ID") "mainnet" "USER_ENTERED"
       [[JStr "2024-05-01T12:00:00.000Z"; JNum (Int 1500); JStr "12345";
         JNum (Int 900); JNum (Int 600); JNum (Int 1000); JNum (Int 400);
         JNum (Int 100)]]] /\
  outcome (Local.runScript (scripted sunny) start) = Normal tt /\
  released (events (Local.runScript (scripted sunny) start)) = [browser_handle 0].
Proof. repeat split; vm_compute; reflexivity. Qed.

(** * Further properties of the code *)

(** ** The retry wrapper with any limit *)

(** With a limit of at least one, [runWithRetry] behaves for [retries] as
    it does for [MAX_RETRIES]: [min (k + 1) retries] calls; the value of
    the first call that returns when [k < retries], the error of call
    number [retries] otherwise. *)
Theorem runWithRetry_any_limit {St V : Type} (fn : M St V) (retries k : nat) (s : St) :
  (1 <= retries)%nat ->
  consecutive_failures fn k s ->
  let r := runWithRetry (counting fn) retries (s, 0%nat) in
  calls r = Nat.min (k + 1) retries /\
  (((k < retries)%nat /\
    exists v, outcome (nth_call fn k s) = Normal v /\ outcome r = Normal (Some v)) \/
   ((retries <= k)%nat /\
    exists e, outcome (nth_call fn (retries - 1) s) = Abrupt e /\
              outcome r = Abrupt e)).
Proof.
  intros Hpos [Hfail [v Hv]] r. unfold calls. subst r. unfold runWithRetry.
  destruct (Nat.lt_ge_cases k retries) as [Hlt | Hge].
  - destruct (nth_call_counting fn k s 0) as [Ho Hf].
    destruct (@retry_loop_returns _ _ (counting fn) retries k retries 0%nat
                (s, 0%nat) v Hlt eq_refl (fails_first_counting 0 Hfail))
      as [Hout Hfin]; [congruence|].
    rewrite Hfin, Hf. simpl. split; [lia|].
    left. split; [exact Hlt|]. exists v. auto.
  - assert (Hall : fails_first fn retries s)
      by (eapply fails_first_le; eassumption).
    destruct (nth_call_counting fn (retries - 1) s 0) as [Ho Hf].
    destruct (@retry_loop_rethrows _ _ (counting fn) retries retries 0%nat
                (s, 0%nat) Hpos eq_refl (fails_first_counting 0 Hall))
      as [Hfin Hout].
    rewrite Hfin, Hf. simpl. split; [lia|].
    right. split; [exact Hge|].
    destruct (Hall (retries - 1)%nat ltac:(lia)) as [e He].
    exists e. split; [exact He|]. apply Hout. congruence.
Qed.

Lemma runWithRetry_any_limit_witness :
  calls (runWithRetry (counting busy_once) 1 (0%nat, 0%nat)) = 1%nat /\
  calls (runWithRetry (counting busy_once) 5 (0%nat, 0%nat)) = 2%nat.
Proof.
  split.
  - exact (proj1 (@runWithRetry_any_limit nat Z busy_once 1 1 0%nat
                    (le_n 1) busy_once_fails_once)).
  - exact (proj1 (@runWithRetry_any_limit nat Z busy_once 5 1 0%nat
                    ltac:(lia) busy_once_fails_once)).
Defined.

Lemma retry_loop_defined {St V : Type} (fn : M St V) (retries : nat) :
  forall (todo i : nat) (s : St),
    (1 <= todo)%nat -> (i + todo = retries)%nat ->
    outcome (retry_loop fn retries i todo s) <> Normal None.
Proof.
  induction todo as [|todo IH]; intros i s Hpos Hi; [lia|].
  simpl. unfold bind. destruct (outcome (fn s)) as [v|e] eqn:E.
  - rewrite (retry_turn_run_normal fn retries i s E). simpl. discriminate.
  - rewrite (retry_turn_run_abrupt fn retries i s E).
    destruct (Nat.eqb i (retries - 1)) eqn:Hlast; simpl; [discriminate|].
    apply Nat.eqb_neq in Hlast.
    destruct (outcome (retry_loop fn retries (S i) todo (final (fn s)))) eqn:Hrest;
      [|discriminate].
    intros Hnone. apply (IH (S i) (final (fn s)) ltac:(lia) ltac:(lia)).
    congruence.
Qed.

(** ** What the serverless handler answers *)

Lemma serverless_attempt_outcome {W : Type} (ext : Externals W) (req : Request)
    (s : Machine W) :
  let s0 := mkMachine (world s) None in
  let caught := try_catch (Serverless.attempt_try ext req)
                          (fun error => console_error "Error details:" error ;;
                                        throw error) s0 in
  outcome caught = outcome (Serverless.attempt_try ext req s0) /\
  outcome (Serverless.attempt ext req s)
  = match browser (final caught) with
    | None => outcome caught
    | Some b =>
        match fst (browser_close ext b (world (final caught))) with
        | Normal _ => outcome caught
        | Abrupt e => Abrupt e
        end
    end.
Proof.
  intros s0 caught.
  split.
  - subst caught. unfold try_catch.
    destruct (outcome (Serverless.attempt_try ext req s0)) as [r|e] eqn:E;
      [exact E | reflexivity].
  - unfold Serverless.attempt. rewrite outcome_declare_browser.
    unfold try_finally. fold s0. fold caught. simpl.
    unfold Serverless.close_if_launched, bind, read_browser, close, call. simpl.
    destruct (browser (final caught)) as [b|]; simpl; [|reflexivity].
    destruct (browser_close ext b (world (final caught))) as [[[]|e] w']; reflexivity.
Qed.

(** The completion of one attempt of the serverless handler is the one of
    its [try] block, errors included (they are printed and thrown again),
    unless a browser was launched and [browser.close()] rejects: that
    rejection replaces the completion, even a successful one. *)
Theorem serverless_attempt_completion {W : Type} (ext : Externals W) (req : Request)
    (s : Machine W) :
  let s0 := mkMachine (world s) None in
  let caught := try_catch (Serverless.attempt_try ext req)
                          (fun error => console_error "Error details:" error ;;
                                        throw error) s0 in
  outcome caught = outcome (Serverless.attempt_try ext req s0) /\
  outcome (Serverless.attempt ext req s)
  = match browser (final caught) with
    | None => outcome caught
    | Some b =>
        match fst (browser_close ext b (world (final caught))) with
        | Normal _ => outcome caught
        | Abrupt e => Abrupt e
        end
    end.
Proof. exact (serverless_attempt_outcome ext req s). Qed.

Lemma serverless_attempt_normal_inv {W : Type} (ext : Externals W) (req : Request)
    (s : Machine W) (r : Response) :
  outcome (Serverless.attempt ext req s) = Normal r ->
  outcome (Serverless.attempt_try ext req (mkMachine (world s) None)) = Normal r.
Proof.
  pose proof (serverless_attempt_outcome ext req s) as H. cbv zeta in H.
  destruct H as [Hcaught Hattempt]. rewrite Hattempt, <- Hcaught.
  destruct (browser _) as [b|]; [|auto].
  destruct (fst _) as [u|e]; [auto | discriminate].
Qed.

Lemma serverless_try_response {W : Type} (ext : Externals W) (req : Request)
    (s : Machine W) (r : Response) :
  outcome (Serverless.attempt_try ext req s) = Normal r ->
  exists b, body req = Some b /\
            r = mkResponse "Data updated successfully" (next_run b) 200 "application/json".
Proof.
  unfold Serverless.attempt_try, Serverless.with_page, Serverless.scrape_and_append.
  intros H.
  apply bind_normal_inv in H. destruct H as [next [Hbody H]].
  do 16 (apply bind_normal_inv in H; destruct H as [? [_ H]]).
  simpl in H. injection H as Hr.
  unfold Serverless.destructure_body in Hbody.
  destruct (body req) as [b|]; simpl in Hbody; [|discriminate].
  injection Hbody as Hnext. exists b. subst. auto.
Qed.

Lemma retry_loop_result {St V : Type} (fn : M St V) (retries : nat) :
  forall (todo i : nat) (s : St) (v : V),
    outcome (retry_loop fn retries i todo s) = Normal (Some v) ->
    exists s', outcome (fn s') = Normal v.
Proof.
  induction todo as [|todo IH]; intros i s v; simpl; [discriminate|].
  unfold bind. destruct (outcome (fn s)) as [v0|e] eqn:E.
  - rewrite (retry_turn_run_normal fn retries i s E). simpl.
    intros H. injection H as H. subst v0. exists s. exact E.
  - rewrite (retry_turn_run_abrupt fn retries i s E).
    destruct (Nat.eqb i (retries - 1)); simpl; [discriminate|].
    destruct (outcome (retry_loop fn retries (S i) todo (final (fn s)))) as [o|e'] eqn:Hrest;
      [|discriminate].
    intros H. injection H as H. subst o. eapply IH. exact Hrest.
Qed.

Lemma runWithRetry_result {St V : Type} (fn : M St V) (retries : nat) (s : St) (v : V) :
  outcome (runWithRetry fn retries s) = Normal (Some v) ->
  exists s', outcome (fn s') = Normal v.
Proof. unfold runWithRetry. apply retry_loop_result. Qed.

Lemma runWithRetry_defined {St V : Type} (fn : M St V) (retries : nat) (s : St) :
  (1 <= retries)%nat -> outcome (runWithRetry fn retries s) <> Normal None.
Proof. intros H. unfold runWithRetry. apply retry_loop_defined; lia. Qed.

Lemma serverless_handler_unfold {W : Type} (ext : Externals W) (req : Request)
    (s : Machine W) :
  Serverless.handler ext req s = runWithRetry (Serverless.attempt ext req) MAX_RETRIES s.
Proof. reflexivity. Qed.

(** The serverless handler never returns undefined: it throws, or it
    returns the answer of status 200 whose [nextRun] is the [next_run] of
    the body of the request. *)
Theorem serverless_handler_answer {W : Type} (ext : Externals W) (req : Request)
    (s : Machine W) :
  match outcome (Serverless.handler ext req s) with
  | Normal (Some r) =>
      exists b, body req = Some b /\
                r = mkResponse "Data updated successfully" (next_run b) 200
                               "application/json"
  | Normal None => False
  | Abrupt _ => True
  end.
Proof.
  rewrite serverless_handler_unfold.
  destruct (outcome (runWithRetry (Serverless.attempt ext req) MAX_RETRIES s))
    as [[r|]|e] eqn:H; [| |exact I].
  - apply runWithRetry_result in H. destruct H as [s' H].
    apply serverless_attempt_normal_inv in H.
    exact (serverless_try_response _ _ _ H).
  - exfalso. revert H. apply runWithRetry_defined. unfold MAX_RETRIES. lia.
Qed.

Lemma run_declare_browser {W A : Type} (k : unit -> M (Machine W) A) (s : Machine W) :
  bind declare_browser k s
  = mkRun (outcome (k tt (mkMachine (world s) None)))
          (final (k tt (mkMachine (world s) None)))
          (events (k tt (mkMachine (world s) None))).
Proof. reflexivity. Qed.

Lemma serverless_try_without_body {W : Type} (ext : Externals W) (req : Request)
    (s : Machine W) :
  body req = None ->
  Serverless.attempt_try ext req s
  = mkRun (Abrupt (TypeError "Cannot destructure property 'next_run' of 'req.body'")) s [].
Proof.
  intros H.
  unfold Serverless.attempt_try, Serverless.with_page, Serverless.scrape_and_append.
  unfold bind at 1.
  unfold Serverless.destructure_body. rewrite H. reflexivity.
Qed.

Lemma serverless_attempt_without_body {W : Type} (ext : Externals W) (req : Request)
    (s : Machine W) :
  body req = None ->
  Serverless.attempt ext req s
  = mkRun (Abrupt (TypeError "Cannot destructure property 'next_run' of 'req.body'"))
          (mkMachine (world s) None)
          [ConsoleError "Error details:"
             (TypeError "Cannot destructure property 'next_run' of 'req.body'")].
Proof.
  intros H. unfold Serverless.attempt. rewrite run_declare_browser.
  unfold try_finally, try_catch. rewrite (@serverless_try_without_body W ext req _ H).
  reflexivity.
Qed.

Lemma retry_loop_step_fails {St V : Type} (fn : M St V) (retries i todo : nat) (s : St)
    (e : Err) :
  outcome (fn s) = Abrupt e ->
  retry_loop fn retries i (S todo) s
  = if Nat.eqb i (retries - 1)
    then mkRun (Abrupt e) (final (fn s))
               (events (fn s)
                ++ [ConsoleError ("Attempt " ++ Js.decimal (Z.of_nat (i + 1)) ++ " failed:") e])
    else mkRun (outcome (retry_loop fn retries (S i) todo (final (fn s))))
               (final (retry_loop fn retries (S i) todo (final (fn s))))
               ((events (fn s)
                 ++ [ConsoleError ("Attempt " ++ Js.decimal (Z.of_nat (i + 1)) ++ " failed:") e])
                ++ events (retry_loop fn retries (S i) todo (final (fn s)))).
Proof.
  intros E. cbn [retry_loop]. unfold bind.
  rewrite (retry_turn_run_abrupt fn retries i s E).
  destruct (Nat.eqb i (retries - 1)); reflexivity.
Qed.

Lemma retry_loop_same_failure {St V : Type} (fn : M St V) (retries : nat) (e : Err)
    (t : list Event) (f : St -> St) (Q : St -> Prop) :
  (forall s, Q s -> fn s = mkRun (Abrupt e) (f s) t /\ Q (f s) /\ f (f s) = f s) ->
  forall (todo i : nat) (s : St),
    Q s -> (0 < todo)%nat -> (i + todo = retries)%nat ->
    retry_loop fn retries i todo s = mkRun (Abrupt e) (f s) (failure_log t e i todo).
Proof.
  intros Hfn. induction todo as [|todo IH]; intros i s HQ Hpos Hi; [lia|].
  destruct (Hfn s HQ) as [Hrun [HQ' Hidem]].
  assert (E : outcome (fn s) = Abrupt e) by (rewrite Hrun; reflexivity).
  rewrite (retry_loop_step_fails fn retries i todo s E).
  rewrite Hrun. cbn [final events failure_log].
  destruct todo as [|todo].
  - assert (Hlast : Nat.eqb i (retries - 1) = true) by (apply Nat.eqb_eq; lia).
    rewrite Hlast. cbn [failure_log]. rewrite app_nil_r. reflexivity.
  - assert (Hlast : Nat.eqb i (retries - 1) = false) by (apply Nat.eqb_neq; lia).
    rewrite Hlast. rewrite (IH (S i) (f s) HQ' ltac:(lia) ltac:(lia)).
    cbn [outcome final events]. rewrite Hidem. reflexivity.
Qed.

(** A request without a body makes every attempt fail on its first
    statement: the handler prints the TypeError twice per attempt (once by
    the attempt, once by the wrapper), calls nothing outside, and throws
    it after the third attempt. *)
Theorem serverless_handler_without_body {W : Type} (ext : Externals W) (req : Request)
    (s : Machine W) :
  body req = None ->
  let error := TypeError "Cannot destructure property 'next_run' of 'req.body'" in
  Serverless.handler ext req s
  = mkRun (Abrupt error) (mkMachine (world s) None)
          [ConsoleError "Error details:" error; ConsoleError "Attempt 1 failed:" error;
           ConsoleError "Error details:" error; ConsoleError "Attempt 2 failed:" error;
           ConsoleError "Error details:" error; ConsoleError "Attempt 3 failed:" error].
Proof.
  intros Hbody error.
  rewrite serverless_handler_unfold. unfold runWithRetry.
  rewrite (@retry_loop_same_failure _ _ (Serverless.attempt ext req) MAX_RETRIES error
             [ConsoleError "Error details:" error]
             (fun s' => mkMachine (world s') None) (fun _ => True)).
  - reflexivity.
  - intros s' _. split; [|split; [exact I | reflexivity]].
    exact (@serverless_attempt_without_body W ext req s' Hbody).
  - exact I.
  - unfold MAX_RETRIES. lia.
  - reflexivity.
Qed.

Lemma serverless_handler_without_body_witness :
  outcome (Serverless.handler (scripted sunny) (mkRequest None) start)
  = Abrupt (TypeError "Cannot destructure property 'next_run' of 'req.body'").
Proof.
  rewrite (@serverless_handler_without_body Counters (scripted sunny) (mkRequest None)
             start eq_refl).
  reflexivity.
Defined.

(** ** A missing private key *)

Lemma bind_ret_run {St A B : Type} (a : A) (k : A -> M St B) (s : St) :
  bind (ret a) k s = mkRun (outcome (k a s)) (final (k a s)) (events (k a s)).
Proof. reflexivity. Qed.

Lemma bind_read_run {W A B : Type} (f : W -> A) (k : A -> M (Machine W) B) (s : Machine W) :
  bind (read f) k s
  = mkRun (outcome (k (f (world s)) s)) (final (k (f (world s)) s))
          (events (k (f (world s)) s)).
Proof. reflexivity. Qed.

Lemma bind_abrupt_run {St A B : Type} (m : M St A) (k : A -> M St B) (s s' : St)
    (e : Err) (t : list Event) :
  m s = mkRun (Abrupt e) s' t -> bind m k s = mkRun (Abrupt e) s' t.
Proof. intros H. unfold bind. rewrite H. reflexivity. Qed.

Section Private_key.

Context {W : Type} (ext : Externals W).

Local Abbreviation error :=
  (TypeError "Cannot read properties of undefined (reading 'replace')").

Lemma authenticate_without_key (s : Machine W) :
  process_env ext "GOOGLE_CLOUD_PRIVATE_KEY" (world s) = None ->
  authenticate ext s = mkRun (Abrupt error) s [].
Proof.
  intros Hkey. unfold authenticate. rewrite bind_read_run.
  rewrite (@bind_abrupt_run _ _ _ (private_key ext) _ s s error []); [reflexivity|].
  unfold private_key. rewrite bind_read_run, Hkey. reflexivity.
Qed.

Lemma local_try_without_key (s : Machine W) :
  process_env ext "GOOGLE_CLOUD_PRIVATE_KEY" (world s) = None ->
  Local.runScript_try ext s
  = mkRun (Abrupt error) s [ConsoleLog "Function invoked locally at:"].
Proof.
  intros Hkey. unfold Local.runScript_try, Local.with_pages, Local.collect_and_append, console_log.
    rewrite bind_emit_run.
  rewrite (@bind_abrupt_run _ _ _ (authenticate ext) _ s s error []); [reflexivity|].
  apply authenticate_without_key. exact Hkey.
Qed.

Lemma serverless_attempt_without_key (req : Request) (b : RequestBody) (s : Machine W) :
  body req = Some b ->
  process_env ext "GOOGLE_CLOUD_PRIVATE_KEY" (world s) = None ->
  Serverless.attempt ext req s
  = mkRun (Abrupt error) (mkMachine (world s) None)
          [ConsoleLog "Function invoked. Next run scheduled for:";
           ConsoleLog "Current time:";
           ConsoleLog "Setting up Google authentication...";
           ConsoleError "Error details:" error].
Proof.
  intros Hbody Hkey.
  unfold Serverless.attempt. rewrite run_declare_browser.
  assert (Htry : Serverless.attempt_try ext req (mkMachine (world s) None)
                 = mkRun (Abrupt error) (mkMachine (world s) None)
                         [ConsoleLog "Function invoked. Next run scheduled for:";
                          ConsoleLog "Current time:";
                          ConsoleLog "Setting up Google authentication..."]).
  { unfold Serverless.attempt_try, Serverless.with_page, Serverless.scrape_and_append,
      Serverless.destructure_body, console_log.
    rewrite Hbody, bind_ret_run, !bind_emit_run.
    rewrite (@bind_abrupt_run _ _ _ (authenticate ext) _ (mkMachine (world s) None)
               (mkMachine (world s) None) error []); [reflexivity|].
    apply authenticate_without_key. exact Hkey. }
  unfold try_finally, try_catch. rewrite Htry. reflexivity.
Qed.

End Private_key.

(** When GOOGLE_CLOUD_PRIVATE_KEY is not set, [.replace] throws a
    TypeError before anything is called outside.  The local script prints
    it and completes normally; the serverless handler throws it after
    three attempts.  In both only the console is written to, and the world
    is left as it was. *)
Theorem private_key_not_set {W : Type} (ext : Externals W) (req : Request)
    (b : RequestBody) (s : Machine W) :
  process_env ext "GOOGLE_CLOUD_PRIVATE_KEY" (world s) = None ->
  body req = Some b ->
  let error := TypeError "Cannot read properties of undefined (reading 'replace')" in
  Local.runScript ext s
  = mkRun (Normal tt) (mkMachine (world s) None)
          [ConsoleLog "Function invoked locally at:";
           ConsoleError "Error details:" error] /\
  outcome (Serverless.handler ext req s) = Abrupt error /\
  final (Serverless.handler ext req s) = mkMachine (world s) None /\
  Forall is_console (events (Serverless.handler ext req s)).
Proof.
  intros Hkey Hbody error. split.
  - unfold Local.runScript. rewrite run_declare_browser.
    unfold try_finally, try_catch.
    rewrite (@local_try_without_key W ext (mkMachine (world s) None) Hkey).
    reflexivity.
  - rewrite serverless_handler_unfold. unfold runWithRetry.
    rewrite (@retry_loop_same_failure _ _ (Serverless.attempt ext req) MAX_RETRIES error
               [ConsoleLog "Function invoked. Next run scheduled for:";
                ConsoleLog "Current time:";
                ConsoleLog "Setting up Google authentication...";
                ConsoleError "Error details:" error]
               (fun s' => mkMachine (world s') None)
               (fun s' => process_env ext "GOOGLE_CLOUD_PRIVATE_KEY" (world s') = None)).
    + split; [reflexivity | split; [reflexivity|]]. repeat constructor.
    + intros s' Hs'. split; [|split; [exact Hs' | reflexivity]].
      exact (@serverless_attempt_without_key W ext req b s' Hbody Hs').
    + exact Hkey.
    + unfold MAX_RETRIES. lia.
    + reflexivity.
Qed.

Lemma private_key_not_set_witness :
  outcome (Local.runScript no_private_key start) = Normal tt /\
  outcome (Serverless.handler no_private_key scheduled start)
  = Abrupt (TypeError "Cannot read properties of undefined (reading 'replace')").
Proof.
  pose proof (@private_key_not_set Counters no_private_key scheduled
                (mkRequestBody (JStr "2024-05-01T13:00:00.000Z")) start
                eq_refl eq_refl) as H.
  cbv zeta in H. destruct H as [Hlocal [Hserverless _]].
  split; [rewrite Hlocal; reflexivity | exact Hserverless].
Defined.

(** ** Navigation and the metric request of the serverless handler *)

(** The navigation of the serverless handler completes as [page.goto]
    does: a rejection is printed once and thrown again. *)
Theorem serverless_navigate_completion {W : Type} (ext : Externals W) (page : Page)
    (s : Machine W) :
  outcome (Serverless.navigate ext page s)
  = fst (page_goto ext page Serverless.TELEMETRY_URL 60000 (world s)) /\
  events (Serverless.navigate ext page s)
  = Goto page Serverless.TELEMETRY_URL 60000
    :: match fst (page_goto ext page Serverless.TELEMETRY_URL 60000 (world s)) with
       | Normal _ => []
       | Abrupt e => [ConsoleError "Navigation failed:" e]
       end.
Proof.
  unfold Serverless.navigate, try_catch, bind, goto, call. simpl.
  destruct (page_goto ext page Serverless.TELEMETRY_URL 60000 (world s))
    as [[[]|e] w']; split; reflexivity.
Qed.

Lemma property_absent (name : string) (fields : list (string * JsValue)) :
  ~ In name (map fst fields) -> Serverless.property name fields = JUndefined.
Proof.
  induction fields as [|[k v] fields IH]; simpl; intros H; [reflexivity|].
  destruct (String.eqb k name) eqn:E.
  - apply String.eqb_eq in E. exfalso. apply H. left. exact E.
  - apply IH. intros Hin. apply H. right. exact Hin.
Qed.

(** An answer of the metric API that is an object without a
    [spacePledged] field, or that is not an object, is no error for the
    serverless handler: the pledged space is undefined.  An answer whose
    body is null makes the read throw a TypeError. *)
Theorem serverless_fetch_without_field {W : Type} (ext : Externals W) (s : Machine W)
    (answer : ResponseData) (w' : W) :
  axios_get ext Serverless.API_URL (world s) = (Normal (mkAxiosResponse answer), w') ->
  match answer with
  | DataObject fields =>
      ~ In "spacePledged" (map fst fields) ->
      outcome (Serverless.fetch_spacePledged ext s) = Normal JUndefined
  | DataText _ => outcome (Serverless.fetch_spacePledged ext s) = Normal JUndefined
  | DataNull =>
      outcome (Serverless.fetch_spacePledged ext s)
      = Abrupt (TypeError "Cannot read properties of null (reading 'spacePledged')")
  end.
Proof.
  intros Hget.
  unfold Serverless.fetch_spacePledged, bind, call, Serverless.read_spacePledged. simpl.
  rewrite Hget. simpl.
  destruct answer as [|text|fields]; simpl; try reflexivity.
  intros Habsent. rewrite (property_absent _ _ Habsent). reflexivity.
Qed.

Lemma serverless_fetch_without_field_witness :
  outcome (Serverless.fetch_spacePledged
             (metric_api_answers (DataObject [("nodes", JNum (Int 3))])) start)
  = Normal JUndefined /\
  outcome (Serverless.fetch_spacePledged (metric_api_answers DataNull) start)
  = Abrupt (TypeError "Cannot read properties of null (reading 'spacePledged')").
Proof.
  split.
  - apply (@serverless_fetch_without_field Counters
             (metric_api_answers (DataObject [("nodes", JNum (Int 3))])) start
             (DataObject [("nodes", JNum (Int 3))]) (world start) eq_refl).
    simpl. intros [H | []]. discriminate H.
  - exact (@serverless_fetch_without_field Counters (metric_api_answers DataNull) start
             DataNull (world start) eq_refl).
Defined.

(** ** Where a scrape can fail, and how long it pauses *)

Lemma bind_abrupt_inv {St A B : Type} (m : M St A) (k : A -> M St B) (s : St) (e : Err) :
  outcome (bind m k s) = Abrupt e ->
  outcome (m s) = Abrupt e \/
  exists a, outcome (m s) = Normal a /\ outcome (k a (final (m s))) = Abrupt e.
Proof.
  unfold bind. destruct (outcome (m s)) as [a|e']; simpl; intros H;
    [right; exists a; auto | left; injection H as H; subst; reflexivity].
Qed.

Lemma bind_abrupt_after {St A B : Type} (m : M St A) (k : A -> M St B) (s : St) (e : Err) :
  never_throws m ->
  outcome (bind m k s) = Abrupt e ->
  exists a, outcome (k a (final (m s))) = Abrupt e.
Proof.
  intros Hm H. apply bind_abrupt_inv in H. destruct H as [H | [a [_ H]]].
  - destruct (Hm s) as [a Ha]. congruence.
  - exists a. exact H.
Qed.

Lemma bind_normal_run {St A B : Type} (m : M St A) (k : A -> M St B) (s : St) (v : B) :
  outcome (bind m k s) = Normal v ->
  exists a, outcome (k a (final (m s))) = Normal v /\
            events (bind m k s) = (events (m s) ++ events (k a (final (m s))))%list.
Proof.
  unfold bind. destruct (outcome (m s)) as [a|e]; simpl; intros H;
    [exists a; auto | discriminate].
Qed.

Lemma outcome_call {W A : Type} (ev : Event) (op : W -> Completion A * W) (s : Machine W) :
  outcome (call ev op s) = fst (op (world s)) /\ events (call ev op s) = [ev].
Proof. unfold call. destruct (op (world s)) as [c w']. auto. Qed.

Lemma console_log_never_throws {St : Type} (msg : string) :
  never_throws (@console_log St msg).
Proof. intros s. exists tt. reflexivity. Qed.

Lemma when_log_never_throws {St : Type} (c : bool) (msg : string) :
  never_throws (when c (@console_log St msg)).
Proof. intros s. exists tt. destruct c; reflexivity. Qed.

Lemma sleep_never_throws {W : Type} (ext : Externals W) (ms : Z) :
  never_throws (sleep ext ms).
Proof. intros s. exists tt. reflexivity. Qed.

Section Scrape_facts.

Context {W : Type} (ext : Externals W).

Lemma local_waitForElement_quiet (page : Page) (selector : string) (timeout : Z)
    (s : Machine W) :
  (exists present,
     outcome (Local.waitForElement ext page selector timeout s) = Normal present) /\
  pauses (events (Local.waitForElement ext page selector timeout s)) = [] /\
  evaluations (events (Local.waitForElement ext page selector timeout s)) = 0%nat.
Proof.
  unfold Local.waitForElement, try_catch, bind, waitForSelector, call. simpl.
  destruct (page_waitForSelector ext page selector timeout (world s)) as [[u|e] w'];
    simpl; (split; [eexists; reflexivity | auto]).
Qed.

Lemma local_waitForElement_never_throws (page : Page) (selector : string) (timeout : Z) :
  never_throws (Local.waitForElement ext page selector timeout).
Proof. intros s. exact (proj1 (local_waitForElement_quiet page selector timeout s)). Qed.

Lemma local_click_phase_shape (page : Page) (name : string) (s : Machine W) :
  outcome (Local.click_phase ext page name s) = Normal tt /\
  exists j, (j <= 3)%nat /\
            pauses (events (Local.click_phase ext page name s)) = repeat 2000 j /\
            (1 <= evaluations (events (Local.click_phase ext page name s)) <= 3)%nat.
Proof.
  destruct (local_click_loop_shape ext page name 3 0 s) as [b [Ho Hshape]].
  unfold Local.click_phase, bind. rewrite Ho.
  destruct b; cbn [negb when console_log emit ret outcome final events].
  - destruct Hshape as [Hn Hp]. split; [reflexivity|].
    rewrite app_nil_r.
    exists (evaluations (events (Local.click_loop ext page name 0 3 s)) - 1)%nat.
    split; [lia | split; [exact Hp | lia]].
  - destruct Hshape as [Hn Hp]. split; [reflexivity|].
    rewrite pauses_app, evaluations_app, Hn, Hp.
    cbn [pauses evaluations]. rewrite app_nil_r, Nat.add_0_r.
    exists 3%nat. split; [lia | split; [reflexivity | lia]].
Qed.

Lemma local_click_phase_never_throws (page : Page) (name : string) :
  never_throws (Local.click_phase ext page name).
Proof. intros s. exists tt. exact (proj1 (local_click_phase_shape page name s)). Qed.

End Scrape_facts.

Section Scrape_completion.

Context {W : Type} (ext : Externals W).

Lemma bind_call_outcome {A B : Type} (ev : Event) (op : W -> Completion A * W)
    (k : A -> M (Machine W) B) (s : Machine W) :
  outcome (bind (call ev op) k s)
  = match fst (op (world s)) with
    | Normal a => outcome (k a (mkMachine (snd (op (world s))) (browser s)))
    | Abrupt e => Abrupt e
    end.
Proof.
  unfold bind. rewrite call_run. cbn [outcome final].
  destruct (fst (op (world s))); reflexivity.
Qed.

Lemma local_waitForElement_run (page : Page) (selector : string) (timeout : Z)
    (s : Machine W) :
  exists present,
    outcome (Local.waitForElement ext page selector timeout s) = Normal present /\
    final (Local.waitForElement ext page selector timeout s)
    = mkMachine (snd (page_waitForSelector ext page selector timeout (world s)))
                (browser s).
Proof.
  unfold Local.waitForElement, try_catch, bind, waitForSelector, call.
  destruct (page_waitForSelector ext page selector timeout (world s)) as [[u|e] w'];
    cbn [outcome final events fst snd]; eexists; split; reflexivity.
Qed.

(** Navigation and the screenshot decide how the first part of the local
    scrape completes; the wait for the marker does not. *)
Lemma local_load_page_outcome (page : Page) (url name : string) (s : Machine W) :
  outcome (Local.load_page ext page url name s)
  = match fst (page_goto ext page url 60000 (world s)) with
    | Normal _ =>
        fst (page_screenshot ext page (name ++ "_debug.png")
               (setTimeout_elapse ext 10000
                  (snd (page_waitForSelector ext page SELECTOR_MARKER 10000
                          (snd (page_goto ext page url 60000 (world s)))))))
    | Abrupt e => Abrupt e
    end.
Proof.
  unfold Local.load_page, goto, screenshot.
  rewrite (bind_outcome_normal (console_log _) _ s (a := tt) eq_refl).
  cbn [console_log emit final].
  rewrite bind_call_outcome.
  destruct (fst (page_goto ext page url 60000 (world s))) as [u|e]; [|reflexivity].
  rewrite (bind_outcome_normal (console_log _) _ _ (a := tt) eq_refl).
  cbn [console_log emit final].
  match goal with
  | |- context [bind (Local.waitForElement ext page SELECTOR_MARKER 10000) ?k ?s0] =>
      destruct (local_waitForElement_run page SELECTOR_MARKER 10000 s0)
        as [present [Ho Hfinal]];
      rewrite (bind_outcome_normal (Local.waitForElement ext page SELECTOR_MARKER 10000)
                 k s0 Ho), Hfinal
  end.
  cbn [world browser].
  match goal with
  | |- context [bind (when ?c ?m) ?k ?s0] =>
      assert (Hwhen : outcome (when c m s0) = Normal tt /\ final (when c m s0) = s0)
        by (destruct present; split; reflexivity);
      rewrite (bind_outcome_normal (when c m) k s0 (proj1 Hwhen)), (proj2 Hwhen)
  end.
  rewrite (bind_outcome_normal (sleep ext 10000) _ _ (a := tt) eq_refl).
  cbn [sleep final world browser].
  rewrite (bind_outcome_normal (console_log _) _ _ (a := tt) eq_refl).
  cbn [console_log emit final].
  rewrite call_run. reflexivity.
Qed.

End Scrape_completion.

(** The completion of a local scrape is decided by three calls: it throws
    what [page.goto] rejected with, or else what [page.screenshot] rejected
    with, or else what the evaluation that reads the stats rejected with,
    and it returns the snapshot read there otherwise.  A rejection of the
    wait for the marker or of a click evaluation never ends the scrape. *)
Theorem local_scrape_failure_sources {W : Type} (ext : Externals W) (page : Page)
    (url name : string) (s : Machine W) :
  let w1 := snd (page_goto ext page url 60000 (world s)) in
  let w2 := snd (page_waitForSelector ext page SELECTOR_MARKER 10000 w1) in
  let s1 := final (Local.load_page ext page url name s) in
  let s2 := final (Local.click_phase ext page name s1) in
  outcome (Local.scrapePageData ext page url name s)
  = match fst (page_goto ext page url 60000 (world s)) with
    | Abrupt e => Abrupt e
    | Normal _ =>
        match fst (page_screenshot ext page (name ++ "_debug.png")
                     (setTimeout_elapse ext 10000 w2)) with
        | Abrupt e => Abrupt e
        | Normal _ =>
            match fst (page_evaluate ext page (setTimeout_elapse ext 5000 (world s2))) with
            | Abrupt e => Abrupt e
            | Normal d => Normal (returned_by_value (Local.extractStats d))
            end
        end
    end.
Proof.
  intros w1 w2 s1 s2. subst w1 w2 s1 s2.
  pose proof (local_load_page_outcome ext page url name s) as Hload.
  unfold Local.scrapePageData.
  destruct (fst (page_goto ext page url 60000 (world s))) as [u|e].
  - destruct (fst (page_screenshot ext page (name ++ "_debug.png") _)) as [[]|e].
    + rewrite (bind_outcome_normal (Local.load_page ext page url name) _ s Hload).
      rewrite (bind_outcome_normal (Local.click_phase ext page name) _ _
                 (proj1 (local_click_phase_run ext page name _))).
      apply local_read_stats_outcome.
    + rewrite (bind_run_abrupt (Local.load_page ext page url name) _ s Hload).
      reflexivity.
  - rewrite (bind_run_abrupt (Local.load_page ext page url name) _ s Hload). reflexivity.
Qed.

Lemma bind_normal_state {St A B : Type} (m : M St A) (k : A -> M St B) (s : St) (v : B) :
  outcome (bind m k s) = Normal v ->
  exists a s', outcome (k a s') = Normal v /\
               events (bind m k s) = (events (m s) ++ events (k a s'))%list.
Proof.
  intros H. apply bind_normal_run in H. destruct H as [a [H E]]. eauto.
Qed.

Ltac peel H E :=
  apply bind_normal_state in H; destruct H as [? [? [H E]]]; cbv beta in H, E.

Section Scrape_pauses.

Context {W : Type} (ext : Externals W).

Lemma local_load_page_pauses (page : Page) (url name : string) (s : Machine W) :
  outcome (Local.load_page ext page url name s) = Normal tt ->
  pauses (events (Local.load_page ext page url name s)) = [10000] /\
  evaluations (events (Local.load_page ext page url name s)) = 0%nat.
Proof.
  unfold Local.load_page. intros H.
  peel H E1. peel H E2. peel H E3. peel H E4. peel H E5. peel H E6. peel H E7.
  rewrite E1, E2, E3, E4, E5, E6, E7.
  clear E1 E2 E3 E4 E5 E6 E7 H.
  rewrite !pauses_app, !evaluations_app.
  unfold goto, screenshot. rewrite !(proj2 (outcome_call _ _ _)).
  match goal with
  | |- context [Local.waitForElement ext page SELECTOR_MARKER 10000 ?s0] =>
      destruct (local_waitForElement_quiet ext page SELECTOR_MARKER 10000 s0)
        as [_ [Hwp Hwe]]
  end.
  rewrite Hwp, Hwe.
  match goal with
  | |- context [when (negb ?c) _ _] => destruct c
  end;
    cbn [negb when console_log emit ret sleep outcome final events
         pauses evaluations app Nat.add];
    split; reflexivity.
Qed.

Lemma local_read_stats_pauses (page : Page) (name : string) (s : Machine W)
    (stats : Stats) :
  outcome (Local.read_stats ext page name s) = Normal stats ->
  pauses (events (Local.read_stats ext page name s)) = [5000] /\
  evaluations (events (Local.read_stats ext page name s)) = 1%nat.
Proof.
  unfold Local.read_stats. intros H.
  peel H E1. peel H E2. peel H E3. peel H E4.
  rewrite E1, E2, E3, E4. clear E1 E2 E3 E4 H.
  rewrite !pauses_app, !evaluations_app.
  unfold evaluate. rewrite !(proj2 (outcome_call _ _ _)).
  cbn [console_log emit ret sleep outcome final events pauses evaluations app Nat.add].
  split; reflexivity.
Qed.

End Scrape_pauses.

(** A local scrape that returns a snapshot has paused 10000 ms, then
    2000 ms at most three times (the pause after a click evaluation that
    threw), then 5000 ms, between 15 and 21 seconds in all, and has
    evaluated in the page two to four times. *)
Theorem local_scrape_pauses {W : Type} (ext : Externals W) (page : Page)
    (url name : string) (s : Machine W) (stats : Stats) :
  outcome (Local.scrapePageData ext page url name s) = Normal stats ->
  exists j, (j <= 3)%nat /\
    pauses (events (Local.scrapePageData ext page url name s))
    = (10000 :: repeat 2000 j ++ [5000])%list /\
    (2 <= evaluations (events (Local.scrapePageData ext page url name s)) <= 4)%nat.
Proof.
  unfold Local.scrapePageData. intros H.
  apply bind_normal_inv in H. destruct H as [[] [Hload H]].
  rewrite (bind_events_normal (Local.load_page ext page url name) _ s Hload).
  pose proof (proj1 (local_click_phase_run ext page name
                       (final (Local.load_page ext page url name s)))) as Hclick.
  rewrite (bind_outcome_normal (Local.click_phase ext page name) _ _ Hclick) in H.
  rewrite (bind_events_normal (Local.click_phase ext page name) _ _ Hclick).
  rewrite !pauses_app, !evaluations_app.
  destruct (local_load_page_pauses ext page url name s Hload) as [Hlp Hle].
  destruct (local_read_stats_pauses ext page name _ H) as [Hrp Hre].
  destruct (local_click_phase_shape ext page name
              (final (Local.load_page ext page url name s)))
    as [_ [j [Hj [Hcp Hce]]]].
  rewrite Hlp, Hle, Hrp, Hre, Hcp.
  exists j. split; [exact Hj | split; [reflexivity | cbn [Nat.add]; lia]].
Qed.

Lemma local_scrape_pauses_witness :
  exists j, (j <= 3)%nat /\
    pauses (events (Local.scrapePageData (scripted click_blocked) (page_handle 0)
                                         Local.CHRONOS_URL "Chronos" start))
    = (10000 :: repeat 2000 j ++ [5000])%list /\
    (2 <= evaluations (events (Local.scrapePageData (scripted click_blocked)
                                 (page_handle 0) Local.CHRONOS_URL "Chronos" start))
     <= 4)%nat.
Proof.
  apply (@local_scrape_pauses Counters (scripted click_blocked) (page_handle 0)
           Local.CHRONOS_URL "Chronos" start full_stats).
  vm_compute. reflexivity.
Defined.

Lemma serverless_navigate_events {W : Type} (ext : Externals W) (page : Page)
    (s : Machine W) :
  pauses (events (Serverless.navigate ext page s)) = [] /\
  evaluations (events (Serverless.navigate ext page s)) = 0%nat.
Proof.
  unfold Serverless.navigate, try_catch, bind, goto, call. simpl.
  destruct (page_goto ext page Serverless.TELEMETRY_URL 60000 (world s))
    as [[[]|e] w']; split; reflexivity.
Qed.

Lemma serverless_click_element_events {W : Type} (ext : Externals W) (doc : Document)
    (s : Machine W) :
  pauses (events (Serverless.click_element ext doc s)) = [] /\
  evaluations (events (Serverless.click_element ext doc s)) = 0%nat.
Proof.
  unfold Serverless.click_element.
  destruct (singleNodeValue doc CLICK_XPATH) as [el|]; [|split; reflexivity].
  unfold bind, click, call. simpl.
  destruct (element_click ext el (world s)) as [[[]|e] w']; split; reflexivity.
Qed.

(** A scrape of the serverless handler that returns a snapshot has paused
    5000 ms and then 2000 ms, and has evaluated in the page exactly twice:
    once for the click, once for the stats. *)
Theorem serverless_scrape_pauses {W : Type} (ext : Externals W) (page : Page)
    (s : Machine W) (stats : Stats) :
  outcome (Serverless.scrape ext page s) = Normal stats ->
  pauses (events (Serverless.scrape ext page s)) = [5000; 2000] /\
  evaluations (events (Serverless.scrape ext page s)) = 2%nat.
Proof.
  unfold Serverless.scrape. intros H.
  peel H E1. peel H E2. peel H E3. peel H E4. peel H E5. peel H E6.
  peel H E7. peel H E8. peel H E9. peel H E10. peel H E11. peel H E12.
  rewrite E1, E2, E3, E4, E5, E6, E7, E8, E9, E10, E11, E12.
  clear E1 E2 E3 E4 E5 E6 E7 E8 E9 E10 E11 E12 H.
  rewrite !pauses_app, !evaluations_app.
  unfold evaluate. rewrite !(proj2 (outcome_call _ _ _)).
  destruct (serverless_navigate_events ext page x0) as [Hnp Hne].
  rewrite Hnp, Hne.
  match goal with
  | |- context [Serverless.click_element ext ?d ?st] =>
      destruct (serverless_click_element_events ext d st) as [Hcp Hce]
  end.
  rewrite Hcp, Hce.
  cbn [console_log emit ret sleep bind outcome final events
       pauses evaluations app Nat.add].
  split; reflexivity.
Qed.

Lemma serverless_scrape_pauses_witness :
  pauses (events (Serverless.scrape (scripted sunny) (page_handle 0) start))
  = [5000; 2000] /\
  evaluations (events (Serverless.scrape (scripted sunny) (page_handle 0) start)) = 2%nat.
Proof.
  apply (@serverless_scrape_pauses Counters (scripted sunny) (page_handle 0) start
           full_stats).
  vm_compute. reflexivity.
Defined.

(** ** How many rows a run appends, and where *)

Lemma appended_bind_appendless {St A B : Type} (R : St -> St -> Prop)
    (Q : list AppendRequest -> Prop) (m : M St A) (k : A -> M St B) (s : St) :
  obeys R appendless m -> Q [] ->
  (forall a s', Q (appended (events (k a s')))) ->
  Q (appended (events (bind m k s))).
Proof.
  intros Hm Hnil Hk. destruct (Hm s) as [_ HP]. unfold bind.
  destruct (outcome (m s)) as [a|e]; cbn [events].
  - rewrite appended_app, (appendless_appended HP). apply Hk.
  - rewrite (appendless_appended HP). exact Hnil.
Qed.

Ltac appendless_block :=
  repeat (first [ obeys_side
                | obeys_rule leaf_trivial
                | apply harmless_to_appendless, authenticate_harmless
                | apply harmless_to_appendless, local_scrapePageData_harmless
                | apply harmless_to_appendless, local_getSpacePledgedData_harmless
                | apply harmless_to_appendless, serverless_scrape_harmless
                | apply harmless_to_appendless, serverless_fetch_harmless ]).

Ltac appendless_step Q Hnil :=
  apply (@appended_bind_appendless _ _ _ any_state Q);
  [ appendless_block | exact Hnil | intros ? ? ].

Section Rows.

Context {W : Type} (ext : Externals W).

Lemma local_append_network_rows (sheets : Sheets) (sheetId : option string)
    (network timestamp : string) (stats : Stats) (pledged : JsValue) (s : Machine W) :
  ranges (events (Local.append_network ext sheets sheetId network timestamp
                                       stats pledged s)) = [] \/
  ranges (events (Local.append_network ext sheets sheetId network timestamp
                                       stats pledged s)) = [network].
Proof.
  unfold Local.append_network, ranges.
  destruct (Js.strict_neq_null (nodeCount stats)); [|left; reflexivity].
  unfold Local.build_row. destruct (Js.toString pledged) as [error|text];
    [left; reflexivity|].
  right. unfold bind, append, call. simpl.
  destruct (sheets_append ext sheets _ (world s)) as [[u|error] w']; reflexivity.
Qed.

Lemma local_try_rows (s : Machine W) :
  in_network_order (ranges (events (Local.runScript_try ext s))).
Proof.
  assert (Hnil : in_network_order (map range [])) by (left; reflexivity).
  unfold ranges, Local.runScript_try, Local.with_pages, Local.collect_and_append, newPage.
  do 6 appendless_step (fun l => in_network_order (map range l)) Hnil.
  match goal with p : (Page * Page)%type |- _ => destruct p end.
  do 3 appendless_step (fun l => in_network_order (map range l)) Hnil.
  match goal with p : (Stats * Stats)%type |- _ => destruct p end.
  appendless_step (fun l => in_network_order (map range l)) Hnil.
  match goal with p : (JsValue * JsValue)%type |- _ => destruct p end.
  appendless_step (fun l => in_network_order (map range l)) Hnil.
  match goal with
  | |- context [bind (Local.append_network ext ?sh ?id "Chronos" ?t ?st1 ?p1)
                     (fun _ => Local.append_network ext ?sh ?id "mainnet" ?t ?st2 ?p2) ?s0] =>
      pose proof (local_append_network_rows sh id "Chronos" t st1 p1 s0) as Hc;
      pose proof (fun s1 => local_append_network_rows sh id "mainnet" t st2 p2 s1) as Hm;
      unfold ranges in Hc, Hm; unfold bind;
      destruct (outcome (Local.append_network ext sh id "Chronos" t st1 p1 s0));
      cbn [events];
      [ rewrite appended_app, map_app;
        specialize (Hm (final (Local.append_network ext sh id "Chronos" t st1 p1 s0)));
        destruct Hc as [Hc | Hc], Hm as [Hm | Hm]; rewrite Hc, Hm; unfold in_network_order;
        simpl; auto
      | destruct Hc as [Hc | Hc]; rewrite Hc; unfold in_network_order; auto ]
  end.
Qed.

Lemma local_close_appendless : obeys any_state appendless (close_if_launched ext).
Proof. unfold close_if_launched, close. appendless_block. Qed.

End Rows.

(** In every run of the local script at most one row is appended to the
    range Chronos and at most one to the range mainnet, the Chronos row
    first, and to no other range. *)
Theorem local_rows_in_network_order {W : Type} (ext : Externals W) (s : Machine W) :
  in_network_order (ranges (events (Local.runScript ext s))).
Proof.
  unfold Local.runScript. rewrite events_declare_browser.
  unfold try_finally. cbn [events]. unfold ranges. rewrite appended_app.
  match goal with
  | |- context [close_if_launched ext ?s0] =>
      rewrite (appendless_appended (proj2 (local_close_appendless ext s0)))
  end.
  rewrite app_nil_r. unfold try_catch.
  pose proof (local_try_rows ext (mkMachine (world s) None)) as Htry.
  unfold ranges in Htry.
  destruct (outcome (Local.runScript_try ext (mkMachine (world s) None)));
    [exact Htry|].
  cbn [events console_error emit]. rewrite appended_app.
  cbn [appended]. rewrite app_nil_r. exact Htry.
Qed.

Section Serverless_rows.

Context {W : Type} (ext : Externals W).

Lemma serverless_append_row_rows (sheets : Sheets) (sheetId : option string)
    (stats : Stats) (pledged : JsValue) (s : Machine W) :
  exists r, appended (events (Serverless.append_row ext sheets sheetId stats pledged s))
            = [r] /\ range r = "Sheet1".
Proof.
  unfold Serverless.append_row, bind, read, append, call. simpl.
  destruct (sheets_append ext sheets _ (world s)) as [[u|error] w'];
    eexists; split; reflexivity.
Qed.

Lemma serverless_try_rows (req : Request) (s : Machine W) :
  at_most_one_row_to "Sheet1" (appended (events (Serverless.attempt_try ext req s))).
Proof.
  assert (Hnil : at_most_one_row_to "Sheet1" []) by (left; reflexivity).
  unfold Serverless.attempt_try, Serverless.with_page, Serverless.scrape_and_append,
    Serverless.destructure_body, newPage.
  do 15 appendless_step (at_most_one_row_to "Sheet1") Hnil.
  right.
  match goal with
  | |- context [bind (Serverless.append_row ext ?sh ?id ?st ?p) ?k ?s0] =>
      destruct (serverless_append_row_rows sh id st p s0) as [r [Hr Hrange]];
      exists r; split; [|exact Hrange];
      unfold bind at 1;
      destruct (outcome (Serverless.append_row ext sh id st p s0));
      cbn [events]; [rewrite appended_app, Hr; reflexivity | exact Hr]
  end.
Qed.

Lemma serverless_close_appendless :
  obeys any_state appendless (Serverless.close_if_launched ext).
Proof. unfold Serverless.close_if_launched, close. appendless_block. Qed.

Lemma serverless_attempt_rows (req : Request) (s : Machine W) :
  at_most_one_row_to "Sheet1" (appended (events (Serverless.attempt ext req s))).
Proof.
  unfold Serverless.attempt. rewrite events_declare_browser.
  unfold try_finally. cbn [events]. rewrite appended_app.
  match goal with
  | |- context [Serverless.close_if_launched ext ?s0] =>
      rewrite (appendless_appended (proj2 (serverless_close_appendless s0)))
  end.
  rewrite app_nil_r. unfold try_catch.
  pose proof (serverless_try_rows req (mkMachine (world s) None)) as Htry.
  destruct (outcome (Serverless.attempt_try ext req (mkMachine (world s) None)));
    [exact Htry|].
  cbn [events]. rewrite appended_app.
  match goal with
  | |- context [appended (events (bind ?m ?k ?s0))] =>
      assert (Hlog : appended (events (bind m k s0)) = []) by reflexivity
  end.
  rewrite Hlog, app_nil_r. exact Htry.
Qed.

Lemma serverless_attempt_acquired (req : Request) (s : Machine W) :
  (List.length (acquired (events (Serverless.attempt ext req s))) <= 1)%nat.
Proof.
  unfold Serverless.attempt. rewrite events_declare_browser.
  apply scoped_finally_balanced.
  - apply scoped_try_catch; [apply serverless_try_scoped; reflexivity|].
    intros e. obeys_auto.
  - apply serverless_close_if_launched_events.
Qed.

End Serverless_rows.

Lemma retry_loop_appended {St V : Type} (fn : M St V) (retries : nat)
    (P : AppendRequest -> Prop) :
  (forall s, (List.length (appended (events (fn s))) <= 1)%nat /\
             Forall P (appended (events (fn s)))) ->
  forall (todo i : nat) (s : St),
    (List.length (appended (events (retry_loop fn retries i todo s))) <= todo)%nat /\
    Forall P (appended (events (retry_loop fn retries i todo s))).
Proof.
  intros Hfn. induction todo as [|todo IH]; intros i s; [split; [apply le_n | constructor]|].
  destruct (Hfn s) as [Hlen Hall].
  simpl. unfold bind. destruct (outcome (fn s)) as [v|e] eqn:E.
  - rewrite (retry_turn_run_normal fn retries i s E). cbn [outcome final events ret].
    rewrite !app_nil_r. split; [lia | exact Hall].
  - rewrite (retry_turn_run_abrupt fn retries i s E).
    destruct (Nat.eqb i (retries - 1)); cbn [outcome final events].
    + rewrite appended_app. cbn [appended]. rewrite app_nil_r. split; [lia | exact Hall].
    + destruct (IH (S i) (final (fn s))) as [Hlen' Hall'].
      rewrite !appended_app. cbn [appended]. rewrite app_nil_r, length_app.
      split; [lia | apply Forall_app; split; assumption].
Qed.

Lemma retry_loop_acquired {St V : Type} (fn : M St V) (retries : nat) :
  (forall s, (List.length (acquired (events (fn s))) <= 1)%nat) ->
  forall (todo i : nat) (s : St),
    (List.length (acquired (events (retry_loop fn retries i todo s))) <= todo)%nat.
Proof.
  intros Hfn. induction todo as [|todo IH]; intros i s; [apply le_n|].
  pose proof (Hfn s) as Hlen.
  simpl. unfold bind. destruct (outcome (fn s)) as [v|e] eqn:E.
  - rewrite (retry_turn_run_normal fn retries i s E). cbn [outcome final events ret].
    rewrite !app_nil_r. lia.
  - rewrite (retry_turn_run_abrupt fn retries i s E).
    destruct (Nat.eqb i (retries - 1)); cbn [outcome final events].
    + rewrite acquired_app. cbn [acquired]. rewrite app_nil_r. lia.
    + pose proof (IH (S i) (final (fn s))) as Hlen'.
      rewrite !acquired_app. cbn [acquired]. rewrite app_nil_r, length_app.
      lia.
Qed.

(** An attempt of the serverless handler appends at most one row, and an
    invocation at most [MAX_RETRIES] rows, all to the range Sheet1; an
    invocation launches at most [MAX_RETRIES] browsers. *)
Theorem serverless_rows_and_browsers_bound {W : Type} (ext : Externals W)
    (req : Request) (s : Machine W) :
  (List.length (appended (events (Serverless.attempt ext req s))) <= 1)%nat /\
  (List.length (appended (events (Serverless.handler ext req s))) <= MAX_RETRIES)%nat /\
  Forall (fun r => range r = "Sheet1")
         (appended (events (Serverless.handler ext req s))) /\
  (List.length (acquired (events (Serverless.handler ext req s))) <= MAX_RETRIES)%nat.
Proof.
  assert (Hattempt : forall s0,
             (List.length (appended (events (Serverless.attempt ext req s0))) <= 1)%nat /\
             Forall (fun r => range r = "Sheet1")
                    (appended (events (Serverless.attempt ext req s0)))).
  { intros s0. destruct (serverless_attempt_rows ext req s0) as [H | [r [H Hr]]];
      rewrite H; split; simpl; auto. }
  split; [apply Hattempt|].
  rewrite !serverless_handler_unfold. unfold runWithRetry.
  destruct (@retry_loop_appended _ _ (Serverless.attempt ext req) MAX_RETRIES
              (fun r => range r = "Sheet1") Hattempt MAX_RETRIES 0%nat s) as [Hlen Hall].
  split; [exact Hlen | split; [exact Hall|]].
  apply retry_loop_acquired. intros s0. apply serverless_attempt_acquired.
Qed.

(** ** The private key, unescaped *)

Lemma string_pair_ind (P : string -> Prop) :
  P EmptyString ->
  (forall c, P (String c EmptyString)) ->
  (forall c d s, P (String d s) -> P s -> P (String c (String d s))) ->
  forall s, P s.
Proof.
  intros H0 H1 H2. fix IH 1. intros s.
  destruct s as [|c s']; [exact H0|].
  generalize (IH s'). destruct s' as [|d s'']; intros IHs'; [apply H1|].
  apply H2; [exact IHs' | apply IH].
Qed.

Lemma unescape_newlines_pair (c d : ascii) (s : string) :
  Js.unescape_newlines (String c (String d s))
  = if (Ascii.eqb c "\" && Ascii.eqb d "n")%bool
    then String (ascii_of_nat 10) (Js.unescape_newlines s)
    else String c (Js.unescape_newlines (String d s)).
Proof.
  destruct d as [[] [] [] [] [] [] [] []];
    try (rewrite Bool.andb_false_r; reflexivity).
  rewrite Bool.andb_true_r. cbn [Js.unescape_newlines].
  destruct (Ascii.eqb c "\"); reflexivity.
Qed.

Lemma has_escaped_newline_cons (c : ascii) (s : string) :
  has_escaped_newline (String c s)
  = match s with
    | EmptyString => false
    | String d _ => ((Ascii.eqb c "\" && Ascii.eqb d "n") || has_escaped_newline s)%bool
    end.
Proof. destruct s; reflexivity. Qed.

Lemma unescape_newlines_clean (s : string) :
  has_escaped_newline (Js.unescape_newlines s) = false /\
  (forall d t, Js.unescape_newlines s = String d t -> Ascii.eqb d "n" = true ->
               exists t', s = String d t').
Proof.
  induction s as [| c | c d s [IHd Hd] [IHs Hs]] using string_pair_ind.
  - split; [reflexivity | discriminate].
  - split; [reflexivity|]. intros d t H Hn. injection H as H1 H2. subst. eauto.
  - rewrite unescape_newlines_pair.
    destruct (Ascii.eqb c "\" && Ascii.eqb d "n")%bool eqn:Hpair.
    + split.
      * rewrite has_escaped_newline_cons.
        destruct (Js.unescape_newlines s) as [|y ys] eqn:E; [reflexivity|].
        rewrite IHs. reflexivity.
      * intros y t H Hn. injection H as H1 H2. subst y. discriminate Hn.
    + split.
      * rewrite has_escaped_newline_cons.
        destruct (Js.unescape_newlines (String d s)) as [|y ys] eqn:E; [reflexivity|].
        rewrite IHd, Bool.orb_false_r.
        destruct (Ascii.eqb c "\") eqn:Hc; [|reflexivity].
        destruct (Ascii.eqb y "n") eqn:Hy; [|reflexivity].
        destruct (Hd y ys eq_refl Hy) as [t' Ht']. injection Ht' as Hyd _. subst y.
        rewrite Hy in Hpair. discriminate Hpair.
      * intros y t H Hn. injection H as H1 H2. subst y. eauto.
Qed.

Lemma unescape_newlines_fixed (s : string) :
  has_escaped_newline s = false -> Js.unescape_newlines s = s.
Proof.
  induction s as [| c | c d s IHd IHs] using string_pair_ind; try reflexivity.
  rewrite has_escaped_newline_cons, unescape_newlines_pair.
  intros H. apply Bool.orb_false_iff in H. destruct H as [Hpair Hrest].
  rewrite Hpair, (IHd Hrest). reflexivity.
Qed.

(** What [.replace(/\\n/g, '\n')] gives holds no backslash followed by [n]
    any more, so that applying it again changes nothing; a key without
    such a pair is left as it is. *)
Theorem unescape_newlines_complete (s : string) :
  has_escaped_newline (Js.unescape_newlines s) = false /\
  Js.unescape_newlines (Js.unescape_newlines s) = Js.unescape_newlines s /\
  (has_escaped_newline s = false -> Js.unescape_newlines s = s).
Proof.
  pose proof (proj1 (unescape_newlines_clean s)) as H.
  split; [exact H | split; [|apply unescape_newlines_fixed]].
  apply unescape_newlines_fixed. exact H.
Qed.

Lemma unescape_newlines_complete_witness :
  Js.unescape_newlines "-----BEGIN KEY-----" = "-----BEGIN KEY-----".
Proof.
  apply (proj2 (proj2 (unescape_newlines_complete "-----BEGIN KEY-----"))).
  reflexivity.
Defined.

(** ** A failure of the authentication *)

Lemma harmless_acquired (t : list Event) : Forall harmless t -> acquired t = [].
Proof.
  intros H. apply quiet_acquired. eapply Forall_impl; [exact harmless_quiet | exact H].
Qed.

(** The authentication comes before the launch: when it throws, the local
    script completes normally and the attempt of the serverless handler
    throws the same error, and neither launches a browser nor appends a
    row. *)
Theorem authentication_failure_launches_nothing {W : Type} (ext : Externals W)
    (req : Request) (b : RequestBody) (s : Machine W) (e : Err) :
  outcome (authenticate ext (mkMachine (world s) None)) = Abrupt e ->
  body req = Some b ->
  (outcome (Local.runScript ext s) = Normal tt /\
   acquired (events (Local.runScript ext s)) = [] /\
   appended (events (Local.runScript ext s)) = []) /\
  (outcome (Serverless.attempt ext req s) = Abrupt e /\
   acquired (events (Serverless.attempt ext req s)) = [] /\
   appended (events (Serverless.attempt ext req s)) = []).
Proof.
  intros Hauth Hbody.
  destruct (authenticate_harmless ext (mkMachine (world s) None)) as [Hsame Hharmless].
  unfold same_browser in Hsame. cbn [browser] in Hsame.
  pose proof (harmless_acquired Hharmless) as Hacq.
  pose proof (harmless_appended Hharmless) as Happ.
  split.
  - assert (Htry : Local.runScript_try ext (mkMachine (world s) None)
                   = mkRun (Abrupt e) (final (authenticate ext (mkMachine (world s) None)))
                           (ConsoleLog "Function invoked locally at:"
                            :: events (authenticate ext (mkMachine (world s) None)))).
    { unfold Local.runScript_try, Local.with_pages, Local.collect_and_append, console_log.
    rewrite bind_emit_run.
      rewrite (bind_run_abrupt _ _ _ Hauth). reflexivity. }
    unfold Local.runScript. rewrite run_declare_browser.
    unfold try_finally, try_catch. rewrite Htry. cbn [outcome final events].
    unfold close_if_launched.
    unfold read_browser, bind. cbn [outcome final events ret console_error emit].
    rewrite Hsame. cbn [outcome final events ret].
    rewrite !acquired_app, !appended_app. cbn [acquired appended app].
    rewrite Hacq, Happ. auto.
  - assert (Htry : Serverless.attempt_try ext req (mkMachine (world s) None)
                   = mkRun (Abrupt e) (final (authenticate ext (mkMachine (world s) None)))
                           (ConsoleLog "Function invoked. Next run scheduled for:"
                            :: ConsoleLog "Current time:"
                            :: ConsoleLog "Setting up Google authentication..."
                            :: events (authenticate ext (mkMachine (world s) None)))).
    { unfold Serverless.attempt_try, Serverless.with_page, Serverless.scrape_and_append,
      Serverless.destructure_body, console_log.
      rewrite Hbody, bind_ret_run, !bind_emit_run.
      rewrite (bind_run_abrupt _ _ _ Hauth). reflexivity. }
    unfold Serverless.attempt. rewrite run_declare_browser.
    unfold try_finally, try_catch. rewrite Htry. cbn [outcome final events].
    unfold Serverless.close_if_launched.
    unfold read_browser, bind. cbn [outcome final events ret console_error emit throw].
    rewrite Hsame. cbn [outcome final events ret].
    rewrite !acquired_app, !appended_app. cbn [acquired appended app].
    rewrite Hacq, Happ. auto.
Qed.

Lemma authentication_failure_launches_nothing_witness :
  outcome (Local.runScript no_private_key start) = Normal tt /\
  acquired (events (Local.runScript no_private_key start)) = [] /\
  appended (events (Local.runScript no_private_key start)) = [].
Proof.
  apply (@authentication_failure_launches_nothing Counters no_private_key scheduled
           (mkRequestBody (JStr "2024-05-01T13:00:00.000Z")) start
           (TypeError "Cannot read properties of undefined (reading 'replace')")
           eq_refl eq_refl).
Defined.

(** ** Counts written in decimal *)

Section Decimal_text.

Import Decimal.

Local Abbreviation sou := NilEmpty.string_of_uint.

Lemma space_is_no_digit (c : ascii) : Js.is_space c = true -> Js.digit_value c = None.
Proof.
  unfold Js.is_space, Js.digit_value. intros H.
  assert (Hn : nat_of_ascii c = 32%nat \/ (9 <= nat_of_ascii c <= 13)%nat).
  { apply Bool.orb_true_iff in H. destruct H as [H | H].
    - left. apply Nat.eqb_eq. exact H.
    - right. apply Bool.andb_true_iff in H. destruct H as [H1 H2].
      apply Nat.leb_le in H1, H2. lia. }
  repeat match goal with
         | |- context [if ?b then _ else _] =>
             let E := fresh "E" in
             destruct b eqn:E;
             [ apply Bool.andb_true_iff in E; destruct E as [E1 E2];
               apply Z.leb_le in E1, E2; lia | ]
         end.
  reflexivity.
Qed.

Lemma digits_prefix_blank (radix : Z) (rest : string) (acc : option Z) :
  blank rest = true -> Js.digits_prefix radix rest acc = acc.
Proof.
  destruct rest as [|c rest]; [reflexivity|]. simpl. intros H.
  apply Bool.andb_true_iff in H. destruct H as [H _].
  rewrite (space_is_no_digit c H). reflexivity.
Qed.

Lemma digits_prefix_acc (rest : string) (Hrest : blank rest = true) (d : uint) :
  forall p, Js.digits_prefix 10 (sou d ++ rest) (Some (Zpos p))
            = Some (Zpos (Pos.of_uint_acc d p)).
Proof.
  induction d as [|d IH|d IH|d IH|d IH|d IH|d IH|d IH|d IH|d IH|d IH]; intros p;
    [ apply digits_prefix_blank; exact Hrest | ..];
    cbn [NilEmpty.string_of_uint String.append Js.digits_prefix Pos.of_uint_acc];
    match goal with
    | |- context [Js.digit_value ?c] =>
        let v := eval vm_compute in (Js.digit_value c) in
        change (Js.digit_value c) with v
    end;
    cbv iota; change (_ <? 10) with true; cbv iota;
    rewrite <- IH; f_equal; f_equal; lia.
Qed.

Lemma digits_prefix_zero (rest : string) (Hrest : blank rest = true) (d : uint) :
  Js.digits_prefix 10 (sou d ++ rest) (Some 0) = Some (Z.of_N (Pos.of_uint d)).
Proof.
  induction d as [|d IH|d IH|d IH|d IH|d IH|d IH|d IH|d IH|d IH|d IH];
    [ apply digits_prefix_blank; exact Hrest | exact IH | ..];
    cbn [NilEmpty.string_of_uint String.append Js.digits_prefix Pos.of_uint];
    match goal with
    | |- context [Js.digit_value ?c] =>
        let v := eval vm_compute in (Js.digit_value c) in
        change (Js.digit_value c) with v
    end;
    cbv iota; change (_ <? 10) with true; cbv iota;
    exact (@digits_prefix_acc rest Hrest d _).
Qed.

Lemma digits_prefix_decimal (rest : string) (Hrest : blank rest = true) (d : uint) :
  d <> Nil ->
  Js.digits_prefix 10 (sou d ++ rest) None = Some (Z.of_N (Pos.of_uint d)).
Proof.
  destruct d; intros Hd; [congruence | exact (@digits_prefix_zero rest Hrest d) | ..];
    exact (@digits_prefix_acc rest Hrest d _).
Qed.

Lemma solid_digits (d : uint) : solid (sou d) = true.
Proof.
  induction d; [reflexivity | ..]; exact IHd.
Qed.

Lemma sou_nonempty (d : uint) : d <> Nil -> sou d <> EmptyString.
Proof.
  destruct d; intros Hd; [congruence | ..]; discriminate.
Qed.

Lemma strip_sign_digits (d : uint) (rest : string) :
  d <> Nil -> Js.strip_sign (sou d ++ rest) = (1, sou d ++ rest).
Proof.
  destruct d; intros Hd; [congruence | ..]; reflexivity.
Qed.

Lemma space_is_no_x (c : ascii) :
  Js.is_space c = true -> c <> "x"%char /\ c <> "X"%char.
Proof.
  intros H. split; intros ->; discriminate H.
Qed.

Lemma strip_radix_digits (d : uint) (rest : string) :
  d <> Nil -> blank rest = true ->
  Js.strip_radix (sou d ++ rest) = (10, sou d ++ rest).
Proof.
  destruct d as [|d|d|d|d|d|d|d|d|d|d]; intros Hd Hrest;
    [congruence | | reflexivity ..].
  destruct d; try reflexivity.
  destruct rest as [|c rest]; [reflexivity|].
  cbn [blank] in Hrest. apply Bool.andb_true_iff in Hrest. destruct Hrest as [Hc _].
  destruct (space_is_no_x c Hc) as [Hx HX].
  cbn [NilEmpty.string_of_uint String.append Js.strip_radix].
  destruct c as [[] [] [] [] [] [] [] []]; try reflexivity; congruence.
Qed.

Lemma trimStart_blank_app (b x : string) :
  blank b = true -> Js.trimStart (b ++ x) = Js.trimStart x.
Proof.
  induction b as [|c b IH]; [reflexivity|]. cbn [blank String.append Js.trimStart].
  intros H. apply Bool.andb_true_iff in H. destruct H as [Hc Hb].
  rewrite Hc. exact (IH Hb).
Qed.

Lemma trimStart_blank (b : string) : blank b = true -> Js.trimStart b = EmptyString.
Proof.
  induction b as [|c b IH]; [reflexivity|]. cbn [blank Js.trimStart].
  intros H. apply Bool.andb_true_iff in H. destruct H as [Hc Hb].
  rewrite Hc. exact (IH Hb).
Qed.

Lemma trimStart_solid (x rest : string) :
  solid x = true -> x <> EmptyString -> Js.trimStart (x ++ rest) = x ++ rest.
Proof.
  destruct x as [|c x]; [congruence|]. cbn [solid String.append Js.trimStart].
  intros H _. apply Bool.andb_true_iff in H. destruct H as [Hc _].
  apply Bool.negb_true_iff in Hc. rewrite Hc. reflexivity.
Qed.

Lemma string_append_assoc (a b c : string) : ((a ++ b) ++ c = a ++ (b ++ c))%string.
Proof.
  induction a as [|x a IH]; [reflexivity|]. cbn [String.append]. rewrite IH. reflexivity.
Qed.

Lemma string_append_nil_r (a : string) : (a ++ EmptyString)%string = a.
Proof.
  induction a as [|x a IH]; [reflexivity|]. cbn [String.append]. rewrite IH. reflexivity.
Qed.

Lemma rev_string_acc (s : string) :
  forall acc, Js.rev_string s acc = Js.rev_string s EmptyString ++ acc.
Proof.
  induction s as [|c s IH]; intros acc; [reflexivity|].
  cbn [Js.rev_string]. rewrite (IH (String c acc)), (IH (String c EmptyString)).
  rewrite string_append_assoc. reflexivity.
Qed.

Lemma rev_string_app (a b : string) :
  forall acc, Js.rev_string (a ++ b) acc = Js.rev_string b (Js.rev_string a acc).
Proof.
  induction a as [|c a IH]; intros acc; [reflexivity|].
  cbn [String.append Js.rev_string]. apply IH.
Qed.

Lemma rev_string_rev (s : string) :
  forall acc acc', Js.rev_string (Js.rev_string s acc) acc'
                   = Js.rev_string acc (s ++ acc').
Proof.
  induction s as [|c s IH]; intros acc acc'; [reflexivity|].
  cbn [Js.rev_string]. rewrite IH. reflexivity.
Qed.

Lemma blank_rev (s : string) :
  forall acc, blank (Js.rev_string s acc) = (blank s && blank acc)%bool.
Proof.
  induction s as [|c s IH]; intros acc; [reflexivity|].
  cbn [Js.rev_string blank]. rewrite IH. cbn [blank].
  destruct (Js.is_space c), (blank s), (blank acc); reflexivity.
Qed.

Lemma solid_rev (s : string) :
  forall acc, solid (Js.rev_string s acc) = (solid s && solid acc)%bool.
Proof.
  induction s as [|c s IH]; intros acc; [reflexivity|].
  cbn [Js.rev_string solid]. rewrite IH. cbn [solid].
  destruct (Js.is_space c), (solid s), (solid acc); reflexivity.
Qed.

Lemma rev_nonempty (s : string) :
  s <> EmptyString -> Js.rev_string s EmptyString <> EmptyString.
Proof.
  destruct s as [|c s]; [congruence|]. intros _. cbn [Js.rev_string].
  rewrite rev_string_acc. destruct (Js.rev_string s EmptyString); discriminate.
Qed.

Lemma trimEnd_solid (x after : string) :
  solid x = true -> x <> EmptyString -> blank after = true ->
  Js.trimEnd (x ++ after) = x.
Proof.
  intros Hx Hne Hafter. unfold Js.trimEnd.
  assert (Hblank : blank (Js.rev_string after EmptyString) = true)
    by (rewrite blank_rev, Hafter; reflexivity).
  assert (Hsolid : solid (Js.rev_string x EmptyString) = true)
    by (rewrite solid_rev, Hx; reflexivity).
  rewrite rev_string_app, (@rev_string_acc after (Js.rev_string x EmptyString)).
  rewrite (@trimStart_blank_app _ (Js.rev_string x EmptyString) Hblank).
  pose proof (@trimStart_solid _ EmptyString Hsolid (@rev_nonempty x Hne)) as H.
  rewrite string_append_nil_r in H. rewrite H, rev_string_rev.
  cbn [Js.rev_string]. apply string_append_nil_r.
Qed.

Lemma trim_solid (before x after : string) :
  blank before = true -> solid x = true -> x <> EmptyString -> blank after = true ->
  Js.trim (before ++ x ++ after) = x.
Proof.
  intros Hb Hx Hne Ha. unfold Js.trim.
  rewrite (@trimStart_blank_app before (x ++ after) Hb), (@trimStart_solid x after Hx Hne).
  exact (@trimEnd_solid x after Hx Hne Ha).
Qed.

Lemma decimal_shape (n : N) :
  exists d, d <> Nil /\ Js.decimal (Z.of_N n) = sou d /\ Pos.of_uint d = n.
Proof.
  destruct n as [|p].
  - exists (D0 Nil). repeat split. discriminate.
  - exists (Pos.to_uint p).
    assert (Hd : Pos.to_uint p <> Nil) by apply DecimalPos.Unsigned.to_uint_nonnil.
    repeat split.
    + exact Hd.
    + unfold Js.decimal. cbn [Z.of_N Z.to_int NilZero.string_of_int].
      unfold NilZero.string_of_uint. destruct (Pos.to_uint p); [congruence | reflexivity ..].
    + apply DecimalPos.Unsigned.of_to.
Qed.

Lemma parseInt_decimal (n : N) (before after : string) :
  blank before = true -> blank after = true ->
  Js.parseInt (JStr (before ++ Js.decimal (Z.of_N n) ++ after)) = JNum (Int (Z.of_N n)).
Proof.
  intros Hb Ha. destruct (decimal_shape n) as (d & Hd & -> & Hn).
  unfold Js.parseInt. cbn [Js.ToString].
  rewrite (@trimStart_blank_app before (sou d ++ after) Hb),
          (@trimStart_solid (sou d) after (solid_digits d) (@sou_nonempty d Hd)),
          (@strip_sign_digits d after Hd), (@strip_radix_digits d after Hd Ha),
          (@digits_prefix_decimal after Ha d Hd), Hn.
  f_equal. f_equal. lia.
Qed.

Lemma trim_decimal (n : N) (before after : string) :
  blank before = true -> blank after = true ->
  Js.trim (before ++ Js.decimal (Z.of_N n) ++ after) = Js.decimal (Z.of_N n).
Proof.
  intros Hb Ha. destruct (decimal_shape n) as (d & Hd & -> & _).
  exact (@trim_solid before (sou d) after Hb (solid_digits d) (@sou_nonempty d Hd) Ha).
Qed.

Lemma decimal_truthy (n : N) : Js.truthy (JStr (Js.decimal (Z.of_N n))) = true.
Proof.
  destruct (decimal_shape n) as (d & Hd & -> & _).
  cbn [Js.truthy]. destruct (sou d) eqn:E; [|reflexivity].
  exfalso. exact (@sou_nonempty d Hd E).
Qed.

End Decimal_text.

Ltac read_field :=
  let Hq := fresh "Hq" in
  intros Hq;
  unfold Local.extractStats, Serverless.extractStats,
         Local.getTextBySelector, Local.getTextByXPath,
         Serverless.getTextBySelector, Serverless.getTextByXPath,
         Serverless.parse_or_null;
  cbn [nodeCount subspaceNodeCount spaceAcresNodeCount
       linuxNodeCount windowsNodeCount macosNodeCount];
  rewrite Hq.

(** A count rendered in decimal digits, with white space around it or not,
    is read as that number: by both programs and for each of the six fields
    of the snapshot (the count is in the range where a JavaScript number is
    exact). *)
Theorem counts_read_from_decimal_text (doc : Document) (e : Element) (n : N)
    (before after : string) :
  blank before = true -> blank after = true -> (Z.of_N n < 2 ^ 53)%Z ->
  textContent e = (before ++ Js.decimal (Z.of_N n) ++ after)%string ->
  (querySelector doc SELECTOR_NODE_COUNT = Some e ->
   nodeCount (Local.extractStats doc) = JNum (Int (Z.of_N n))
   /\ nodeCount (Serverless.extractStats doc) = JNum (Int (Z.of_N n)))
  /\ (querySelector doc SELECTOR_SUBSPACE = Some e ->
      subspaceNodeCount (Local.extractStats doc) = JNum (Int (Z.of_N n))
      /\ subspaceNodeCount (Serverless.extractStats doc) = JNum (Int (Z.of_N n)))
  /\ (querySelector doc SELECTOR_SPACE_ACRES = Some e ->
      spaceAcresNodeCount (Local.extractStats doc) = JNum (Int (Z.of_N n))
      /\ spaceAcresNodeCount (Serverless.extractStats doc) = JNum (Int (Z.of_N n)))
  /\ (singleNodeValue doc XPATH_LINUX = Some e ->
      linuxNodeCount (Local.extractStats doc) = JNum (Int (Z.of_N n))
      /\ linuxNodeCount (Serverless.extractStats doc) = JNum (Int (Z.of_N n)))
  /\ (singleNodeValue doc XPATH_WINDOWS = Some e ->
      windowsNodeCount (Local.extractStats doc) = JNum (Int (Z.of_N n))
      /\ windowsNodeCount (Serverless.extractStats doc) = JNum (Int (Z.of_N n)))
  /\ (singleNodeValue doc XPATH_MACOS = Some e ->
      macosNodeCount (Local.extractStats doc) = JNum (Int (Z.of_N n))
      /\ macosNodeCount (Serverless.extractStats doc) = JNum (Int (Z.of_N n))).
Proof.
  intros Hb Ha _ Htext.
  pose proof (@parseInt_decimal n before after Hb Ha) as Hraw.
  pose proof (@parseInt_decimal n EmptyString EmptyString eq_refl eq_refl) as Htrimmed.
  cbn [String.append] in Htrimmed. rewrite string_append_nil_r in Htrimmed.
  pose proof (@trim_decimal n before after Hb Ha) as Htrim.
  pose proof (decimal_truthy n) as Htruthy.
  repeat match goal with |- _ /\ _ => split end; read_field;
    rewrite Htext, ?Htrim, ?Htruthy, ?Hraw, ?Htrimmed; split; reflexivity.
Qed.

Ltac returned_field :=
  let Hq := fresh "Hq" in
  intros Hq;
  unfold returned_by_value, Local.extractStats, Serverless.extractStats,
         Local.getTextBySelector, Local.getTextByXPath,
         Serverless.getTextBySelector, Serverless.getTextByXPath,
         Serverless.parse_or_null;
  cbn [nodeCount subspaceNodeCount spaceAcresNodeCount
       linuxNodeCount windowsNodeCount macosNodeCount];
  rewrite Hq.

(** An element that is there but holds white space only (or nothing).  In
    the page its count is NaN for the local script, and for the node count
    of the serverless handler; NaN does not come back from the page, and in
    the snapshot either program gets, the field is null, whichever of the
    six fields it is.  With such a node count the local script skips the
    append of the network. *)
Theorem blank_text_counts {W : Type} (ext : Externals W) (doc : Document) (e : Element)
    (sheets : Sheets) (sheetId : option string) (network timestamp : string)
    (pledged : JsValue) (s : Machine W) :
  blank (textContent e) = true ->
  (querySelector doc SELECTOR_NODE_COUNT = Some e ->
   nodeCount (Local.extractStats doc) = JNum NaN
   /\ nodeCount (Serverless.extractStats doc) = JNum NaN
   /\ nodeCount (returned_by_value (Local.extractStats doc)) = JNull
   /\ nodeCount (returned_by_value (Serverless.extractStats doc)) = JNull
   /\ Local.append_network ext sheets sheetId network timestamp
                           (returned_by_value (Local.extractStats doc)) pledged s
      = mkRun (Normal tt) s
              [ConsoleLog ("Skipping " ++ network ++ " data append due to null values")])
  /\ (querySelector doc SELECTOR_SUBSPACE = Some e ->
      subspaceNodeCount (returned_by_value (Local.extractStats doc)) = JNull
      /\ subspaceNodeCount (returned_by_value (Serverless.extractStats doc)) = JNull)
  /\ (querySelector doc SELECTOR_SPACE_ACRES = Some e ->
      spaceAcresNodeCount (returned_by_value (Local.extractStats doc)) = JNull
      /\ spaceAcresNodeCount (returned_by_value (Serverless.extractStats doc)) = JNull)
  /\ (singleNodeValue doc XPATH_LINUX = Some e ->
      linuxNodeCount (returned_by_value (Local.extractStats doc)) = JNull
      /\ linuxNodeCount (returned_by_value (Serverless.extractStats doc)) = JNull)
  /\ (singleNodeValue doc XPATH_WINDOWS = Some e ->
      windowsNodeCount (returned_by_value (Local.extractStats doc)) = JNull
      /\ windowsNodeCount (returned_by_value (Serverless.extractStats doc)) = JNull)
  /\ (singleNodeValue doc XPATH_MACOS = Some e ->
      macosNodeCount (returned_by_value (Local.extractStats doc)) = JNull
      /\ macosNodeCount (returned_by_value (Serverless.extractStats doc)) = JNull).
Proof.
  intros Hblank.
  assert (Hraw : Js.parseInt (JStr (textContent e)) = JNum NaN).
  { unfold Js.parseInt. cbn [Js.ToString].
    rewrite (trimStart_blank _ Hblank). reflexivity. }
  assert (Htrim : Js.trim (textContent e) = EmptyString).
  { unfold Js.trim. rewrite (trimStart_blank _ Hblank). reflexivity. }
  split.
  - intros Hq.
    assert (Hnull : nodeCount (returned_by_value (Local.extractStats doc)) = JNull).
    { revert Hq. returned_field. rewrite Hraw. reflexivity. }
    repeat match goal with |- _ /\ _ => split end.
    + revert Hq. read_field. exact Hraw.
    + revert Hq. read_field. exact Hraw.
    + exact Hnull.
    + revert Hq. returned_field. rewrite Hraw. reflexivity.
    + unfold Local.append_network. rewrite Hnull. reflexivity.
  - repeat match goal with |- _ /\ _ => split end; returned_field;
      rewrite Htrim; split; reflexivity.
Qed.

Lemma counts_read_from_decimal_text_witness :
  subspaceNodeCount (Local.extractStats full_document) = JNum (Int 900)
  /\ subspaceNodeCount (Serverless.extractStats full_document) = JNum (Int 900).
Proof.
  exact (proj1 (proj2 (@counts_read_from_decimal_text
                         full_document (mkElement 2 " 900 ") 900%N " " " "
                         eq_refl eq_refl eq_refl eq_refl))
               eq_refl).
Defined.

Lemma blank_text_counts_witness :
  returned_by_value
    (Local.extractStats (mkDocument (fun _ => Some (mkElement 1 " ")) (fun _ => None)))
  = mkStats JNull JNull JNull JNull JNull JNull /\
  Local.append_network (scripted sunny) (sheets_handle 0) None "Chronos"
    "2024-05-01T12:00:00.000Z"
    (returned_by_value
       (Local.extractStats (mkDocument (fun _ => Some (mkElement 1 " ")) (fun _ => None))))
    (JStr "12345") start
  = mkRun (Normal tt) start
          [ConsoleLog "Skipping Chronos data append due to null values"].
Proof.
  destruct (@blank_text_counts Counters (scripted sunny)
              (mkDocument (fun _ => Some (mkElement 1 " ")) (fun _ => None))
              (mkElement 1 " ") (sheets_handle 0) None "Chronos"
              "2024-05-01T12:00:00.000Z" (JStr "12345") start eq_refl)
    as [Hnode _].
  destruct (Hnode eq_refl) as [_ [_ [_ [_ Hskip]]]].
  split; [vm_compute; reflexivity | exact Hskip].
Defined.
